(** * Fund.fun: bonding-curve issuance and deployer vesting

    A shallow embedding of the three Solidity contracts of the repository
    ([ERC20Token] and [TokenFactory] in [contract/src/TokenFactory.sol],
    [BondingCurve] in [BondingCurve.sol]) and the properties of the
    specification that concern them.

    Conventions of the embedding:
    - a [uint256] is a [Z]; Solidity 0.8 arithmetic is checked, so [+], [-],
      [*] and [/] are the operations [add], [sub], [mul], [div] below, which
      revert with a [Panic] instead of wrapping;
    - a [mapping(address => uint256)] is a [gmap address Z] read with
      default [0];
    - contract code runs in the monad [M St]: state passing over the storage
      [St], failure for [revert], and a writer for the emitted events;
    - a transaction that reverts leaves the world as it was ([execute]). *)

From Stdlib Require Import ZArith List Lia Bool String.
From stdpp Require Import base option list gmap.

Local Open Scope Z_scope.

(** ** Values *)

Abbreviation address := Z.
Abbreviation uint256 := Z.

Definition MAX_UINT256 : Z := 2 ^ 256 - 1.
Definition ether : Z := 10 ^ 18.
Definition days : Z := 86400.

Arguments MAX_UINT256 : simpl never.
Arguments ether : simpl never.
Arguments days : simpl never.

(** Revert reasons: the [require] strings of the three contracts, the custom
    errors of the OpenZeppelin ERC20 base, compiler panics, and the two ways
    a call can be refused before it runs. *)
Inductive Error :=
| PanicOverflow           (* Panic(0x11), also underflow *)
| PanicDivisionByZero     (* Panic(0x12) *)
| NotPayable              (* value sent to a function that is not payable *)
| InsufficientFunds       (* sender cannot pay msg.value *)
| UnknownContract         (* call to an address that holds no token *)
| ERC20InsufficientBalance
| ERC20InsufficientAllowance
| ERC20InvalidSender
| ERC20InvalidReceiver
| ERC20InvalidApprover
| ERC20InvalidSpender
| OnlyOwner               (* "Only owner" *)
| OnlyDeployer            (* "Only deployer" *)
| ZeroAddress             (* "Zero address" *)
| OwnerZeroAddress        (* "Owner zero address" *)
| DeployerZeroAddress     (* "Deployer zero address" *)
| TokenZeroAddress        (* "Token zero address" *)
| PlatformZeroAddress     (* "Platform zero address" *)
| Unauthorized            (* "Unauthorized" / "UNAUTHORIZED" *)
| VestingOngoing          (* "Vesting ongoing" *)
| MilestonesAlreadyReached (* "Milestones reached" *)
| BuyAmountTooSmall       (* "Buy amount too small" *)
| CurveHasGraduated       (* "Curve has graduated" *)
| InsufficientETH         (* "Insufficient ETH" *)
| AmountMustBePositive    (* "Amount must be > 0" *)
| TokenTransferFailed     (* "Token transfer failed" *)
| ETHTransferFailed       (* "ETH transfer failed" *)
| NoFeesAvailable         (* "No fees available" *)
| TransferFailed          (* "Transfer failed" *)
| AlreadyInitialized      (* "Already initialized" *)
| InsufficientFee         (* "Insufficient fee" *)
| FeeTransferFailed       (* "Fee transfer failed" *)
| NoSuchFunction.         (* call of a function the callee does not have *)

Inductive Event :=
| Transfer (from to : address) (value : uint256)
| Approval (holder spender : address) (value : uint256)
| TokensMinted (to : address) (amount : uint256)
| TokensBurned (from : address) (amount : uint256)
| MilestonesReached
| DeployerTokensVested (amount : uint256)
| UnvestedTokensBurned (amount : uint256)
| Bought (buyer : address) (ethIn tokensOut platformFee : uint256)
| Sold (seller : address) (ethOut tokensIn platformFee : uint256)
| Graduated (marketCap liquidity : uint256)
| TokenCreated (tokenAddress : address) (name symbol : string) (deployer : address)
| BondingCurveCreated (bondingCurveAddress tokenAddress : address).

Inductive Result (A : Type) :=
| Ok (a : A)
| Err (e : Error).
Arguments Ok {A} a.
Arguments Err {A} e.

(** ** The contract monad *)

Module Contract.

Definition M (St A : Type) : Type := St -> Result (A * St * list Event).

Definition ret {St A} (a : A) : M St A := fun s => Ok (a, s, []).

Definition bind {St A B} (m : M St A) (f : A -> M St B) : M St B :=
  fun s =>
    match m s with
    | Err e => Err e
    | Ok (a, s1, ev1) =>
        match f a s1 with
        | Err e => Err e
        | Ok (b, s2, ev2) => Ok (b, s2, ev1 ++ ev2)
        end
    end.

Definition revert {St A} (e : Error) : M St A := fun _ => Err e.

Definition require {St} (b : bool) (e : Error) : M St unit :=
  if b then ret tt else revert e.

Definition emit {St} (e : Event) : M St unit := fun s => Ok (tt, s, [e]).

Definition gets {St A} (f : St -> A) : M St A := fun s => Ok (f s, s, []).

Definition modify {St} (f : St -> St) : M St unit := fun s => Ok (tt, f s, []).

(** Running the code of a contract whose storage is a part of [S]. *)
Definition zoom {S T A} (get : S -> T) (set : T -> S -> S) (m : M T A) : M S A :=
  fun s =>
    match m (get s) with
    | Err e => Err e
    | Ok (a, t, ev) => Ok (a, set t s, ev)
    end.

End Contract.
Import Contract.

Notation "x <- m ;; k" := (bind m (fun x => k))
  (at level 100, m at next level, k at level 200, right associativity).
Notation "m ;;; k" := (bind m (fun _ => k))
  (at level 100, k at level 200, right associativity).

(** ** Checked arithmetic on uint256 *)

Definition add {St} (a b : uint256) : M St uint256 :=
  if a + b <=? MAX_UINT256 then ret (a + b) else revert PanicOverflow.

Definition sub {St} (a b : uint256) : M St uint256 :=
  if b <=? a then ret (a - b) else revert PanicOverflow.

Definition mul {St} (a b : uint256) : M St uint256 :=
  if a * b <=? MAX_UINT256 then ret (a * b) else revert PanicOverflow.

Definition div {St} (a b : uint256) : M St uint256 :=
  if b =? 0 then revert PanicDivisionByZero else ret (a / b).

(** Reading a Solidity mapping: an absent key reads as [0]. *)
Definition balance (m : gmap address uint256) (a : address) : uint256 :=
  default 0 (m !! a).

Definition allowed (m : gmap (address * address) uint256) (holder spender : address)
  : uint256 :=
  default 0 (m !! (holder, spender)).

(** ** ERC20Token (TokenFactory.sol) *)

Module ERC20Token.

Definition TOTAL_SUPPLY : uint256 := 1000000000 * 10 ^ 18.
Definition DEPLOYER_ALLOCATION_PERCENT : uint256 := 2.
Definition DEPLOYER_ALLOCATION : uint256 :=
  (TOTAL_SUPPLY * DEPLOYER_ALLOCATION_PERCENT) / 100.
Definition VESTING_DURATION : uint256 := 180 * days.

Arguments TOTAL_SUPPLY : simpl never.
Arguments DEPLOYER_ALLOCATION : simpl never.
Arguments VESTING_DURATION : simpl never.

(** Storage: the three slots of the ERC20 base the code reads or writes,
    then the contract's own variables and immutables. *)
Record t := mk {
  name : string;
  symbol : string;
  balances : gmap address uint256;
  allowances : gmap (address * address) uint256;
  totalSupply : uint256;
  owner : address;
  deployer : address;
  vestingStartTime : uint256;
  vestedAmount : uint256;
  milestonesReached : bool
}.

Definition set_balances (f : gmap address uint256 -> gmap address uint256) (s : t) : t :=
  mk (name s) (symbol s) (f (balances s)) (allowances s) (totalSupply s)
     (owner s) (deployer s) (vestingStartTime s) (vestedAmount s)
     (milestonesReached s).
Definition set_allowances
    (f : gmap (address * address) uint256 -> gmap (address * address) uint256)
    (s : t) : t :=
  mk (name s) (symbol s) (balances s) (f (allowances s)) (totalSupply s)
     (owner s) (deployer s) (vestingStartTime s) (vestedAmount s)
     (milestonesReached s).
Definition set_totalSupply (v : uint256) (s : t) : t :=
  mk (name s) (symbol s) (balances s) (allowances s) v
     (owner s) (deployer s) (vestingStartTime s) (vestedAmount s)
     (milestonesReached s).
Definition set_owner (v : address) (s : t) : t :=
  mk (name s) (symbol s) (balances s) (allowances s) (totalSupply s)
     v (deployer s) (vestingStartTime s) (vestedAmount s)
     (milestonesReached s).
Definition set_vestedAmount (v : uint256) (s : t) : t :=
  mk (name s) (symbol s) (balances s) (allowances s) (totalSupply s)
     (owner s) (deployer s) (vestingStartTime s) v
     (milestonesReached s).
Definition set_milestonesReached (v : bool) (s : t) : t :=
  mk (name s) (symbol s) (balances s) (allowances s) (totalSupply s)
     (owner s) (deployer s) (vestingStartTime s) (vestedAmount s) v.

(** *** The inherited ERC20 base (OpenZeppelin 5, [pragma ^0.8.20]) *)

(** [_update(from, to, value)] with [from = 0] for a mint and [to = 0]
    for a burn. Only the total supply of a mint is checked arithmetic. *)
Definition _update (from to : address) (value : uint256) : M t unit :=
  (if from =? 0 then
     s <- gets totalSupply ;;
     s' <- add s value ;;
     modify (set_totalSupply s')
   else
     fromBalance <- gets (fun s => balance (balances s) from) ;;
     require (value <=? fromBalance) ERC20InsufficientBalance ;;;
     modify (set_balances <[from := fromBalance - value]>)) ;;;
  (if to =? 0 then
     s <- gets totalSupply ;;
     modify (set_totalSupply (s - value))
   else
     toBalance <- gets (fun s => balance (balances s) to) ;;
     modify (set_balances <[to := toBalance + value]>)) ;;;
  emit (Transfer from to value).

Definition _mint (account : address) (value : uint256) : M t unit :=
  require (negb (account =? 0)) ERC20InvalidReceiver ;;;
  _update 0 account value.

Definition _burn (account : address) (value : uint256) : M t unit :=
  require (negb (account =? 0)) ERC20InvalidSender ;;;
  _update account 0 value.

Definition _transfer (from to : address) (value : uint256) : M t unit :=
  require (negb (from =? 0)) ERC20InvalidSender ;;;
  require (negb (to =? 0)) ERC20InvalidReceiver ;;;
  _update from to value.

Definition _spendAllowance (holder spender : address) (value : uint256) : M t unit :=
  currentAllowance <- gets (fun s => allowed (allowances s) holder spender) ;;
  if currentAllowance =? MAX_UINT256 then ret tt
  else
    require (value <=? currentAllowance) ERC20InsufficientAllowance ;;;
    require (negb (holder =? 0)) ERC20InvalidApprover ;;;
    require (negb (spender =? 0)) ERC20InvalidSpender ;;;
    modify (set_allowances <[(holder, spender) := currentAllowance - value]>).

Definition transfer (sender to : address) (value : uint256) : M t bool :=
  _transfer sender to value ;;;
  ret true.

Definition approve (sender spender : address) (value : uint256) : M t bool :=
  require (negb (sender =? 0)) ERC20InvalidApprover ;;;
  require (negb (spender =? 0)) ERC20InvalidSpender ;;;
  modify (set_allowances <[(sender, spender) := value]>) ;;;
  emit (Approval sender spender value) ;;;
  ret true.

Definition transferFrom (sender from to : address) (value : uint256) : M t bool :=
  _spendAllowance from sender value ;;;
  _transfer from to value ;;;
  ret true.

(** *** The contract's own functions *)

Definition constructor (tokenName tokenSymbol : string) (_owner _deployer : address)
    (timestamp : uint256) : Result t :=
  if _owner =? 0 then Err OwnerZeroAddress
  else if _deployer =? 0 then Err DeployerZeroAddress
  else Ok (mk tokenName tokenSymbol ∅ ∅ 0 _owner _deployer timestamp 0 false).

Definition mint (sender to : address) (amount : uint256) : M t unit :=
  o <- gets owner ;;
  require (sender =? o) OnlyOwner ;;;
  _mint to amount ;;;
  emit (TokensMinted to amount).

Definition burn (sender : address) (amount : uint256) : M t unit :=
  _burn sender amount ;;;
  emit (TokensBurned sender amount).

Definition transferOwnership (sender newOwner : address) : M t unit :=
  o <- gets owner ;;
  require (sender =? o) OnlyOwner ;;;
  require (negb (newOwner =? 0)) ZeroAddress ;;;
  modify (set_owner newOwner).

Definition calculateVestedAmount (timestamp : uint256) : M t uint256 :=
  start <- gets vestingStartTime ;;
  finish <- add start VESTING_DURATION ;;
  if finish <=? timestamp then
    reached <- gets milestonesReached ;;
    ret (if reached then DEPLOYER_ALLOCATION else 0)
  else
    timeElapsed <- sub timestamp start ;;
    vested <- mul DEPLOYER_ALLOCATION timeElapsed ;;
    div vested VESTING_DURATION.

Definition claimVestedTokens (sender : address) (timestamp : uint256) : M t unit :=
  d <- gets deployer ;;
  require (sender =? d) OnlyDeployer ;;;
  newlyVested <- calculateVestedAmount timestamp ;;
  already <- gets vestedAmount ;;
  if already <? newlyVested then
    amountToVest <- sub newlyVested already ;;
    modify (set_vestedAmount newlyVested) ;;;
    _mint d amountToVest ;;;
    emit (DeployerTokensVested amountToVest)
  else ret tt.

Definition setMilestonesReached (sender : address) : M t unit :=
  o <- gets owner ;;
  require (sender =? o) OnlyOwner ;;;
  modify (set_milestonesReached true) ;;;
  emit MilestonesReached.

Definition burnUnvestedTokens (sender : address) (timestamp : uint256) : M t unit :=
  o <- gets owner ;;
  d <- gets deployer ;;
  require ((sender =? o) || (sender =? d)) Unauthorized ;;;
  start <- gets vestingStartTime ;;
  finish <- add start VESTING_DURATION ;;
  require (finish <? timestamp) VestingOngoing ;;;
  reached <- gets milestonesReached ;;
  require (negb reached) MilestonesAlreadyReached ;;;
  vested <- gets vestedAmount ;;
  unvestedAmount <- sub DEPLOYER_ALLOCATION vested ;;
  emit (UnvestedTokensBurned unvestedAmount).

End ERC20Token.

(** ** BondingCurve (BondingCurve.sol) *)

Module BondingCurve.

Definition BASE_PRICE : uint256 := ether / 10000.            (* 0.0001 ether *)
Definition PRICE_INCREASE : uint256 := ether / 100000000.    (* 0.00000001 ether *)
Definition PLATFORM_FEE : uint256 := 75.
Definition DEPLOYER_FEE : uint256 := 0.
Definition FEE_DENOMINATOR : uint256 := 10000.
Definition GRADUATION_THRESHOLD : uint256 := 100 * ether.
Definition BURN_PERCENTAGE : uint256 := 1000.
Definition MIN_BUY : uint256 := 5 * ether / 100.             (* 0.05 ether *)
Definition SCALE : uint256 := 10 ^ 18.                       (* the literal 1e18 *)

Arguments BASE_PRICE : simpl never.
Arguments PRICE_INCREASE : simpl never.
Arguments GRADUATION_THRESHOLD : simpl never.
Arguments MIN_BUY : simpl never.
Arguments SCALE : simpl never.

Record t := mk {
  token : address;
  MAX_SUPPLY : uint256;
  deployer : address;
  platform : address;
  factory : address;
  totalEthInvested : uint256;
  hasGraduated : bool;
  platformFeesCollected : uint256;
  liquidityAdded : bool
}.

Definition set_totalEthInvested (v : uint256) (c : t) : t :=
  mk (token c) (MAX_SUPPLY c) (deployer c) (platform c) (factory c)
     v (hasGraduated c) (platformFeesCollected c) (liquidityAdded c).
Definition set_hasGraduated (v : bool) (c : t) : t :=
  mk (token c) (MAX_SUPPLY c) (deployer c) (platform c) (factory c)
     (totalEthInvested c) v (platformFeesCollected c) (liquidityAdded c).
Definition set_platformFeesCollected (v : uint256) (c : t) : t :=
  mk (token c) (MAX_SUPPLY c) (deployer c) (platform c) (factory c)
     (totalEthInvested c) (hasGraduated c) v (liquidityAdded c).
Definition set_liquidityAdded (v : bool) (c : t) : t :=
  mk (token c) (MAX_SUPPLY c) (deployer c) (platform c) (factory c)
     (totalEthInvested c) (hasGraduated c) (platformFeesCollected c) v.

(** What the code of a curve can reach: its own address and storage, the
    token contract deployed at [token], the ether balance of every
    account, and the accounts whose code refuses a payment. A payee is
    taken not to call back into the contracts. *)
Record World := mkWorld {
  this : address;
  curve : t;
  erc20 : ERC20Token.t;
  eth : gmap address uint256;
  rejecting : gset address
}.

Definition set_curve (c : t) (w : World) : World :=
  mkWorld (this w) c (erc20 w) (eth w) (rejecting w).
Definition set_erc20 (k : ERC20Token.t) (w : World) : World :=
  mkWorld (this w) (curve w) k (eth w) (rejecting w).
Definition set_eth (e : gmap address uint256) (w : World) : World :=
  mkWorld (this w) (curve w) (erc20 w) e (rejecting w).

(** Reading and writing the curve's own storage; reading a public
    variable of the token; calling a function of the token. *)
Definition own {A} (f : t -> A) : M World A := gets (fun w => f (curve w)).
Definition update (f : t -> t) : M World unit :=
  modify (fun w => set_curve (f (curve w)) w).
Definition token_view {A} (f : ERC20Token.t -> A) : M World A :=
  gets (fun w => f (erc20 w)).
Definition call_token {A} (m : M ERC20Token.t A) : M World A := zoom erc20 set_erc20 m.

(** Moving ether between two accounts (no check). *)
Definition move (from to : address) (value : uint256)
    (e : gmap address uint256) : gmap address uint256 :=
  let e1 := <[from := balance e from - value]> e in
  <[to := balance e1 to + value]> e1.

(** [to.call{value: value}("")] made by the curve: the success flag. *)
Definition call_value (to : address) (value : uint256) : M World bool :=
  me <- gets this ;;
  funds <- gets (fun w => balance (eth w) me) ;;
  refused <- gets (fun w => bool_decide (to ∈ rejecting w)) ;;
  if (value <=? funds) && negb refused then
    e <- gets eth ;;
    modify (set_eth (move me to value e)) ;;;
    ret true
  else ret false.

Definition constructor (_token _deployer _platform : address) (sender : address)
    (tokenContract : ERC20Token.t) : Result t :=
  if _token =? 0 then Err TokenZeroAddress
  else if _deployer =? 0 then Err DeployerZeroAddress
  else if _platform =? 0 then Err PlatformZeroAddress
  else Ok (mk _token (ERC20Token.totalSupply tokenContract) _deployer _platform sender
              0 false 0 false).

Definition getCurrentPrice : M World uint256 :=
  supply <- token_view ERC20Token.totalSupply ;;
  if supply =? 0 then ret BASE_PRICE
  else
    invested <- own totalEthInvested ;;
    scaled <- mul invested SCALE ;;
    div scaled supply.

Definition getMarketCap : M World uint256 :=
  own totalEthInvested.

Definition calculateBuyReturn (ethIn : uint256) : M World uint256 :=
  price <- getCurrentPrice ;;
  scaled <- mul ethIn SCALE ;;
  div scaled price.

Definition calculateSellReturn (tokensIn : uint256) : M World uint256 :=
  price <- getCurrentPrice ;;
  scaled <- mul tokensIn price ;;
  div scaled SCALE.

(** Returns [(netAmount, platformFee, deployerFee)]. *)
Definition _calculateFees (amount : uint256) : M World (uint256 * uint256 * uint256) :=
  graduated <- own hasGraduated ;;
  if graduated then ret (amount, 0, 0)
  else
    p <- mul amount PLATFORM_FEE ;;
    platformFee <- div p FEE_DENOMINATOR ;;
    d <- mul amount DEPLOYER_FEE ;;
    deployerFee <- div d FEE_DENOMINATOR ;;
    n <- sub amount platformFee ;;
    netAmount <- sub n deployerFee ;;
    ret (netAmount, platformFee, deployerFee).

Definition _checkGraduation : M World bool :=
  graduated <- own hasGraduated ;;
  if negb graduated then
    marketCap <- getMarketCap ;;
    ret (GRADUATION_THRESHOLD <=? marketCap)
  else ret false.

(** [token.burnFrom(account, amount)]. [ERC20Token] declares no [burnFrom]
    and inherits none: the ERC20 base has the internal [_burn] only, and
    the token has no fallback function. A call of a function the callee
    does not have reverts. *)
Definition token_burnFrom (account : address) (amount : uint256) : M World unit :=
  revert NoSuchFunction.

Definition _executeGraduation : M World unit :=
  update (set_hasGraduated true) ;;;
  currentSupply <- token_view ERC20Token.totalSupply ;;
  b <- mul currentSupply BURN_PERCENTAGE ;;
  burnAmount <- div b FEE_DENOMINATOR ;;
  me <- gets this ;;
  (if 0 <? burnAmount then token_burnFrom me burnAmount
   else ret tt) ;;;
  update (set_liquidityAdded true) ;;;
  marketCap <- getMarketCap ;;
  held <- gets (fun w => balance (eth w) me) ;;
  emit (Graduated marketCap held).

(** [buy()] with [msg.sender = sender] and [msg.value = value]; the value
    has been credited to the curve when the body runs. *)
Definition buy (sender : address) (value : uint256) : M World unit :=
  require (MIN_BUY <=? value) BuyAmountTooSmall ;;;
  graduated <- own hasGraduated ;;
  require (negb graduated) CurveHasGraduated ;;;
  fees <- _calculateFees value ;;
  let '(ethForTokens, platformFee, _) := fees in
  tokensBought <- calculateBuyReturn ethForTokens ;;
  require (0 <? tokensBought) InsufficientETH ;;;
  collected <- own platformFeesCollected ;;
  collected' <- add collected platformFee ;;
  update (set_platformFeesCollected collected') ;;;
  me <- gets this ;;
  call_token (ERC20Token.mint me sender tokensBought) ;;;
  invested <- own totalEthInvested ;;
  invested' <- add invested ethForTokens ;;
  update (set_totalEthInvested invested') ;;;
  graduate <- _checkGraduation ;;
  (if graduate then _executeGraduation else ret tt) ;;;
  emit (Bought sender value tokensBought platformFee).

Definition sell (sender : address) (tokenAmount : uint256) : M World unit :=
  require (0 <? tokenAmount) AmountMustBePositive ;;;
  graduated <- own hasGraduated ;;
  require (negb graduated) CurveHasGraduated ;;;
  me <- gets this ;;
  moved <- call_token (ERC20Token.transferFrom me sender me tokenAmount) ;;
  require moved TokenTransferFailed ;;;
  ethReturned <- calculateSellReturn tokenAmount ;;
  fees <- _calculateFees ethReturned ;;
  let '(netEthReturned, platformFee, _) := fees in
  funds <- gets (fun w => balance (eth w) me) ;;
  require (netEthReturned <=? funds) InsufficientETH ;;;
  collected <- own platformFeesCollected ;;
  collected' <- add collected platformFee ;;
  update (set_platformFeesCollected collected') ;;;
  call_token (ERC20Token.burn me tokenAmount) ;;;
  invested <- own totalEthInvested ;;
  (if netEthReturned <? invested then
     invested' <- sub invested netEthReturned ;;
     update (set_totalEthInvested invested')
   else update (set_totalEthInvested 0)) ;;;
  success <- call_value sender netEthReturned ;;
  require success ETHTransferFailed ;;;
  emit (Sold sender netEthReturned tokenAmount platformFee).

Definition withdrawPlatformFees (sender : address) : M World unit :=
  p <- own platform ;;
  require (sender =? p) Unauthorized ;;;
  amount <- own platformFeesCollected ;;
  require (0 <? amount) NoFeesAvailable ;;;
  update (set_platformFeesCollected 0) ;;;
  success <- call_value p amount ;;
  require success TransferFailed.

Definition initialize (sender : address) : M World unit :=
  d <- own deployer ;;
  f <- own factory ;;
  require ((sender =? d) || (sender =? f)) Unauthorized ;;;
  supply <- token_view ERC20Token.totalSupply ;;
  require (supply =? 0) AlreadyInitialized.

End BondingCurve.

(** ** TokenFactory (TokenFactory.sol) *)

Module TokenFactory.
Import BondingCurve.

Definition TOKEN_CREATION_FEE : uint256 := 3 * ether / 1000.   (* 0.003 ether *)

Arguments TOKEN_CREATION_FEE : simpl never.

Record t := mk { platform : address }.

Definition constructor (_platform : address) : Result t :=
  if _platform =? 0 then Err PlatformZeroAddress else Ok (mk _platform).

(** [createToken(name, symbol)] sent to the factory at address [self] with
    [msg.sender = sender] and [msg.value = value], on a chain whose ether
    balances are [eth0] (the value already credited to the factory).
    [tokenAddress] and [curveAddress] are the addresses the two [new]
    expressions yield. The result is the pair of addresses, the world of
    the new pair, and the events. *)
Definition createToken (self : address) (f : t) (sender : address)
    (value timestamp : uint256) (name symbol : string)
    (tokenAddress curveAddress : address)
    (eth0 : gmap address uint256) (rejecting0 : gset address)
  : Result (address * address * World * list Event) :=
  if negb (TOKEN_CREATION_FEE <=? value) then Err InsufficientFee
  else
    match ERC20Token.constructor name symbol self sender timestamp with
    | Err e => Err e
    | Ok newToken =>
        match BondingCurve.constructor tokenAddress sender (platform f) self newToken with
        | Err e => Err e
        | Ok bondingCurve =>
            if (value <=? balance eth0 self)
               && negb (bool_decide (platform f ∈ rejecting0))
            then
              Ok (tokenAddress, curveAddress,
                  mkWorld curveAddress bondingCurve newToken
                          (move self (platform f) value eth0) rejecting0,
                  [TokenCreated tokenAddress name symbol sender;
                   BondingCurveCreated curveAddress tokenAddress])
            else Err FeeTransferFailed
        end
    end.

(** [transferTokenOwnership(token, newOwner)]; the only token contract of
    the world is the one at [BondingCurve.token]. *)
Definition transferTokenOwnership (self : address) (sender : address)
    (token newOwner : address) : M World unit :=
  known <- gets (fun w => token =? BondingCurve.token (curve w)) ;;
  require known UnknownContract ;;;
  d <- token_view ERC20Token.deployer ;;
  require (sender =? d) OnlyDeployer ;;;
  call_token (ERC20Token.transferOwnership self newOwner).

End TokenFactory.

(** ** Transactions *)

Import BondingCurve.

(** The external functions of the three contracts. (The token's [burnFrom]
    is not among them: the token does not declare it.) *)
Inductive Call :=
| Token_transfer (to : address) (value : uint256)
| Token_approve (spender : address) (value : uint256)
| Token_transferFrom (from to : address) (value : uint256)
| Token_mint (to : address) (amount : uint256)
| Token_burn (amount : uint256)
| Token_transferOwnership (newOwner : address)
| Token_claimVestedTokens
| Token_setMilestonesReached
| Token_burnUnvestedTokens
| Curve_buy
| Curve_sell (tokenAmount : uint256)
| Curve_withdrawPlatformFees
| Curve_initialize
| Factory_transferTokenOwnership (token newOwner : address).

Record Tx := mkTx {
  tx_sender : address;
  tx_value : uint256;
  tx_timestamp : uint256;
  tx_call : Call
}.

Definition payable (c : Call) : bool :=
  match c with
  | Curve_buy | Curve_initialize => true
  | _ => false
  end.

(** The contract a call is sent to; [fa] is the address of the factory. *)
Definition target (fa : address) (w : World) (c : Call) : address :=
  match c with
  | Curve_buy | Curve_sell _ | Curve_withdrawPlatformFees | Curve_initialize => this w
  | Factory_transferTokenOwnership _ _ => fa
  | _ => token (curve w)
  end.

Definition dispatch (fa : address) (tx : Tx) : M World unit :=
  let sender := tx_sender tx in
  match tx_call tx with
  | Token_transfer to value =>
      call_token (ERC20Token.transfer sender to value) ;;; ret tt
  | Token_approve spender value =>
      call_token (ERC20Token.approve sender spender value) ;;; ret tt
  | Token_transferFrom from to value =>
      call_token (ERC20Token.transferFrom sender from to value) ;;; ret tt
  | Token_mint to amount => call_token (ERC20Token.mint sender to amount)
  | Token_burn amount => call_token (ERC20Token.burn sender amount)
  | Token_transferOwnership newOwner =>
      call_token (ERC20Token.transferOwnership sender newOwner)
  | Token_claimVestedTokens =>
      call_token (ERC20Token.claimVestedTokens sender (tx_timestamp tx))
  | Token_setMilestonesReached => call_token (ERC20Token.setMilestonesReached sender)
  | Token_burnUnvestedTokens =>
      call_token (ERC20Token.burnUnvestedTokens sender (tx_timestamp tx))
  | Curve_buy => buy sender (tx_value tx)
  | Curve_sell tokenAmount => sell sender tokenAmount
  | Curve_withdrawPlatformFees => withdrawPlatformFees sender
  | Curve_initialize => initialize sender
  | Factory_transferTokenOwnership token newOwner =>
      TokenFactory.transferTokenOwnership fa sender token newOwner
  end.

(** A message call: the sender must own the value, only a payable function
    accepts one, and the value is credited before the body runs. *)
Definition run (fa : address) (tx : Tx) : M World unit :=
  funds <- gets (fun w => balance (eth w) (tx_sender tx)) ;;
  require (tx_value tx <=? funds) InsufficientFunds ;;;
  require (payable (tx_call tx) || (tx_value tx =? 0)) NotPayable ;;;
  callee <- gets (fun w => target fa w (tx_call tx)) ;;
  e <- gets eth ;;
  modify (set_eth (move (tx_sender tx) callee (tx_value tx) e)) ;;;
  dispatch fa tx.

Inductive Receipt :=
| Success (events : list Event)
| Reverted (reason : Error).

(** A transaction either commits its effects or reverts and leaves the
    world untouched. *)
Definition execute (fa : address) (w : World) (tx : Tx) : World * Receipt :=
  match run fa tx w with
  | Ok (_, w', events) => (w', Success events)
  | Err e => (w, Reverted e)
  end.

(** ** The vocabulary of the specification

    The quantities the specification names (the vesting schedule, the price,
    the fee and the net amount), and what is needed to speak about sequences
    of transactions. *)

Module Spec.

(** The vesting schedule in the words of the specification: linear until
    [vestingStart + DURATION], then everything or nothing, depending on the
    milestone flag. *)
Definition vestingFormula (tok : ERC20Token.t) (now : uint256) : uint256 :=
  if now <? ERC20Token.vestingStartTime tok + ERC20Token.VESTING_DURATION then
    ERC20Token.DEPLOYER_ALLOCATION * (now - ERC20Token.vestingStartTime tok)
    / ERC20Token.VESTING_DURATION
  else if ERC20Token.milestonesReached tok then ERC20Token.DEPLOYER_ALLOCATION else 0.

(** The price the curve quotes when nothing overflows: the base price for
    an empty supply, else the collateral invested per unit of supply. Then
    the fee on a gross amount and what is left of it, as the specification
    writes them ([FEE_BPS = 75]). *)
Definition price_of (w : World) : uint256 :=
  if ERC20Token.totalSupply (erc20 w) =? 0 then BASE_PRICE
  else totalEthInvested (curve w) * SCALE / ERC20Token.totalSupply (erc20 w).

Definition fee_of (gross : uint256) : uint256 := gross * 75 / 10000.
Definition net_of (gross : uint256) : uint256 := gross - fee_of gross.

(** The token after a mint and after a burn. *)
Definition minted (to : address) (amount : uint256) (k : ERC20Token.t) : ERC20Token.t :=
  ERC20Token.set_balances
    <[to := balance (ERC20Token.balances k) to + amount]>
    (ERC20Token.set_totalSupply (ERC20Token.totalSupply k + amount) k).

Definition burnt (from : address) (amount : uint256) (k : ERC20Token.t) : ERC20Token.t :=
  ERC20Token.set_totalSupply (ERC20Token.totalSupply k - amount)
    (ERC20Token.set_balances
       <[from := balance (ERC20Token.balances k) from - amount]> k).

(** The balances after [transferFrom(sender, me, amount)] followed by
    [burn(amount)] called by [me]. *)
Definition sold_balances (me sender : address) (amount : uint256)
    (b : gmap address uint256) : gmap address uint256 :=
  let b1 := <[sender := balance b sender - amount]> b in
  let b2 := <[me := balance b1 me + amount]> b1 in
  <[me := balance b2 me - amount]> b2.

(** The world once the value of a message call has been credited. *)
Definition credited (fa : address) (tx : Tx) (w : World) : World :=
  set_eth (move (tx_sender tx) (target fa w (tx_call tx)) (tx_value tx) (eth w)) w.

(** How many times graduation fired in a list of events. *)
Fixpoint graduations (ev : list Event) : nat :=
  match ev with
  | [] => 0%nat
  | Graduated _ _ :: rest => S (graduations rest)
  | _ :: rest => graduations rest
  end.

Definition is_buy (c : Call) : bool :=
  match c with Curve_buy => true | _ => false end.

Definition is_sell (c : Call) : bool :=
  match c with Curve_sell _ => true | _ => false end.

Definition events_of (r : Receipt) : list Event :=
  match r with Success ev => ev | Reverted _ => [] end.

Definition succeeded (r : Receipt) : bool :=
  match r with Success _ => true | Reverted _ => false end.

(** The world after a list of transactions. *)
Fixpoint replay (fa : address) (w : World) (txs : list Tx) : World :=
  match txs with
  | [] => w
  | tx :: rest => replay fa (fst (execute fa w tx)) rest
  end.

(** The world after and the receipt of each transaction of a list. *)
Fixpoint history (fa : address) (w : World) (txs : list Tx) : list (World * Receipt) :=
  match txs with
  | [] => []
  | tx :: rest => execute fa w tx :: history fa (fst (execute fa w tx)) rest
  end.

(** The net collateral of the buys that succeeded in a list of
    transactions: for each, the value sent less the fee on it. *)
Fixpoint net_collateral_of_buys (fa : address) (w : World) (txs : list Tx) : Z :=
  match txs with
  | [] => 0
  | tx :: rest =>
      (if is_buy (tx_call tx) && succeeded (snd (execute fa w tx))
       then net_of (tx_value tx) else 0)
      + net_collateral_of_buys fa (fst (execute fa w tx)) rest
  end.

(** Failures of the specification's class [TransferFailure]: a token or
    ether transfer was rejected. *)
Definition TransferFailure (e : Error) : bool :=
  match e with
  | ERC20InsufficientBalance | ERC20InsufficientAllowance
  | ERC20InvalidSender | ERC20InvalidReceiver
  | ERC20InvalidApprover | ERC20InvalidSpender
  | TokenTransferFailed | ETHTransferFailed | TransferFailed | FeeTransferFailed => true
  | _ => false
  end.

(** The events of a history, in order. *)
Definition emitted (h : list (World * Receipt)) : list Event :=
  flat_map (fun s => events_of (snd s)) h.

Definition not_handover (tx : Tx) : Prop :=
  forall t n, tx_call tx <> Factory_transferTokenOwnership t n.

(** The sum of all balances of a token. *)
Definition sum_balances (m : gmap address uint256) : Z :=
  map_fold (fun _ v acc => v + acc) 0 m.

End Spec.
Import Spec.

(** ** A concrete deployment, used for the examples *)

Module Demo.
Definition factoryAddr : address := 1000.
Definition platformAddr : address := 48879.     (* 0xBEEF *)
Definition deployerAddr : address := 57005.     (* 0xDEAD *)
Definition userAddr : address := 43981.         (* 0xABCD *)
Definition tokenAddr : address := 2000.
Definition curveAddr : address := 3000.
Definition t0 : uint256 := 1700000000.

Definition eth0 : gmap address uint256 :=
  <[factoryAddr := 3 * ether / 1000]>
    (<[deployerAddr := 10 * ether]> (<[userAddr := 1000 * ether]> ∅)).

Definition created : Result (address * address * World * list Event) :=
  TokenFactory.createToken factoryAddr (TokenFactory.mk platformAddr) deployerAddr
    (3 * ether / 1000) t0 "Test" "TST" tokenAddr curveAddr eth0 ∅.

(** The freshly created pair. *)
Definition fresh : World :=
  match created with
  | Ok (_, _, w, _) => w
  | Err _ => mkWorld 0 (BondingCurve.mk 0 0 0 0 0 0 false 0 false)
               (ERC20Token.mk "" "" ∅ ∅ 0 0 0 0 0 false) ∅ ∅
  end.

(** The deployer hands the token to the curve. *)
Definition handover : Tx :=
  mkTx deployerAddr 0 (t0 + 10) (Factory_transferTokenOwnership tokenAddr curveAddr).

Definition live : World := replay factoryAddr fresh [handover].

(** The token of the freshly created demo pair: vesting starts at
    [t0], nothing is vested, the milestone flag is unset. *)
Definition demo_token : ERC20Token.t := erc20 fresh.

(** A world in which the deployer claimed vested tokens before anybody
    bought: some supply, no collateral. *)
Definition early_claim : World :=
  replay factoryAddr live
    [mkTx deployerAddr 0 (t0 + 100) Token_claimVestedTokens].

(** One wei of supply is left against 0.9925 ether of collateral: a buy at
    the minimum converts to no token. *)
Definition scarce : World :=
  replay factoryAddr live
    [mkTx userAddr ether (t0 + 20) Curve_buy;
     mkTx userAddr 0 (t0 + 30) (Token_burn (9925 * ether - 1))].

(** After a buy of one ether the user approves the curve for the tokens. *)
Definition approved : World :=
  replay factoryAddr live
    [mkTx userAddr ether (t0 + 20) Curve_buy;
     mkTx userAddr 0 (t0 + 30) (Token_approve curveAddr (1000 * ether))].

Definition sold : World * list Event :=
  match sell userAddr (1000 * ether) approved with
  | Ok (_, w', ev) => (w', ev)
  | Err _ => (approved, [])
  end.

Definition three_buys : list Tx :=
  [mkTx userAddr ether (t0 + 20) Curve_buy;
   mkTx deployerAddr 0 (t0 + 25) Token_claimVestedTokens;
   mkTx userAddr (ether / 100) (t0 + 30) Curve_buy;
   mkTx userAddr (3 * ether) (t0 + 40) Curve_buy].

Definition milestone_set : World :=
  set_erc20 (ERC20Token.set_milestonesReached true (erc20 live)) live.

(** The user holds the tokens bought for 99 ether; a buy of two more
    ether would bring the collateral invested over the threshold. *)
Definition funded : World :=
  replay factoryAddr live [mkTx userAddr (99 * ether) (t0 + 20) Curve_buy].

Definition crossing : Tx := mkTx userAddr (2 * ether) (t0 + 40) Curve_buy.

(** The user buys for 50 ether and burns all of these tokens but one
    unit; the next unit then costs as much as the whole collateral, and a
    buy of 51 ether brings the collateral over the threshold with a supply
    of two units. *)
Definition thin : World :=
  replay factoryAddr live
    [mkTx userAddr (50 * ether) (t0 + 20) Curve_buy;
     mkTx userAddr 0 (t0 + 30) (Token_burn (496250 * ether - 1))].

Definition last_unit : Tx := mkTx userAddr (51 * ether) (t0 + 40) Curve_buy.

Definition graduated : World := replay factoryAddr thin [last_unit].

Definition idle : list Tx :=
  [mkTx deployerAddr 0 (t0 + 5) Token_claimVestedTokens;
   mkTx userAddr 0 (t0 + 6) (Token_transferOwnership curveAddr);
   mkTx userAddr 0 (t0 + 7) (Token_mint userAddr ether)].

End Demo.

(** * Reasoning about contract code *)

Section MonadInversion.
Context {St : Type}.

Lemma bind_Ok {A B} (m : M St A) (f : A -> M St B) s b s' ev :
  bind m f s = Ok (b, s', ev) ->
  exists a s1 ev1 ev2,
    m s = Ok (a, s1, ev1) /\ f a s1 = Ok (b, s', ev2) /\ ev = ev1 ++ ev2.
Proof.
  unfold bind. destruct (m s) as [[[a s1] ev1]|]; [|discriminate].
  destruct (f a s1) as [[[b' s2] ev2]|] eqn:E; [|discriminate].
  intros [= -> -> <-]. eauto 10.
Qed.

Lemma bind_Ok_intro {A B} (m : M St A) (f : A -> M St B) s a s1 ev1 :
  m s = Ok (a, s1, ev1) ->
  bind m f s =
    match f a s1 with
    | Err e => Err e
    | Ok (b, s2, ev2) => Ok (b, s2, ev1 ++ ev2)
    end.
Proof. unfold bind. now intros ->. Qed.

Lemma bind_Err {A B} (m : M St A) (f : A -> M St B) s e :
  m s = Err e -> bind m f s = Err e.
Proof. unfold bind. now intros ->. Qed.

Lemma ret_Ok {A} (a b : A) s s' ev :
  @ret St _ a s = Ok (b, s', ev) -> b = a /\ s' = s /\ ev = [].
Proof. unfold ret. now intros [= <- <- <-]. Qed.

Lemma require_Ok b e s u s' ev :
  @require St b e s = Ok (u, s', ev) -> b = true /\ s' = s /\ ev = [].
Proof. destruct b; [|discriminate]. cbn. now intros [= <- <- <-]. Qed.

Lemma gets_Ok {A} (f : St -> A) s a s' ev :
  @gets St _ f s = Ok (a, s', ev) -> a = f s /\ s' = s /\ ev = [].
Proof. unfold gets. now intros [= <- <- <-]. Qed.

Lemma modify_Ok (f : St -> St) s u s' ev :
  @modify St f s = Ok (u, s', ev) -> s' = f s /\ ev = [].
Proof. unfold modify. now intros [= <- <- <-]. Qed.

Lemma emit_Ok x s u s' ev :
  @emit St x s = Ok (u, s', ev) -> s' = s /\ ev = [x].
Proof. unfold emit. now intros [= <- <- <-]. Qed.

Lemma add_Ok a b s c s' ev :
  @add St a b s = Ok (c, s', ev) ->
  a + b <= MAX_UINT256 /\ c = a + b /\ s' = s /\ ev = [].
Proof.
  unfold add. destruct (Z.leb_spec (a + b) MAX_UINT256); [|discriminate].
  now intros [= <- <- <-].
Qed.

Lemma sub_Ok a b s c s' ev :
  @sub St a b s = Ok (c, s', ev) -> b <= a /\ c = a - b /\ s' = s /\ ev = [].
Proof.
  unfold sub. destruct (Z.leb_spec b a); [|discriminate].
  now intros [= <- <- <-].
Qed.

Lemma mul_Ok a b s c s' ev :
  @mul St a b s = Ok (c, s', ev) ->
  a * b <= MAX_UINT256 /\ c = a * b /\ s' = s /\ ev = [].
Proof.
  unfold mul. destruct (Z.leb_spec (a * b) MAX_UINT256); [|discriminate].
  now intros [= <- <- <-].
Qed.

Lemma div_Ok a b s c s' ev :
  @div St a b s = Ok (c, s', ev) -> b <> 0 /\ c = a / b /\ s' = s /\ ev = [].
Proof.
  unfold div. destruct (Z.eqb_spec b 0); [discriminate|].
  now intros [= <- <- <-].
Qed.

Lemma zoom_Ok {T A} (g : St -> T) (u : T -> St -> St) (m : M T A) s a s' ev :
  zoom g u m s = Ok (a, s', ev) ->
  exists t, m (g s) = Ok (a, t, ev) /\ s' = u t s.
Proof.
  unfold zoom. destruct (m (g s)) as [[[a' t] ev']|]; [|discriminate].
  intros [= <- <- <-]. eauto.
Qed.

End MonadInversion.

(** Reading a field of an updated record. *)
Ltac fields_in H :=
  cbn [this curve erc20 eth rejecting set_curve set_erc20 set_eth
       token MAX_SUPPLY BondingCurve.deployer platform factory totalEthInvested
       hasGraduated platformFeesCollected liquidityAdded
       set_totalEthInvested set_hasGraduated set_platformFeesCollected
       set_liquidityAdded
       ERC20Token.name ERC20Token.symbol ERC20Token.balances ERC20Token.allowances
       ERC20Token.totalSupply ERC20Token.owner ERC20Token.deployer
       ERC20Token.vestingStartTime ERC20Token.vestedAmount
       ERC20Token.milestonesReached
       ERC20Token.set_balances ERC20Token.set_allowances ERC20Token.set_totalSupply
       ERC20Token.set_owner ERC20Token.set_vestedAmount
       ERC20Token.set_milestonesReached
       negb andb orb] in H.

Ltac fields :=
  cbn [this curve erc20 eth rejecting set_curve set_erc20 set_eth
       token MAX_SUPPLY BondingCurve.deployer platform factory totalEthInvested
       hasGraduated platformFeesCollected liquidityAdded
       set_totalEthInvested set_hasGraduated set_platformFeesCollected
       set_liquidityAdded
       ERC20Token.name ERC20Token.symbol ERC20Token.balances ERC20Token.allowances
       ERC20Token.totalSupply ERC20Token.owner ERC20Token.deployer
       ERC20Token.vestingStartTime ERC20Token.vestedAmount
       ERC20Token.milestonesReached
       ERC20Token.set_balances ERC20Token.set_allowances ERC20Token.set_totalSupply
       ERC20Token.set_owner ERC20Token.set_vestedAmount
       ERC20Token.set_milestonesReached
       negb andb orb].

(** A guard that has been passed, as a fact about its condition. *)
Ltac passed H :=
  lazymatch type of H with
  | negb _ = true => apply negb_true_iff in H
  | _ && _ = true =>
      let H' := fresh "H" in
      apply andb_true_iff in H; destruct H as [H H']; passed H; passed H'
  | _ => idtac
  end.

(** Use the conditions already known to settle a test in [H]. *)
Ltac known_in H :=
  repeat match goal with
  | E : ?c = true |- _ => rewrite E in H
  | E : ?c = false |- _ => rewrite E in H
  end;
  change (0 =? 0) with true in H;
  fields_in H; cbv beta iota in H.

(** [invM H] takes apart a hypothesis [H : m s = Ok _] along the structure
    of the code [m], down to the calls it does not know. *)
Ltac invM H :=
  lazymatch type of H with
  | bind _ _ _ = Ok _ =>
      let H1 := fresh "H" in
      let H2 := fresh "H" in
      apply bind_Ok in H; destruct H as (? & ? & ? & ? & H1 & H2 & ?);
      invM H1; subst; cbv beta in H2; fields_in H2; invM H2
  | ret _ _ = Ok _ => apply ret_Ok in H; destruct H as (? & ? & ?); subst
  | revert _ _ = Ok _ => discriminate H
  | Err _ = Ok _ => discriminate H
  | require _ _ _ = Ok _ =>
      apply require_Ok in H; destruct H as (H & ? & ?); subst; fields_in H; passed H
  | gets _ _ = Ok _ => apply gets_Ok in H; destruct H as (? & ? & ?); subst
  | modify _ _ = Ok _ => apply modify_Ok in H; destruct H as (? & ?); subst
  | emit _ _ = Ok _ => apply emit_Ok in H; destruct H as (? & ?); subst
  | add _ _ _ = Ok _ => apply add_Ok in H; destruct H as (? & ? & ? & ?); subst
  | sub _ _ _ = Ok _ => apply sub_Ok in H; destruct H as (? & ? & ? & ?); subst
  | mul _ _ _ = Ok _ => apply mul_Ok in H; destruct H as (? & ? & ? & ?); subst
  | div _ _ _ = Ok _ => apply div_Ok in H; destruct H as (? & ? & ? & ?); subst
  | zoom _ _ _ _ = Ok _ =>
      let H1 := fresh "H" in
      apply zoom_Ok in H; destruct H as (? & H1 & ?); invM H1; subst
  | own _ _ = Ok _ => unfold own in H; invM H
  | update _ _ = Ok _ => unfold update in H; invM H
  | token_view _ _ = Ok _ => unfold token_view in H; invM H
  | call_token _ _ = Ok _ => unfold call_token in H; invM H
  | (if true then _ else _) _ = Ok _ => cbv iota in H; invM H
  | (if false then _ else _) _ = Ok _ => cbv iota in H; invM H
  | (if ?c then _ else _) _ = Ok _ =>
      first [ progress known_in H
            | let E := fresh "E" in destruct c eqn:E; cbv iota in H ];
      invM H
  | (match ?p with _ => _ end) _ = Ok _ =>
      first [ progress cbv beta iota in H | destruct p as [[? ?] ?] ]; invM H
  | _ => idtac
  end.

Ltac bool_to_Prop :=
  repeat match goal with
  | H : negb _ = true |- _ => apply negb_true_iff in H
  | H : negb _ = false |- _ => apply negb_false_iff in H
  | H : _ && _ = true |- _ => apply andb_true_iff in H; destruct H
  | H : _ || _ = false |- _ => apply orb_false_iff in H; destruct H
  | H : (_ <=? _) = true |- _ => apply Z.leb_le in H
  | H : (_ <=? _) = false |- _ => apply Z.leb_gt in H
  | H : (_ <? _) = true |- _ => apply Z.ltb_lt in H
  | H : (_ <? _) = false |- _ => apply Z.ltb_ge in H
  | H : (_ =? _) = true |- _ => apply Z.eqb_eq in H
  | H : (_ =? _) = false |- _ => apply Z.eqb_neq in H
  end.

(** The other direction: running code forward. *)
Section MonadExecution.
Context {St : Type}.

Lemma bind_Ok_compose {A B} (m : M St A) (f : A -> M St B) s a s1 ev1 b s2 ev2 :
  m s = Ok (a, s1, ev1) -> f a s1 = Ok (b, s2, ev2) ->
  bind m f s = Ok (b, s2, ev1 ++ ev2).
Proof. unfold bind. now intros -> ->. Qed.

Lemma bind_Err_second {A B} (m : M St A) (f : A -> M St B) s a s1 ev1 e :
  m s = Ok (a, s1, ev1) -> f a s1 = Err e -> bind m f s = Err e.
Proof. unfold bind. now intros -> ->. Qed.

Lemma require_true b e (s : St) : b = true -> @require St b e s = Ok (tt, s, []).
Proof. now intros ->. Qed.

Lemma require_false b e (s : St) : b = false -> @require St b e s = Err e.
Proof. now intros ->. Qed.

Lemma add_fits a b (s : St) :
  a + b <= MAX_UINT256 -> @add St a b s = Ok (a + b, s, []).
Proof. intros H. unfold add. now destruct (Z.leb_spec (a + b) MAX_UINT256); [|lia]. Qed.

Lemma sub_fits a b (s : St) : b <= a -> @sub St a b s = Ok (a - b, s, []).
Proof. intros H. unfold sub. now destruct (Z.leb_spec b a); [|lia]. Qed.

Lemma mul_fits a b (s : St) :
  a * b <= MAX_UINT256 -> @mul St a b s = Ok (a * b, s, []).
Proof. intros H. unfold mul. now destruct (Z.leb_spec (a * b) MAX_UINT256); [|lia]. Qed.

Lemma div_defined a b (s : St) : b <> 0 -> @div St a b s = Ok (a / b, s, []).
Proof. intros H. unfold div. now destruct (Z.eqb_spec b 0). Qed.

Lemma zoom_Ok_intro {T A} (g : St -> T) (u : T -> St -> St) (m : M T A) s a t ev :
  m (g s) = Ok (a, t, ev) -> zoom g u m s = Ok (a, u t s, ev).
Proof. unfold zoom. now intros ->. Qed.

Lemma zoom_Err {T A} (g : St -> T) (u : T -> St -> St) (m : M T A) s e :
  m (g s) = Err e -> zoom g u m s = Err e.
Proof. unfold zoom. now intros ->. Qed.

Lemma Ok_result {A} (x : Result A) (r r' : A) : x = Ok r' -> r' = r -> x = Ok r.
Proof. now intros -> ->. Qed.

End MonadExecution.

Ltac bool_goal :=
  repeat match goal with
  | |- negb _ = true => apply negb_true_iff
  | |- negb _ = false => apply negb_false_iff
  | |- (_ <=? _) = true => apply Z.leb_le
  | |- (_ <=? _) = false => apply Z.leb_gt
  | |- (_ <? _) = true => apply Z.ltb_lt
  | |- (_ <? _) = false => apply Z.ltb_ge
  | |- (_ =? _) = true => apply Z.eqb_eq
  | |- (_ =? _) = false => apply Z.eqb_neq
  end.

(** [run tac] proves [m s = Ok ?r] by running [m] on [s]; [tac] proves the
    conditions met on the way (guards, absence of overflow) and settles the
    branches. *)
Ltac settle c tac :=
  let Hc := fresh "Hc" in
  first [ assert (Hc : c = true) by (bool_goal; tac)
        | assert (Hc : c = false) by (bool_goal; tac) ];
  rewrite Hc; clear Hc.

Ltac run tac :=
  cbv beta iota;
  lazymatch goal with
  | |- bind _ _ _ = Ok _ => eapply bind_Ok_compose; [run tac | run tac]
  | |- ret _ _ = Ok _ => reflexivity
  | |- gets _ _ = Ok _ => reflexivity
  | |- modify _ _ = Ok _ => reflexivity
  | |- emit _ _ = Ok _ => reflexivity
  | |- require _ _ _ = Ok _ => apply require_true; bool_goal; tac
  | |- add _ _ _ = Ok _ => apply add_fits; tac
  | |- sub _ _ _ = Ok _ => apply sub_fits; tac
  | |- mul _ _ _ = Ok _ => apply mul_fits; tac
  | |- div _ _ _ = Ok _ => apply div_defined; tac
  | |- zoom _ _ _ _ = Ok _ => eapply zoom_Ok_intro; run tac
  | |- own _ _ = Ok _ => reflexivity
  | |- update _ _ = Ok _ => reflexivity
  | |- token_view _ _ = Ok _ => reflexivity
  | |- call_token _ _ = Ok _ => unfold call_token; run tac
  | |- (if ?c then _ else _) _ = Ok _ => settle c tac; run tac
  | |- _ => tac
  end.

Create HintDb contract.

#[global] Hint Unfold
  ERC20Token._mint ERC20Token._burn ERC20Token._transfer ERC20Token._update
  ERC20Token._spendAllowance ERC20Token.transfer ERC20Token.approve
  ERC20Token.transferFrom ERC20Token.mint ERC20Token.burn
  ERC20Token.transferOwnership ERC20Token.calculateVestedAmount
  ERC20Token.claimVestedTokens ERC20Token.setMilestonesReached
  ERC20Token.burnUnvestedTokens
  BondingCurve.call_value BondingCurve.getCurrentPrice BondingCurve.getMarketCap
  BondingCurve.calculateBuyReturn BondingCurve.calculateSellReturn
  BondingCurve._calculateFees BondingCurve._checkGraduation
  BondingCurve.token_burnFrom BondingCurve._executeGraduation
  BondingCurve.buy BondingCurve.sell
  BondingCurve.withdrawPlatformFees BondingCurve.initialize
  TokenFactory.transferTokenOwnership : contract.

(** Inversion through every function of the contracts. *)
Ltac invC H := autounfold with contract in H; invM H.

(** * The vesting ledger *)

Module Vesting.
Import ERC20Token.

Lemma allocation_value : DEPLOYER_ALLOCATION = 2 * 10 ^ 25.
Proof. reflexivity. Qed.

Lemma duration_value : VESTING_DURATION = 15552000.
Proof. reflexivity. Qed.

(** [calculateVestedAmount] computes the schedule and reverts only when the
    clock is before the start of vesting or the end of vesting does not fit
    a uint256. *)
Lemma calculateVestedAmount_formula tok now :
  vestingStartTime tok + VESTING_DURATION <= MAX_UINT256 ->
  vestingStartTime tok <= now ->
  calculateVestedAmount now tok = Ok (vestingFormula tok now, tok, []).
Proof.
  intros Hfit Hnow. unfold calculateVestedAmount, vestingFormula.
  erewrite bind_Ok_intro by reflexivity. cbv beta.
  unfold add at 1.
  destruct (Z.leb_spec (vestingStartTime tok + VESTING_DURATION) MAX_UINT256); [|lia].
  erewrite bind_Ok_intro by reflexivity. cbv beta.
  destruct (Z.leb_spec (vestingStartTime tok + VESTING_DURATION) now) as [Hend|Hend].
  - destruct (Z.ltb_spec now (vestingStartTime tok + VESTING_DURATION)); [lia|].
    reflexivity.
  - destruct (Z.ltb_spec now (vestingStartTime tok + VESTING_DURATION)); [|lia].
    unfold sub. destruct (Z.leb_spec (vestingStartTime tok) now); [|lia].
    erewrite bind_Ok_intro by reflexivity. cbv beta.
    unfold mul.
    destruct (Z.leb_spec (DEPLOYER_ALLOCATION * (now - vestingStartTime tok)) MAX_UINT256)
      as [_|Hover].
    + erewrite bind_Ok_intro by reflexivity. cbv beta. reflexivity.
    + exfalso. rewrite allocation_value, duration_value in *.
      unfold MAX_UINT256 in Hover. lia.
Qed.

Lemma vestingFormula_bounds tok now :
  vestingStartTime tok <= now ->
  0 <= vestingFormula tok now <= DEPLOYER_ALLOCATION.
Proof.
  intros Hnow. unfold vestingFormula.
  destruct (Z.ltb_spec now (vestingStartTime tok + VESTING_DURATION)) as [Hend|Hend].
  - rewrite allocation_value, duration_value in *. split.
    + apply Z.div_pos; lia.
    + apply Z.div_le_upper_bound; lia.
  - destruct (milestonesReached tok); rewrite allocation_value; lia.
Qed.

Lemma vestingFormula_linear_mono tok t1 t2 :
  t1 <= t2 -> t2 < vestingStartTime tok + VESTING_DURATION ->
  vestingFormula tok t1 <= vestingFormula tok t2.
Proof.
  intros H12 Hend. unfold vestingFormula.
  destruct (Z.ltb_spec t1 (vestingStartTime tok + VESTING_DURATION)); [|lia].
  destruct (Z.ltb_spec t2 (vestingStartTime tok + VESTING_DURATION)); [|lia].
  rewrite allocation_value, duration_value.
  apply Z.div_le_mono; lia.
Qed.

Lemma vestingFormula_half tok :
  vestingFormula tok (vestingStartTime tok + VESTING_DURATION / 2)
  = DEPLOYER_ALLOCATION / 2.
Proof.
  unfold vestingFormula.
  destruct (Z.ltb_spec (vestingStartTime tok + VESTING_DURATION / 2)
              (vestingStartTime tok + VESTING_DURATION)) as [_|H].
  - replace (vestingStartTime tok + VESTING_DURATION / 2 - vestingStartTime tok)
      with (VESTING_DURATION / 2) by lia.
    reflexivity.
  - exfalso. rewrite duration_value in H. change (15552000 / 2) with 7776000 in H. lia.
Qed.

(** C4, as stated, fails: with the milestone flag unset, the amount the
    code computes one second before the end of vesting is positive, and at
    the end of vesting it is zero. *)
Lemma vesting_drops_at_cliff :
  let t1 := Demo.t0 + VESTING_DURATION - 1 in
  let t2 := Demo.t0 + VESTING_DURATION in
  vestingStartTime Demo.demo_token <= t1 /\ t1 <= t2 /\
  milestonesReached Demo.demo_token = false /\
  calculateVestedAmount t1 Demo.demo_token
    = Ok (19999998713991769547325102, Demo.demo_token, []) /\
  calculateVestedAmount t2 Demo.demo_token = Ok (0, Demo.demo_token, []) /\
  ~ (19999998713991769547325102 <= 0).
Proof.
  cbv zeta. split; [|split; [|split; [|split; [|split]]]].
  - vm_compute. discriminate.
  - vm_compute. discriminate.
  - reflexivity.
  - vm_compute. reflexivity.
  - vm_compute. reflexivity.
  - lia.
Qed.

(** C4 (amended): for [vestingStart <= t1 <= t2] the code returns an
    amount at both times, each at most the deployer allocation whatever the
    milestone flag, and the amount at [t1] is at most the amount at [t2]
    provided the flag is set or [t2] is before the end of vesting. *)
Theorem vesting_monotone_unless_gated tok t1 t2 :
  vestingStartTime tok + VESTING_DURATION <= MAX_UINT256 ->
  vestingStartTime tok <= t1 -> t1 <= t2 ->
  exists v1 v2,
    calculateVestedAmount t1 tok = Ok (v1, tok, []) /\
    calculateVestedAmount t2 tok = Ok (v2, tok, []) /\
    v1 <= DEPLOYER_ALLOCATION /\ v2 <= DEPLOYER_ALLOCATION /\
    (milestonesReached tok = true \/ t2 < vestingStartTime tok + VESTING_DURATION ->
     v1 <= v2).
Proof.
  intros Hfit H1 H12.
  exists (vestingFormula tok t1), (vestingFormula tok t2).
  split; [apply calculateVestedAmount_formula; lia|].
  split; [apply calculateVestedAmount_formula; lia|].
  split; [apply vestingFormula_bounds; lia|].
  split; [apply vestingFormula_bounds; lia|].
  intros [Hm|Hend].
  - destruct (Z.lt_ge_cases t2 (vestingStartTime tok + VESTING_DURATION)) as [Hlt|Hge].
    + now apply vestingFormula_linear_mono.
    + transitivity DEPLOYER_ALLOCATION; [apply vestingFormula_bounds; lia|].
      unfold vestingFormula.
      destruct (Z.ltb_spec t2 (vestingStartTime tok + VESTING_DURATION)); [lia|].
      rewrite Hm. lia.
  - now apply vestingFormula_linear_mono.
Qed.

Lemma vesting_monotone_unless_gated_witness :
  exists v1 v2,
    calculateVestedAmount (Demo.t0 + 100) Demo.demo_token = Ok (v1, Demo.demo_token, []) /\
    calculateVestedAmount (Demo.t0 + 200) Demo.demo_token = Ok (v2, Demo.demo_token, []) /\
    v1 <= DEPLOYER_ALLOCATION /\ v2 <= DEPLOYER_ALLOCATION /\
    (milestonesReached Demo.demo_token = true
     \/ Demo.t0 + 200 < vestingStartTime Demo.demo_token + VESTING_DURATION ->
     v1 <= v2).
Proof.
  apply (vesting_monotone_unless_gated Demo.demo_token (Demo.t0 + 100) (Demo.t0 + 200));
    vm_compute; intro; discriminate.
Defined.

(** C7: on a token of which nothing has been claimed yet, [claim()] by the
    deployer at [vestingStart + DURATION/2] mints exactly
    [totalAllocation/2] to the deployer and records it as vested; a second
    [claim()] at the same time succeeds, leaves the token as it is and
    emits nothing. *)
Theorem claim_at_half_duration tok :
  vestedAmount tok = 0 -> deployer tok <> 0 ->
  vestingStartTime tok + VESTING_DURATION <= MAX_UINT256 ->
  totalSupply tok + DEPLOYER_ALLOCATION / 2 <= MAX_UINT256 ->
  let now := vestingStartTime tok + VESTING_DURATION / 2 in
  let half := DEPLOYER_ALLOCATION / 2 in
  exists tok',
    claimVestedTokens (deployer tok) now tok
      = Ok (tt, tok', [Transfer 0 (deployer tok) half; DeployerTokensVested half]) /\
    vestedAmount tok' = half /\
    balance (balances tok') (deployer tok)
      = balance (balances tok) (deployer tok) + half /\
    totalSupply tok' = totalSupply tok + half /\
    claimVestedTokens (deployer tok) now tok' = Ok (tt, tok', []).
Proof.
  intros Hv Hd Hfit Hsup now half.
  assert (Hnow : vestingStartTime tok <= now).
  { unfold now. rewrite duration_value. change (15552000 / 2) with 7776000. lia. }
  assert (Hhalf : half = 10000000000000000000000000) by reflexivity.
  assert (Hform : forall tok',
             vestingStartTime tok' = vestingStartTime tok ->
             vestingFormula tok' now = half).
  { intros tok' E. unfold now. rewrite <- E. apply vestingFormula_half. }
  assert (Hclaim :
    claimVestedTokens (deployer tok) now tok =
      Ok (tt,
          set_balances <[deployer tok := balance (balances tok) (deployer tok) + half]>
            (set_totalSupply (totalSupply tok + half) (set_vestedAmount half tok)),
          [Transfer 0 (deployer tok) half; DeployerTokensVested half])).
  { eapply Ok_result.
    - unfold claimVestedTokens, _mint, _update. cbn [Z.eqb].
      run ltac:(first
        [ reflexivity | assumption
        | apply calculateVestedAmount_formula; assumption
        | rewrite ?Hform, ?Hv by reflexivity;
          cbn [totalSupply set_vestedAmount]; lia ]).
    - rewrite !Hform, Hv, Z.sub_0_r by reflexivity. reflexivity. }
  eexists. split; [exact Hclaim|].
  split; [reflexivity|]. split.
  { cbn [balances set_balances]. unfold balance at 1. now rewrite lookup_insert_eq. }
  split; [reflexivity|].
  eapply Ok_result.
  - unfold claimVestedTokens.
    run ltac:(first
      [ reflexivity | assumption
      | apply calculateVestedAmount_formula; assumption
      | rewrite ?Hform by reflexivity;
        cbn [vestedAmount set_balances set_totalSupply set_vestedAmount]; lia ]).
  - reflexivity.
Qed.

Lemma claim_at_half_duration_witness :
  exists tok',
    claimVestedTokens Demo.deployerAddr (Demo.t0 + VESTING_DURATION / 2) Demo.demo_token
      = Ok (tt, tok', [Transfer 0 Demo.deployerAddr (DEPLOYER_ALLOCATION / 2);
                       DeployerTokensVested (DEPLOYER_ALLOCATION / 2)]) /\
    vestedAmount tok' = DEPLOYER_ALLOCATION / 2 /\
    balance (balances tok') Demo.deployerAddr
      = balance (balances Demo.demo_token) Demo.deployerAddr + DEPLOYER_ALLOCATION / 2 /\
    totalSupply tok' = totalSupply Demo.demo_token + DEPLOYER_ALLOCATION / 2 /\
    claimVestedTokens Demo.deployerAddr (Demo.t0 + VESTING_DURATION / 2) tok'
      = Ok (tt, tok', []).
Proof.
  apply (claim_at_half_duration Demo.demo_token);
    vm_compute; first [reflexivity | intro; discriminate].
Defined.

End Vesting.

(** * The pricing engine *)

Module Pricing.

Lemma fee_of_code gross :
  gross * PLATFORM_FEE / FEE_DENOMINATOR = fee_of gross.
Proof. reflexivity. Qed.

Lemma net_of_code gross :
  gross - gross * PLATFORM_FEE / FEE_DENOMINATOR - gross * DEPLOYER_FEE / FEE_DENOMINATOR
  = net_of gross.
Proof.
  unfold net_of, fee_of, DEPLOYER_FEE, PLATFORM_FEE, FEE_DENOMINATOR.
  rewrite Z.mul_0_r, Zdiv_0_l. lia.
Qed.

(** [getCurrentPrice] returns [price_of] and reverts only on overflow of
    the scaled collateral. *)
Lemma getCurrentPrice_Ok w p w' ev :
  getCurrentPrice w = Ok (p, w', ev) -> p = price_of w /\ w' = w /\ ev = [].
Proof.
  intros H. unfold price_of. invC H; auto.
Qed.

Lemma getCurrentPrice_run w :
  (ERC20Token.totalSupply (erc20 w) <> 0 ->
   totalEthInvested (curve w) * SCALE <= MAX_UINT256) ->
  getCurrentPrice w = Ok (price_of w, w, []).
Proof.
  intros Hfit. unfold getCurrentPrice, price_of.
  destruct (Z.eqb_spec (ERC20Token.totalSupply (erc20 w)) 0) as [E|E].
  - eapply Ok_result; [run ltac:(first [reflexivity | lia])|].
    reflexivity.
  - eapply Ok_result; [run ltac:(first [reflexivity | lia | auto])|].
    reflexivity.
Qed.

(** What a successful [buy] has checked and done. *)
Lemma buy_Ok_inv sender value w w' ev :
  buy sender value w = Ok (tt, w', ev) ->
  let fee := fee_of value in
  let net := net_of value in
  let price := price_of w in
  let tokens := net * SCALE / price in
  let invested := totalEthInvested (curve w) + net in
  let k := minted sender tokens (erc20 w) in
  let burnAmount := ERC20Token.totalSupply k * BURN_PERCENTAGE / FEE_DENOMINATOR in
  let c := set_totalEthInvested invested
             (set_platformFeesCollected (platformFeesCollected (curve w) + fee)
                (curve w)) in
  MIN_BUY <= value /\
  hasGraduated (curve w) = false /\
  (ERC20Token.totalSupply (erc20 w) <> 0 ->
   totalEthInvested (curve w) * SCALE <= MAX_UINT256) /\
  price <> 0 /\ 0 < tokens /\
  ERC20Token.owner (erc20 w) = this w /\
  sender <> 0 /\
  ((invested < GRADUATION_THRESHOLD /\
    w' = set_curve c (set_erc20 k w) /\
    ev = [Transfer 0 sender tokens; TokensMinted sender tokens;
          Bought sender value tokens fee])
   \/
   (GRADUATION_THRESHOLD <= invested /\
    burnAmount <= 0 /\
    w' = set_curve (set_liquidityAdded true (set_hasGraduated true c))
           (set_erc20 k w) /\
    ev = [Transfer 0 sender tokens; TokensMinted sender tokens;
          Graduated invested (balance (eth w) (this w));
          Bought sender value tokens fee])).
Proof.
  intros H. cbv zeta. unfold price_of, minted.
  invC H.
  all: fields.
  all: rewrite ?fee_of_code, ?net_of_code in *.
  all: repeat match goal with
       | E : _ = true |- _ => rewrite E
       | E : _ = false |- _ => rewrite E
       end.
  all: bool_to_Prop.
  all: repeat (split; [intros; first [assumption | lia | congruence]|]).
  all: first [ left; split; [lia|] | right; split; [lia|] ].
  all: try (split; [intros; first [assumption | lia]|]).
  all: split; reflexivity.
Qed.

(** A buy that passes its guards and converts to no token fails with
    "Insufficient ETH". *)
Lemma buy_zero_output w sender value :
  MIN_BUY <= value -> value * PLATFORM_FEE <= MAX_UINT256 ->
  hasGraduated (curve w) = false ->
  (ERC20Token.totalSupply (erc20 w) <> 0 ->
   totalEthInvested (curve w) * SCALE <= MAX_UINT256) ->
  price_of w <> 0 ->
  net_of value * SCALE <= MAX_UINT256 ->
  net_of value * SCALE / price_of w = 0 ->
  buy sender value w = Err InsufficientETH.
Proof.
  intros Hmin Hfee Hg Hfit Hp Hnet Hzero.
  assert (Hv : 0 <= value) by (change MIN_BUY with 50000000000000000 in Hmin; lia).
  assert (fee_of value <= value).
  { unfold fee_of. apply Z.div_le_upper_bound; lia. }
  unfold buy.
  eapply bind_Err_second; [run ltac:(first [reflexivity | lia])|].
  eapply bind_Err_second; [run ltac:(first [reflexivity | lia])|].
  eapply bind_Err_second; [run ltac:(first [reflexivity | assumption | lia])|].
  eapply bind_Err_second.
  { unfold _calculateFees.
    run ltac:(first
      [ reflexivity | assumption
      | rewrite ?fee_of_code; unfold DEPLOYER_FEE, FEE_DENOMINATOR;
        rewrite ?Z.mul_0_r, ?Zdiv_0_l; unfold MAX_UINT256; lia ]). }
  cbv beta iota. rewrite ?fee_of_code.
  replace (value - fee_of value - value * DEPLOYER_FEE / FEE_DENOMINATOR) with (net_of value)
    by (symmetry; apply net_of_code).
  eapply bind_Err_second.
  { unfold calculateBuyReturn.
    run ltac:(first [reflexivity | assumption | apply getCurrentPrice_run; assumption ]). }
  eapply bind_Err. apply require_false. rewrite Hzero. reflexivity.
Qed.

(** C1, as stated, fails: in [Demo.early_claim] the collateral invested is 0,
    yet the price the code computes is 0, not [BASE_PRICE], and a buy
    reverts on the division by that price. *)
Lemma price_zero_without_collateral :
  totalEthInvested (curve Demo.early_claim) = 0 /\
  getCurrentPrice Demo.early_claim = Ok (0, Demo.early_claim, []) /\
  0 <> BASE_PRICE /\
  snd (execute Demo.factoryAddr Demo.early_claim
         (mkTx Demo.userAddr ether (Demo.t0 + 200) Curve_buy))
  = Reverted PanicDivisionByZero.
Proof.
  split; [vm_compute; reflexivity|]. split; [vm_compute; reflexivity|].
  split; [vm_compute; discriminate|]. vm_compute. reflexivity.
Qed.

(** C1 (amended): the price is [BASE_PRICE] when the circulating supply
    is 0 and [collateralInvested * SCALE / circulatingSupply] otherwise; a
    successful buy has converted at that price, which was not 0, minting
    [tokensOut = netCollateral * SCALE / price > 0]; and a buy that passes
    its guards at a price other than 0 with [tokensOut = 0] fails with
    "Insufficient ETH". *)
Theorem buy_price_and_output w sender value :
  (ERC20Token.totalSupply (erc20 w) = 0 ->
   getCurrentPrice w = Ok (BASE_PRICE, w, [])) /\
  (ERC20Token.totalSupply (erc20 w) <> 0 ->
   totalEthInvested (curve w) * SCALE <= MAX_UINT256 ->
   getCurrentPrice w
   = Ok (totalEthInvested (curve w) * SCALE / ERC20Token.totalSupply (erc20 w), w, [])) /\
  (forall w' ev,
     buy sender value w = Ok (tt, w', ev) ->
     exists price,
       getCurrentPrice w = Ok (price, w, []) /\ price <> 0 /\
       0 < net_of value * SCALE / price /\
       In (TokensMinted sender (net_of value * SCALE / price)) ev /\
       In (Bought sender value (net_of value * SCALE / price) (fee_of value)) ev) /\
  (forall price,
     getCurrentPrice w = Ok (price, w, []) -> price <> 0 ->
     MIN_BUY <= value -> value * PLATFORM_FEE <= MAX_UINT256 ->
     hasGraduated (curve w) = false ->
     net_of value * SCALE <= MAX_UINT256 ->
     net_of value * SCALE / price = 0 ->
     buy sender value w = Err InsufficientETH).
Proof.
  split; [|split; [|split]].
  - intros E. rewrite getCurrentPrice_run by (intros; contradiction).
    unfold price_of. now rewrite E.
  - intros E Hfit. rewrite getCurrentPrice_run by (intros; assumption).
    unfold price_of. now destruct (Z.eqb_spec (ERC20Token.totalSupply (erc20 w)) 0).
  - intros w' ev H. apply buy_Ok_inv in H. cbv zeta in H.
    destruct H as (_ & _ & Hfit & Hp & Ht & _ & _ & Hcases).
    exists (price_of w). split; [now apply getCurrentPrice_run|].
    do 2 (split; [assumption|]).
    destruct Hcases as [(_ & _ & ->)|(_ & _ & _ & ->)].
    + split; [right; left; reflexivity|right; right; left; reflexivity].
    + split; [right; left; reflexivity|]. do 3 right; left; reflexivity.
  - intros price Hprice Hp Hmin Hfee Hg Hnet Hzero.
    assert (Hfit : ERC20Token.totalSupply (erc20 w) <> 0 ->
                   totalEthInvested (curve w) * SCALE <= MAX_UINT256).
    { intros E. unfold getCurrentPrice in Hprice. invM Hprice; [bool_to_Prop; contradiction|].
      assumption. }
    apply getCurrentPrice_Ok in Hprice. destruct Hprice as (-> & _).
    now apply buy_zero_output.
Qed.

Lemma buy_price_and_output_witness :
  buy Demo.userAddr MIN_BUY Demo.scarce = Err InsufficientETH.
Proof.
  pose proof (buy_price_and_output Demo.scarce Demo.userAddr MIN_BUY) as (_ & _ & _ & H).
  apply (H (price_of Demo.scarce)).
  - vm_compute. reflexivity.
  - vm_compute. discriminate.
  - vm_compute. discriminate.
  - vm_compute. discriminate.
  - reflexivity.
  - vm_compute. discriminate.
  - vm_compute. reflexivity.
Defined.

Lemma balance_insert (m : gmap address uint256) k v a :
  balance (<[k := v]> m) a = if a =? k then v else balance m a.
Proof.
  unfold balance. destruct (Z.eqb_spec a k) as [->|Hne].
  - now rewrite lookup_insert_eq.
  - now rewrite lookup_insert_ne by congruence.
Qed.

Lemma sold_balances_lookup me sender amount b a :
  sender <> me ->
  balance (sold_balances me sender amount b) a
  = if a =? sender then balance b sender - amount else balance b a.
Proof.
  intros Hne. unfold sold_balances. cbv zeta. rewrite !balance_insert.
  rewrite Z.eqb_refl.
  destruct (Z.eqb_spec me sender) as [|_]; [congruence|].
  destruct (Z.eqb_spec a me) as [Ea|Ea]; destruct (Z.eqb_spec a sender) as [Es|Es];
    try congruence; try lia.
  subst a. lia.
Qed.

Lemma sell_Ok_inv sender tokenAmount w w' ev :
  sell sender tokenAmount w = Ok (tt, w', ev) ->
  let gross := tokenAmount * price_of w / SCALE in
  let fee := fee_of gross in
  let net := net_of gross in
  0 < tokenAmount /\
  hasGraduated (curve w) = false /\
  tokenAmount <= balance (ERC20Token.balances (erc20 w)) sender /\
  net <= balance (eth w) (this w) /\
  this w' = this w /\
  curve w'
  = set_totalEthInvested
      (if net <? totalEthInvested (curve w) then totalEthInvested (curve w) - net else 0)
      (set_platformFeesCollected (platformFeesCollected (curve w) + fee) (curve w)) /\
  eth w' = move (this w) sender net (eth w) /\
  ERC20Token.totalSupply (erc20 w') = ERC20Token.totalSupply (erc20 w) - tokenAmount /\
  ERC20Token.balances (erc20 w')
  = sold_balances (this w) sender tokenAmount (ERC20Token.balances (erc20 w)) /\
  ERC20Token.owner (erc20 w') = ERC20Token.owner (erc20 w) /\
  ERC20Token.milestonesReached (erc20 w') = ERC20Token.milestonesReached (erc20 w) /\
  ev = [Transfer sender (this w) tokenAmount; Transfer (this w) 0 tokenAmount;
        TokensBurned (this w) tokenAmount; Sold sender net tokenAmount fee].
Proof.
  intros H. cbv zeta. unfold price_of, sold_balances.
  invC H.
  all: fields.
  all: rewrite ?fee_of_code, ?net_of_code in *.
  all: repeat match goal with
       | E : _ = true |- _ => rewrite E
       | E : _ = false |- _ => rewrite E
       end.
  all: bool_to_Prop.
  all: repeat (split; [first [assumption | lia | reflexivity]|]).
  all: reflexivity.
Qed.

Lemma move_lookup (e : gmap address uint256) from to value a :
  from <> to ->
  balance (move from to value e) a
  = if a =? to then balance e to + value
    else if a =? from then balance e from - value
    else balance e a.
Proof.
  intros Hne. unfold move. cbv zeta. rewrite !balance_insert.
  destruct (Z.eqb_spec to from); [congruence|].
  reflexivity.
Qed.

(** C9: a successful sell sets the collateral invested to zero when the
    net return exceeds it and decreases it by exactly the net return
    otherwise; the seller receives the net return from the curve, and the
    tokens Demo.sold leave the seller's balance and the total supply. *)
Theorem sell_settles sender tokenAmount w w' ev :
  sell sender tokenAmount w = Ok (tt, w', ev) ->
  sender <> this w ->
  let netReturn := net_of (tokenAmount * price_of w / SCALE) in
  (totalEthInvested (curve w) < netReturn -> totalEthInvested (curve w') = 0) /\
  (netReturn <= totalEthInvested (curve w) ->
   totalEthInvested (curve w') = totalEthInvested (curve w) - netReturn) /\
  balance (eth w') sender = balance (eth w) sender + netReturn /\
  balance (eth w') (this w) = balance (eth w) (this w) - netReturn /\
  ERC20Token.totalSupply (erc20 w') = ERC20Token.totalSupply (erc20 w) - tokenAmount /\
  balance (ERC20Token.balances (erc20 w')) sender
  = balance (ERC20Token.balances (erc20 w)) sender - tokenAmount /\
  balance (ERC20Token.balances (erc20 w')) (this w)
  = balance (ERC20Token.balances (erc20 w)) (this w) /\
  In (Transfer (this w) 0 tokenAmount) ev /\
  In (Sold sender netReturn tokenAmount (fee_of (tokenAmount * price_of w / SCALE))) ev.
Proof.
  intros H Hne. apply sell_Ok_inv in H. cbv zeta in *.
  destruct H as (_ & _ & _ & _ & _ & Hc & He & Hs & Hb & _ & _ & ->).
  rewrite Hc, He, Hs, Hb. fields.
  rewrite !move_lookup, !sold_balances_lookup by congruence.
  rewrite !Z.eqb_refl.
  destruct (Z.eqb_spec (this w) sender) as [|_]; [congruence|].
  split.
  { intros Hlt.
    now destruct (Z.ltb_spec (net_of (tokenAmount * price_of w / SCALE))
                    (totalEthInvested (curve w))); [lia|]. }
  split.
  { intros Hle.
    destruct (Z.ltb_spec (net_of (tokenAmount * price_of w / SCALE))
                (totalEthInvested (curve w))); lia. }
  repeat (split; [reflexivity|]).
  split; [right; left; reflexivity|do 3 right; left; reflexivity].
Qed.

Lemma sell_settles_witness :
  let netReturn := net_of (1000 * ether * price_of Demo.approved / SCALE) in
  (totalEthInvested (curve Demo.approved) < netReturn ->
   totalEthInvested (curve (fst Demo.sold)) = 0) /\
  (netReturn <= totalEthInvested (curve Demo.approved) ->
   totalEthInvested (curve (fst Demo.sold)) = totalEthInvested (curve Demo.approved) - netReturn) /\
  balance (eth (fst Demo.sold)) Demo.userAddr
  = balance (eth Demo.approved) Demo.userAddr + netReturn /\
  balance (eth (fst Demo.sold)) (this Demo.approved)
  = balance (eth Demo.approved) (this Demo.approved) - netReturn /\
  ERC20Token.totalSupply (erc20 (fst Demo.sold))
  = ERC20Token.totalSupply (erc20 Demo.approved) - 1000 * ether /\
  balance (ERC20Token.balances (erc20 (fst Demo.sold))) Demo.userAddr
  = balance (ERC20Token.balances (erc20 Demo.approved)) Demo.userAddr - 1000 * ether /\
  balance (ERC20Token.balances (erc20 (fst Demo.sold))) (this Demo.approved)
  = balance (ERC20Token.balances (erc20 Demo.approved)) (this Demo.approved) /\
  In (Transfer (this Demo.approved) 0 (1000 * ether)) (snd Demo.sold) /\
  In (Sold Demo.userAddr netReturn (1000 * ether)
        (fee_of (1000 * ether * price_of Demo.approved / SCALE))) (snd Demo.sold).
Proof.
  apply (sell_settles Demo.userAddr (1000 * ether) Demo.approved (fst Demo.sold) (snd Demo.sold)).
  - vm_compute. reflexivity.
  - vm_compute. discriminate.
Defined.

(** The fee split before graduation. *)
Lemma calculateFees_run amount w :
  hasGraduated (curve w) = false -> 0 <= amount -> amount * PLATFORM_FEE <= MAX_UINT256 ->
  _calculateFees amount w = Ok ((net_of amount, fee_of amount, 0), w, []).
Proof.
  intros Hg Hpos Hfit.
  assert (Hfee : 0 <= fee_of amount <= amount).
  { unfold fee_of. split; [apply Z.div_pos; lia|apply Z.div_le_upper_bound; lia]. }
  assert (Hd : amount * DEPLOYER_FEE / FEE_DENOMINATOR = 0).
  { unfold DEPLOYER_FEE. now rewrite Z.mul_0_r, Zdiv_0_l. }
  unfold _calculateFees. eapply Ok_result.
  - run ltac:(first
      [ reflexivity | assumption
      | rewrite ?fee_of_code, ?Hd; unfold DEPLOYER_FEE, FEE_DENOMINATOR, MAX_UINT256 in *;
        lia ]).
  - rewrite fee_of_code, Hd. unfold net_of. now rewrite Z.sub_0_r.
Qed.

Lemma calculateBuyReturn_run ethIn w :
  (ERC20Token.totalSupply (erc20 w) <> 0 ->
   totalEthInvested (curve w) * SCALE <= MAX_UINT256) ->
  price_of w <> 0 -> ethIn * SCALE <= MAX_UINT256 ->
  calculateBuyReturn ethIn w = Ok (ethIn * SCALE / price_of w, w, []).
Proof.
  intros Hfit Hp Hin. unfold calculateBuyReturn. eapply Ok_result.
  - run ltac:(first [reflexivity | assumption | apply getCurrentPrice_run; assumption]).
  - reflexivity.
Qed.

Lemma calculateSellReturn_run tokensIn w :
  (ERC20Token.totalSupply (erc20 w) <> 0 ->
   totalEthInvested (curve w) * SCALE <= MAX_UINT256) ->
  tokensIn * price_of w <= MAX_UINT256 ->
  calculateSellReturn tokensIn w = Ok (tokensIn * price_of w / SCALE, w, []).
Proof.
  intros Hfit Hin. unfold calculateSellReturn. eapply Ok_result.
  - run ltac:(first [reflexivity | assumption | apply getCurrentPrice_run; assumption
                    | vm_compute; discriminate]).
  - reflexivity.
Qed.

(** A buy that passes its guards, overflows nowhere and stays below the
    graduation threshold succeeds. *)
Lemma buy_succeeds sender value w :
  MIN_BUY <= value -> value * PLATFORM_FEE <= MAX_UINT256 ->
  hasGraduated (curve w) = false ->
  (ERC20Token.totalSupply (erc20 w) <> 0 ->
   totalEthInvested (curve w) * SCALE <= MAX_UINT256) ->
  price_of w <> 0 ->
  net_of value * SCALE <= MAX_UINT256 ->
  0 < net_of value * SCALE / price_of w ->
  platformFeesCollected (curve w) + fee_of value <= MAX_UINT256 ->
  ERC20Token.owner (erc20 w) = this w -> sender <> 0 ->
  ERC20Token.totalSupply (erc20 w) + net_of value * SCALE / price_of w <= MAX_UINT256 ->
  totalEthInvested (curve w) + net_of value < GRADUATION_THRESHOLD ->
  exists w' ev, buy sender value w = Ok (tt, w', ev).
Proof.
  intros Hmin Hfee Hg Hfit Hp Hnet Htok Hacc Hown Hs Hsup Hth.
  assert (Hv : 0 <= value) by (change MIN_BUY with 50000000000000000 in Hmin; lia).
  assert (GRADUATION_THRESHOLD <= MAX_UINT256) by (vm_compute; discriminate).
  do 2 eexists.
  unfold buy, ERC20Token.mint, ERC20Token._mint, ERC20Token._update,
    _checkGraduation, getMarketCap.
  run ltac:(first
    [ reflexivity | assumption | lia
    | apply calculateFees_run; assumption
    | apply calculateBuyReturn_run; assumption
    | fields; first [assumption | lia | congruence | rewrite Hg; reflexivity] ]).
Qed.

(** A sell of tokens the seller holds and has approved, against a reserve
    that covers the return, succeeds. *)
Lemma sell_succeeds sender tokenAmount w :
  let grossReturn := tokenAmount * price_of w / SCALE in
  0 < tokenAmount ->
  hasGraduated (curve w) = false ->
  sender <> 0 -> this w <> 0 -> sender <> this w ->
  tokenAmount <= allowed (ERC20Token.allowances (erc20 w)) sender (this w) ->
  tokenAmount <= balance (ERC20Token.balances (erc20 w)) sender ->
  0 <= balance (ERC20Token.balances (erc20 w)) (this w) ->
  0 <= ERC20Token.totalSupply (erc20 w) -> 0 <= totalEthInvested (curve w) ->
  (ERC20Token.totalSupply (erc20 w) <> 0 ->
   totalEthInvested (curve w) * SCALE <= MAX_UINT256) ->
  tokenAmount * price_of w <= MAX_UINT256 ->
  grossReturn * PLATFORM_FEE <= MAX_UINT256 ->
  net_of grossReturn <= balance (eth w) (this w) ->
  platformFeesCollected (curve w) + fee_of grossReturn <= MAX_UINT256 ->
  sender ∉ rejecting w ->
  exists w' ev, sell sender tokenAmount w = Ok (tt, w', ev).
Proof.
  cbv zeta.
  intros Hpos Hg Hs Hme Hne Hall Hbal Hown Hsup Hinv Hfit Hmul Hfee Hres Hacc Hrej.
  assert (Hprice : 0 <= price_of w).
  { unfold price_of. destruct (Z.eqb_spec (ERC20Token.totalSupply (erc20 w)) 0);
      [vm_compute; discriminate|].
    apply Z.div_pos; [|lia]. apply Z.mul_nonneg_nonneg; [lia|vm_compute; discriminate]. }
  assert (Hgross : 0 <= tokenAmount * price_of w / SCALE).
  { apply Z.div_pos; [apply Z.mul_nonneg_nonneg; lia|vm_compute; reflexivity]. }
  unfold sell, ERC20Token.transferFrom, ERC20Token._spendAllowance, ERC20Token._transfer,
    ERC20Token.burn, ERC20Token._burn, ERC20Token._update, call_value.
  destruct (Z.eqb_spec (allowed (ERC20Token.allowances (erc20 w)) sender (this w))
              MAX_UINT256) as [Emax|Emax];
    destruct (Z.ltb_spec (net_of (tokenAmount * price_of w / SCALE))
                (totalEthInvested (curve w))) as [Hfloor|Hfloor].
  all: do 2 eexists.
  all: run ltac:(first
    [ reflexivity | assumption | lia
    | apply calculateFees_run; fields; assumption
    | apply calculateSellReturn_run; unfold price_of in *; fields; assumption
    | fields; unfold price_of in *; fields;
      rewrite ?balance_insert, ?Z.eqb_refl;
      first [ assumption | lia | congruence | rewrite Hg; reflexivity
            | destruct (Z.eqb_spec (this w) sender); [congruence|lia]
            | apply andb_true_iff; split;
              [apply Z.leb_le; assumption
              |apply negb_true_iff, bool_decide_eq_false; assumption] ]]).
Qed.

(** C5: a buy charges [grossIn * 75 / 10000] on the amount sent, before
    the conversion of the remainder into tokens; a sell charges
    [grossReturn * 75 / 10000] on the amount the tokens convert to; and once
    the curve has graduated the fee split returns the amount unchanged with
    both fees zero. Buys and sells that meet their guards and overflow
    nowhere do succeed, so both rules are in force. *)
Theorem fee_before_and_after_conversion sender w :
  (forall value w' ev,
     buy sender value w = Ok (tt, w', ev) ->
     let fee := value * 75 / 10000 in
     platformFeesCollected (curve w') = platformFeesCollected (curve w) + fee /\
     totalEthInvested (curve w') = totalEthInvested (curve w) + (value - fee) /\
     In (Bought sender value ((value - fee) * SCALE / price_of w) fee) ev) /\
  (forall tokenAmount w' ev,
     sell sender tokenAmount w = Ok (tt, w', ev) ->
     let grossReturn := tokenAmount * price_of w / SCALE in
     let fee := grossReturn * 75 / 10000 in
     platformFeesCollected (curve w') = platformFeesCollected (curve w) + fee /\
     In (Sold sender (grossReturn - fee) tokenAmount fee) ev) /\
  (hasGraduated (curve w) = true ->
   forall amount, _calculateFees amount w = Ok ((amount, 0, 0), w, [])) /\
  (forall value,
     let fee := value * 75 / 10000 in
     let tokensOut := (value - fee) * SCALE / price_of w in
     MIN_BUY <= value -> value * 75 <= MAX_UINT256 ->
     hasGraduated (curve w) = false ->
     (ERC20Token.totalSupply (erc20 w) <> 0 ->
      totalEthInvested (curve w) * SCALE <= MAX_UINT256) ->
     price_of w <> 0 ->
     (value - fee) * SCALE <= MAX_UINT256 ->
     0 < tokensOut ->
     platformFeesCollected (curve w) + fee <= MAX_UINT256 ->
     ERC20Token.owner (erc20 w) = this w -> sender <> 0 ->
     ERC20Token.totalSupply (erc20 w) + tokensOut <= MAX_UINT256 ->
     totalEthInvested (curve w) + (value - fee) < GRADUATION_THRESHOLD ->
     exists w' ev, buy sender value w = Ok (tt, w', ev)) /\
  (forall tokenAmount,
     let grossReturn := tokenAmount * price_of w / SCALE in
     let fee := grossReturn * 75 / 10000 in
     0 < tokenAmount ->
     hasGraduated (curve w) = false ->
     sender <> 0 -> this w <> 0 -> sender <> this w ->
     tokenAmount <= allowed (ERC20Token.allowances (erc20 w)) sender (this w) ->
     tokenAmount <= balance (ERC20Token.balances (erc20 w)) sender ->
     0 <= balance (ERC20Token.balances (erc20 w)) (this w) ->
     0 <= ERC20Token.totalSupply (erc20 w) -> 0 <= totalEthInvested (curve w) ->
     (ERC20Token.totalSupply (erc20 w) <> 0 ->
      totalEthInvested (curve w) * SCALE <= MAX_UINT256) ->
     tokenAmount * price_of w <= MAX_UINT256 ->
     grossReturn * 75 <= MAX_UINT256 ->
     grossReturn - fee <= balance (eth w) (this w) ->
     platformFeesCollected (curve w) + fee <= MAX_UINT256 ->
     sender ∉ rejecting w ->
     exists w' ev, sell sender tokenAmount w = Ok (tt, w', ev)).
Proof.
  split; [|split; [|split; [|split]]].
  - intros value w' ev H. apply buy_Ok_inv in H. cbv zeta in *.
    destruct H as (_ & _ & _ & _ & _ & _ & _ & Hcases).
    fold (fee_of value). fold (net_of value).
    destruct Hcases as [(_ & -> & ->)|(_ & _ & -> & ->)]; fields.
    + repeat (split; [reflexivity|]). do 2 right; left; reflexivity.
    + repeat (split; [reflexivity|]). do 3 right; left; reflexivity.
  - intros tokenAmount w' ev H. apply sell_Ok_inv in H. cbv zeta in *.
    destruct H as (_ & _ & _ & _ & _ & Hc & _ & _ & _ & _ & _ & ->).
    rewrite Hc. fields. split; [reflexivity|]. do 3 right; left; reflexivity.
  - intros Hg amount. unfold _calculateFees.
    eapply Ok_result; [run ltac:(first [reflexivity | assumption])|].
    reflexivity.
  - intros value. cbv zeta. fold (fee_of value). fold (net_of value).
    now apply buy_succeeds.
  - intros tokenAmount. cbv zeta.
    fold (fee_of (tokenAmount * price_of w / SCALE)).
    fold (net_of (tokenAmount * price_of w / SCALE)).
    now apply sell_succeeds.
Qed.

Lemma fee_before_and_after_conversion_witness :
  (exists w' ev,
     buy Demo.userAddr ether
       (credited Demo.factoryAddr (mkTx Demo.userAddr ether (Demo.t0 + 20) Curve_buy)
          Demo.live) = Ok (tt, w', ev) /\
     platformFeesCollected (curve w') = ether * 75 / 10000 /\
     totalEthInvested (curve w') = ether - ether * 75 / 10000) /\
  (exists w' ev,
     sell Demo.userAddr (1000 * ether) Demo.approved = Ok (tt, w', ev) /\
     platformFeesCollected (curve w')
     = platformFeesCollected (curve Demo.approved)
       + 1000 * ether * price_of Demo.approved / SCALE * 75 / 10000) /\
  _calculateFees ether Demo.graduated = Ok ((ether, 0, 0), Demo.graduated, []).
Proof.
  split; [|split].
  - pose proof (fee_before_and_after_conversion Demo.userAddr
                  (credited Demo.factoryAddr
                     (mkTx Demo.userAddr ether (Demo.t0 + 20) Curve_buy) Demo.live))
      as (Hfee & _ & _ & Hrun & _).
    destruct (Hrun ether) as (w' & ev & Hbuy).
    1-12: vm_compute; first [reflexivity | discriminate].
    exists w', ev. split; [exact Hbuy|].
    destruct (Hfee _ _ _ Hbuy) as (H1 & H2 & _).
    rewrite H1, H2. split; vm_compute; reflexivity.
  - pose proof (fee_before_and_after_conversion Demo.userAddr Demo.approved)
      as (_ & Hfee & _ & _ & Hrun).
    destruct (Hrun (1000 * ether)) as (w' & ev & Hsell).
    1-15: vm_compute; first [reflexivity | discriminate].
    { apply (proj1 (bool_decide_eq_false _)). vm_compute. reflexivity. }
    exists w', ev. split; [exact Hsell|].
    destruct (Hfee _ _ _ Hsell) as (H1 & _). exact H1.
  - pose proof (fee_before_and_after_conversion Demo.userAddr Demo.graduated)
      as (_ & _ & H & _).
    apply H. vm_compute. reflexivity.
Defined.

End Pricing.

(** * Transactions and their history *)

Module Ledger.
Import Pricing.

Lemma run_Ok_inv fa tx w w' ev :
  run fa tx w = Ok (tt, w', ev) ->
  tx_value tx <= balance (eth w) (tx_sender tx) /\
  (payable (tx_call tx) = false -> tx_value tx = 0) /\
  dispatch fa tx (credited fa tx w) = Ok (tt, w', ev).
Proof.
  intros H. unfold run in H.
  apply bind_Ok in H. destruct H as (? & ? & ? & ? & H1 & H & ->). invM H1.
  apply bind_Ok in H. destruct H as (? & ? & ? & ? & H1 & H & ->). invM H1.
  apply bind_Ok in H. destruct H as (? & ? & ? & ? & H2 & H & ->). invM H2.
  apply bind_Ok in H. destruct H as (? & ? & ? & ? & H3 & H & ->). invM H3.
  apply bind_Ok in H. destruct H as (? & ? & ? & ? & H4 & H & ->). invM H4.
  apply bind_Ok in H. destruct H as (? & ? & ? & ? & H5 & H & ->). invM H5.
  bool_to_Prop. split; [assumption|]. split.
  - intros Hp. rewrite Hp in H2. cbn in H2. now apply Z.eqb_eq.
  - exact H.
Qed.

Lemma execute_Success fa tx w ev :
  snd (execute fa w tx) = Success ev ->
  run fa tx w = Ok (tt, fst (execute fa w tx), ev).
Proof.
  unfold execute. destruct (run fa tx w) as [[[[] w'] ev']|]; cbn; congruence.
Qed.

(** A reverted transaction changes nothing. *)
Lemma execute_Reverted fa tx w e :
  snd (execute fa w tx) = Reverted e -> fst (execute fa w tx) = w.
Proof.
  unfold execute. destruct (run fa tx w) as [[[[] w'] ev']|]; cbn; congruence.
Qed.

Lemma graduations_app ev1 ev2 :
  graduations (ev1 ++ ev2) = (graduations ev1 + graduations ev2)%nat.
Proof.
  induction ev1 as [|e ev1 IH]; [reflexivity|].
  destruct e; cbn [app graduations]; rewrite IH; reflexivity.
Qed.

(** What a call leaves of the token's administration. *)
Lemma dispatch_token_admin fa tx w w' ev :
  dispatch fa tx w = Ok (tt, w', ev) ->
  ERC20Token.deployer (erc20 w') = ERC20Token.deployer (erc20 w) /\
  ERC20Token.vestingStartTime (erc20 w') = ERC20Token.vestingStartTime (erc20 w) /\
  (ERC20Token.owner (erc20 w') = ERC20Token.owner (erc20 w)
   \/ (tx_sender tx = ERC20Token.owner (erc20 w)
       /\ exists n, tx_call tx = Token_transferOwnership n)
   \/ (fa = ERC20Token.owner (erc20 w)
       /\ tx_sender tx = ERC20Token.deployer (erc20 w)
       /\ exists n, tx_call tx = Factory_transferTokenOwnership (token (curve w)) n)) /\
  (ERC20Token.milestonesReached (erc20 w') = ERC20Token.milestonesReached (erc20 w)
   \/ (tx_sender tx = ERC20Token.owner (erc20 w)
       /\ tx_call tx = Token_setMilestonesReached
       /\ ERC20Token.milestonesReached (erc20 w') = true)).
Proof.
  destruct tx as [sender value timestamp call].
  unfold dispatch. cbn [tx_sender tx_value tx_timestamp tx_call].
  intros H.
  destruct call.
  all: invC H; fields; bool_to_Prop; subst; eauto 10.
Qed.

(** What a call does to the curve. *)
Lemma dispatch_curve fa tx w w' ev :
  dispatch fa tx w = Ok (tt, w', ev) ->
  this w' = this w /\
  token (curve w') = token (curve w) /\
  factory (curve w') = factory (curve w) /\
  (hasGraduated (curve w) = true ->
   hasGraduated (curve w') = true /\ graduations ev = 0%nat /\
   is_buy (tx_call tx) = false /\ is_sell (tx_call tx) = false) /\
  (hasGraduated (curve w) = false ->
   graduations ev = if hasGraduated (curve w') then 1%nat else 0%nat) /\
  (is_sell (tx_call tx) = false ->
   totalEthInvested (curve w')
   = totalEthInvested (curve w)
     + if is_buy (tx_call tx) then net_of (tx_value tx) else 0).
Proof.
  destruct tx as [sender value timestamp call].
  unfold dispatch. cbn [tx_sender tx_value tx_timestamp tx_call].
  intros H.
  destruct call.
  all: invC H; fields; rewrite ?net_of_code; cbn [app graduations is_buy is_sell];
       repeat (split; [try reflexivity|]); intros;
       try reflexivity; try congruence; try lia;
       try (match goal with Hg : hasGraduated _ = _ |- _ => rewrite Hg end; reflexivity).
Qed.

(** One transaction, seen from the curve and from the token. *)
Lemma execute_curve fa tx w :
  let w' := fst (execute fa w tx) in
  let r := snd (execute fa w tx) in
  this w' = this w /\
  token (curve w') = token (curve w) /\
  factory (curve w') = factory (curve w) /\
  (hasGraduated (curve w) = true ->
   hasGraduated (curve w') = true /\ graduations (events_of r) = 0%nat /\
   (is_buy (tx_call tx) = true -> succeeded r = false) /\
   (is_sell (tx_call tx) = true -> succeeded r = false)) /\
  (hasGraduated (curve w) = false ->
   graduations (events_of r) = if hasGraduated (curve w') then 1%nat else 0%nat) /\
  (is_sell (tx_call tx) = false ->
   totalEthInvested (curve w')
   = totalEthInvested (curve w)
     + if is_buy (tx_call tx) && succeeded r then net_of (tx_value tx) else 0).
Proof.
  cbv zeta. unfold execute.
  destruct (run fa tx w) as [[[[] w'] ev]|e] eqn:Hrun;
    cbn [fst snd events_of succeeded graduations].
  - apply run_Ok_inv in Hrun. destruct Hrun as (_ & _ & H).
    apply dispatch_curve in H. unfold credited in H. fields_in H.
    destruct H as (H1 & H2 & H3 & H4 & H5 & H6).
    repeat (split; [assumption|]). rewrite andb_true_r.
    split; [|split; assumption].
    intros Hg. destruct (H4 Hg) as (? & ? & Hb & Hs).
    repeat (split; [assumption|]). split; congruence.
  - repeat (split; [reflexivity|]). rewrite andb_false_r.
    split; [auto|]. split; [|intros; lia].
    intros ->. reflexivity.
Qed.

Lemma execute_token_admin fa tx w :
  let w' := fst (execute fa w tx) in
  ERC20Token.deployer (erc20 w') = ERC20Token.deployer (erc20 w) /\
  (ERC20Token.owner (erc20 w') = ERC20Token.owner (erc20 w)
   \/ (tx_sender tx = ERC20Token.owner (erc20 w)
       /\ exists n, tx_call tx = Token_transferOwnership n)
   \/ (fa = ERC20Token.owner (erc20 w)
       /\ tx_sender tx = ERC20Token.deployer (erc20 w)
       /\ exists n, tx_call tx = Factory_transferTokenOwnership (token (curve w)) n)) /\
  (ERC20Token.milestonesReached (erc20 w') = ERC20Token.milestonesReached (erc20 w)
   \/ (tx_sender tx = ERC20Token.owner (erc20 w)
       /\ tx_call tx = Token_setMilestonesReached
       /\ ERC20Token.milestonesReached (erc20 w') = true)).
Proof.
  cbv zeta. unfold execute.
  destruct (run fa tx w) as [[[[] w'] ev]|e] eqn:Hrun; cbn [fst snd]; [|auto].
  apply run_Ok_inv in Hrun. destruct Hrun as (_ & _ & H).
  apply dispatch_token_admin in H. unfold credited in H. fields_in H.
  destruct H as (H1 & _ & H3 & H4). auto.
Qed.

Lemma replay_app fa w txs1 txs2 :
  replay fa w (txs1 ++ txs2) = replay fa (replay fa w txs1) txs2.
Proof. revert w. induction txs1 as [|tx txs1 IH]; intros w; [reflexivity|]. apply IH. Qed.

Lemma replay_this fa w txs : this (replay fa w txs) = this w.
Proof.
  revert w. induction txs as [|tx txs IH]; intros w; [reflexivity|].
  cbn [replay]. rewrite IH. apply (execute_curve fa tx w).
Qed.

Lemma replay_collateral fa txs : forall w,
  Forall (fun tx => is_sell (tx_call tx) = false) txs ->
  totalEthInvested (curve (replay fa w txs))
  = totalEthInvested (curve w) + net_collateral_of_buys fa w txs.
Proof.
  induction txs as [|tx txs IH]; intros w Hall.
  - cbn. lia.
  - pose proof (Forall_inv Hall) as Htx.
    pose proof (Forall_inv_tail Hall) as Hrest.
    cbn [replay net_collateral_of_buys]. rewrite IH by assumption.
    pose proof (execute_curve fa tx w) as H. cbv zeta in H.
    destruct H as (_ & _ & _ & _ & _ & H). rewrite (H Htx). lia.
Qed.

(** C8: starting with no collateral invested, after any number of
    transactions none of which is a sell, the collateral invested is exactly
    the sum of the net amounts (value sent less the fee on it) of the buys
    that succeeded so far. This holds after each transaction of the
    sequence: [take n txs] is any prefix. *)
Theorem collateral_is_sum_of_net_buys fa w txs n :
  totalEthInvested (curve w) = 0 ->
  Forall (fun tx => is_sell (tx_call tx) = false) txs ->
  totalEthInvested (curve (replay fa w (take n txs)))
  = net_collateral_of_buys fa w (take n txs).
Proof.
  intros H0 Hall. rewrite replay_collateral, H0; [lia|].
  now apply Forall_take.
Qed.

Lemma collateral_is_sum_of_net_buys_witness :
  totalEthInvested (curve (replay Demo.factoryAddr Demo.live (take 4 Demo.three_buys)))
  = net_of ether + net_of (3 * ether).
Proof.
  rewrite (collateral_is_sum_of_net_buys Demo.factoryAddr Demo.live Demo.three_buys 4).
  - vm_compute. reflexivity.
  - vm_compute. reflexivity.
  - repeat constructor.
Defined.

End Ledger.

(** * Graduation *)

Module Graduation.
Import Pricing Ledger.

Lemma buy_after_graduation w sender value :
  hasGraduated (curve w) = true -> MIN_BUY <= value ->
  buy sender value w = Err CurveHasGraduated.
Proof.
  intros Hg Hmin. unfold buy.
  eapply bind_Err_second; [run ltac:(assumption)|].
  eapply bind_Err_second; [run ltac:(assumption)|].
  cbv beta. apply bind_Err, require_false. now rewrite Hg.
Qed.

Lemma history_graduated fa txs : forall w,
  hasGraduated (curve w) = true ->
  hasGraduated (curve (replay fa w txs)) = true /\
  Forall (fun s => hasGraduated (curve (fst s)) = true
                   /\ graduations (events_of (snd s)) = 0%nat
                   /\ fst s = fst s)
         (history fa w txs) /\
  graduations (emitted (history fa w txs)) = 0%nat.
Proof.
  induction txs as [|tx txs IH]; intros w Hg.
  - cbn. auto.
  - pose proof (execute_curve fa tx w) as H. cbv zeta in H.
    destruct H as (_ & _ & _ & H & _). destruct (H Hg) as (Hg' & Hz & _).
    destruct (IH _ Hg') as (IH1 & IH2 & IH3).
    cbn [replay history emitted flat_map]. split; [assumption|].
    split; [constructor; auto|].
    rewrite graduations_app, Hz. exact IH3.
Qed.

Lemma history_graduations fa txs : forall w,
  hasGraduated (curve w) = false ->
  graduations (emitted (history fa w txs))
  = if hasGraduated (curve (replay fa w txs)) then 1%nat else 0%nat.
Proof.
  induction txs as [|tx txs IH]; intros w Hg.
  - cbn. now rewrite Hg.
  - pose proof (execute_curve fa tx w) as H. cbv zeta in H.
    destruct H as (_ & _ & _ & _ & H & _). specialize (H Hg).
    cbn [replay history emitted flat_map]. rewrite graduations_app, H.
    destruct (hasGraduated (curve (fst (execute fa w tx)))) eqn:Hg'.
    + destruct (history_graduated fa txs _ Hg') as (-> & _ & Hz).
      unfold emitted in Hz. rewrite Hz. reflexivity.
    + rewrite <- IH by assumption. reflexivity.
Qed.

(** C3: graduation cannot burn. [_executeGraduation] calls
    [token.burnFrom] whenever a tenth of the supply is at least one unit,
    and the token has no such function. So a buy that would bring the
    collateral invested to the graduation threshold while the supply after
    its mint is ten units or more reverts and leaves the curve active. A
    buy that does bring the collateral to the threshold found less than ten
    units of supply after its mint: it sets [hasGraduated] and
    [liquidityAdded], mints to the buyer, burns nothing and emits
    [Graduated] once. From a graduated world on, every buy reverts,
    [hasGraduated] stays set, and no transaction emits [Graduated]; so over
    any sequence of transactions from an active world [Graduated] is emitted
    once if the curve ends graduated and never otherwise. *)
Theorem graduating_buy_reverts fa w :
  (forall buyer value timestamp,
     GRADUATION_THRESHOLD <= totalEthInvested (curve w) + net_of value ->
     10 <= ERC20Token.totalSupply (erc20 w) + net_of value * SCALE / price_of w ->
     exists e,
       execute fa w (mkTx buyer value timestamp Curve_buy) = (w, Reverted e)) /\
  (forall sender value w' ev,
     buy sender value w = Ok (tt, w', ev) ->
     GRADUATION_THRESHOLD <= totalEthInvested (curve w') ->
     let tokensOut := net_of value * SCALE / price_of w in
     let supply := ERC20Token.totalSupply (erc20 w) + tokensOut in
     supply < 10 /\
     hasGraduated (curve w) = false /\
     hasGraduated (curve w') = true /\
     liquidityAdded (curve w') = true /\
     ERC20Token.totalSupply (erc20 w') = supply /\
     (forall a,
        balance (ERC20Token.balances (erc20 w')) a
        = balance (ERC20Token.balances (erc20 w)) a
          + (if a =? sender then tokensOut else 0)) /\
     ev = [Transfer 0 sender tokensOut; TokensMinted sender tokensOut;
           Graduated (totalEthInvested (curve w')) (balance (eth w) (this w));
           Bought sender value tokensOut (fee_of value)]) /\
  (hasGraduated (curve w) = true ->
   (forall sender value, MIN_BUY <= value -> buy sender value w = Err CurveHasGraduated) /\
   forall txs,
     hasGraduated (curve (replay fa w txs)) = true /\
     Forall (fun s => hasGraduated (curve (fst s)) = true
                      /\ graduations (events_of (snd s)) = 0%nat)
            (history fa w txs)) /\
  (hasGraduated (curve w) = false ->
   forall txs,
     graduations (emitted (history fa w txs))
     = if hasGraduated (curve (replay fa w txs)) then 1%nat else 0%nat).
Proof.
  split; [|split; [|split]].
  - intros buyer value timestamp Hth Hsup. unfold execute.
    destruct (run fa (mkTx buyer value timestamp Curve_buy) w)
      as [[[[] w'] ev]|e] eqn:Hrun; [exfalso|now exists e].
    apply run_Ok_inv in Hrun. destruct Hrun as (_ & _ & H).
    unfold dispatch in H. cbn [tx_call tx_sender tx_value] in H.
    apply buy_Ok_inv in H. cbv zeta in H.
    destruct H as (_ & _ & _ & _ & _ & _ & _ & Hcases).
    unfold credited, price_of, minted in Hcases. fields_in Hcases.
    unfold price_of in Hsup. unfold BURN_PERCENTAGE, FEE_DENOMINATOR in Hcases.
    destruct Hcases as [(Hlt & _)|(_ & Hburn & _)]; [lia|].
    assert (1 <= (ERC20Token.totalSupply (erc20 w)
                  + net_of value * SCALE
                    / (if ERC20Token.totalSupply (erc20 w) =? 0 then BASE_PRICE
                       else totalEthInvested (curve w) * SCALE
                            / ERC20Token.totalSupply (erc20 w))) * 1000 / 10000)
      by (apply Z.div_le_lower_bound; lia).
    lia.
  - intros sender value w' ev H Hth. apply buy_Ok_inv in H. cbv zeta in *.
    destruct H as (_ & Hg & _ & _ & _ & _ & _ & Hcases).
    destruct Hcases as [(Hlt & -> & _)|(_ & Hburn & -> & ->)].
    { fields_in Hth. lia. }
    unfold minted in *. fields. fields_in Hburn.
    unfold BURN_PERCENTAGE, FEE_DENOMINATOR in Hburn.
    set (tokensOut := net_of value * SCALE / price_of w) in *.
    split.
    { destruct (Z.lt_ge_cases (ERC20Token.totalSupply (erc20 w) + tokensOut) 10)
        as [|Hge]; [assumption|].
      assert (1 <= (ERC20Token.totalSupply (erc20 w) + tokensOut) * 1000 / 10000)
        by (apply Z.div_le_lower_bound; lia).
      lia. }
    repeat (split; [first [assumption | reflexivity]|]).
    split; [|reflexivity].
    intros a. rewrite balance_insert. destruct (Z.eqb_spec a sender); subst; lia.
  - intros Hg. split; [intros; now apply buy_after_graduation|].
    intros txs. destruct (history_graduated fa txs w Hg) as (H1 & H2 & _).
    split; [assumption|]. eapply Forall_impl; [exact H2|]. cbv beta. intros s (? & ? & _); auto.
  - intros Hg txs. now apply history_graduations.
Qed.

Lemma graduating_buy_reverts_witness :
  execute Demo.factoryAddr Demo.funded Demo.crossing
  = (Demo.funded, Reverted NoSuchFunction) /\
  hasGraduated (curve Demo.funded) = false /\
  hasGraduated (curve Demo.graduated) = true /\
  ERC20Token.totalSupply (erc20 Demo.graduated) = 2.
Proof.
  pose proof (graduating_buy_reverts Demo.factoryAddr Demo.funded) as (Hrev & _).
  pose proof (graduating_buy_reverts Demo.factoryAddr
                (credited Demo.factoryAddr Demo.last_unit Demo.thin)) as (_ & Hfire & _).
  split; [|split].
  - destruct (Hrev Demo.userAddr (2 * ether) (Demo.t0 + 40)) as (e & He).
    + vm_compute. discriminate.
    + vm_compute. discriminate.
    + change (mkTx Demo.userAddr (2 * ether) (Demo.t0 + 40) Curve_buy)
        with Demo.crossing in He.
      rewrite He.
      assert (Hrun : snd (execute Demo.factoryAddr Demo.funded Demo.crossing)
                     = Reverted NoSuchFunction) by (vm_compute; reflexivity).
      rewrite He in Hrun. cbn [snd] in Hrun. now rewrite Hrun.
  - vm_compute. reflexivity.
  - specialize (Hfire Demo.userAddr (51 * ether) Demo.graduated
                  (events_of (snd (execute Demo.factoryAddr Demo.thin Demo.last_unit)))).
    cbv zeta in Hfire.
    destruct Hfire as (_ & _ & Hg & _ & Hs & _).
    + vm_compute. reflexivity.
    + vm_compute. discriminate.
    + split; [exact Hg|]. rewrite Hs. vm_compute. reflexivity.
Defined.

End Graduation.

(** * Ownership of a fresh pair *)

Module Ownership.
Import Pricing Ledger.

Lemma createToken_Ok_inv fa f creator value timestamp name symbol
    tokenAddress curveAddress eth0 rej0 ta ca w0 ev0 :
  TokenFactory.createToken fa f creator value timestamp name symbol
    tokenAddress curveAddress eth0 rej0 = Ok (ta, ca, w0, ev0) ->
  ta = tokenAddress /\ ca = curveAddress /\
  this w0 = curveAddress /\
  token (curve w0) = tokenAddress /\
  factory (curve w0) = fa /\
  ERC20Token.owner (erc20 w0) = fa /\
  ERC20Token.deployer (erc20 w0) = creator /\
  BondingCurve.deployer (curve w0) = creator /\
  ERC20Token.totalSupply (erc20 w0) = 0 /\
  totalEthInvested (curve w0) = 0 /\
  hasGraduated (curve w0) = false /\
  ERC20Token.milestonesReached (erc20 w0) = false /\
  fa <> 0 /\ creator <> 0 /\ tokenAddress <> 0.
Proof.
  unfold TokenFactory.createToken, ERC20Token.constructor, BondingCurve.constructor.
  destruct (negb (TokenFactory.TOKEN_CREATION_FEE <=? value)); [discriminate|].
  destruct (Z.eqb_spec fa 0); [discriminate|].
  destruct (Z.eqb_spec creator 0); [discriminate|].
  destruct (Z.eqb_spec tokenAddress 0); [discriminate|].
  destruct (TokenFactory.platform f =? 0); [discriminate|].
  destruct (_ && _); [|discriminate].
  intros [= <- <- <- <-]. cbn. auto 20.
Qed.

Lemma mint_only_owner caller to amount k :
  caller <> ERC20Token.owner k ->
  ERC20Token.mint caller to amount k = Err OnlyOwner.
Proof.
  intros Hne. unfold ERC20Token.mint.
  eapply bind_Err_second; [reflexivity|]. cbv beta.
  apply bind_Err, require_false. now apply Z.eqb_neq.
Qed.

(** While the token is owned by somebody else than the curve, no buy
    goes through. *)
Lemma buy_reverts_unless_owner fa w buyer amount timestamp :
  ERC20Token.owner (erc20 w) <> this w ->
  exists e, execute fa w (mkTx buyer amount timestamp Curve_buy) = (w, Reverted e).
Proof.
  intros Hne. unfold execute.
  destruct (run fa (mkTx buyer amount timestamp Curve_buy) w) as [[[[] w'] ev]|e] eqn:Hrun;
    [|eauto].
  exfalso. apply run_Ok_inv in Hrun. destruct Hrun as (_ & _ & H).
  unfold dispatch in H. cbn [tx_call tx_sender tx_value] in H.
  apply buy_Ok_inv in H. cbv zeta in H. destruct H as (_ & _ & _ & _ & _ & Ho & _).
  unfold credited in Ho. fields_in Ho. contradiction.
Qed.

Lemma replay_owner fa txs : forall w,
  ERC20Token.owner (erc20 w) = fa ->
  Forall (fun tx => tx_sender tx <> fa /\ not_handover tx) txs ->
  ERC20Token.owner (erc20 (replay fa w txs)) = fa.
Proof.
  induction txs as [|tx txs IH]; intros w Ho Hall; [assumption|].
  pose proof (Forall_inv Hall) as (Hs & Hn).
  pose proof (Forall_inv_tail Hall) as Hrest.
  cbn [replay]. apply IH; [|assumption].
  destruct (execute_token_admin fa tx w) as (_ & [E|[(E & _)|(_ & _ & n & E)]] & _).
  - congruence.
  - congruence.
  - exfalso. exact (Hn _ _ E).
Qed.

(** C2: the token of a pair made by [createToken] is owned by the factory,
    not by the curve; [mint] reverts for any caller other than the owner; so
    after any transactions not sent by the factory, none of them a
    [transferTokenOwnership], every buy reverts, whatever the buyer and the
    value. The deployer's [transferTokenOwnership] to the curve goes through
    and makes the curve the owner. *)
Theorem fresh_pair_cannot_buy fa f creator value timestamp name symbol
    tokenAddress curveAddress eth0 rej0 ta ca w0 ev0 :
  TokenFactory.createToken fa f creator value timestamp name symbol
    tokenAddress curveAddress eth0 rej0 = Ok (ta, ca, w0, ev0) ->
  curveAddress <> fa ->
  ERC20Token.owner (erc20 w0) = fa /\
  this w0 = curveAddress /\
  (forall caller to amount k,
     caller <> ERC20Token.owner k ->
     ERC20Token.mint caller to amount k = Err OnlyOwner) /\
  (forall txs,
     Forall (fun tx => tx_sender tx <> fa /\ not_handover tx) txs ->
     let w := replay fa w0 txs in
     ERC20Token.owner (erc20 w) = fa /\
     forall buyer amount timestamp',
       exists e, execute fa w (mkTx buyer amount timestamp' Curve_buy) = (w, Reverted e)) /\
  (curveAddress <> 0 ->
   TokenFactory.transferTokenOwnership fa creator tokenAddress curveAddress w0
   = Ok (tt, set_erc20 (ERC20Token.set_owner curveAddress (erc20 w0)) w0, [])).
Proof.
  intros Hcreate Hne. apply createToken_Ok_inv in Hcreate.
  destruct Hcreate as (_ & _ & Hthis & Htok & _ & Ho & Hd & _).
  split; [assumption|]. split; [assumption|].
  split; [intros; now apply mint_only_owner|]. split.
  - intros txs Hall. cbv zeta.
    assert (Hw : ERC20Token.owner (erc20 (replay fa w0 txs)) = fa)
      by now apply replay_owner.
    split; [assumption|]. intros buyer amount timestamp'.
    apply buy_reverts_unless_owner. rewrite replay_this, Hw, Hthis. congruence.
  - intros Hnz. eapply Ok_result.
    + unfold TokenFactory.transferTokenOwnership, ERC20Token.transferOwnership.
      run ltac:(first [reflexivity | congruence]).
    + reflexivity.
Qed.

Lemma fresh_pair_cannot_buy_witness :
  exists e,
    execute Demo.factoryAddr (replay Demo.factoryAddr Demo.fresh Demo.idle)
      (mkTx Demo.userAddr ether (Demo.t0 + 8) Curve_buy)
    = (replay Demo.factoryAddr Demo.fresh Demo.idle, Reverted e).
Proof.
  pose proof (fresh_pair_cannot_buy Demo.factoryAddr (TokenFactory.mk Demo.platformAddr)
                Demo.deployerAddr (3 * ether / 1000) Demo.t0 "Test" "TST"
                Demo.tokenAddr Demo.curveAddr Demo.eth0 ∅
                Demo.tokenAddr Demo.curveAddr Demo.fresh
                [TokenCreated Demo.tokenAddr "Test" "TST" Demo.deployerAddr;
                 BondingCurveCreated Demo.curveAddr Demo.tokenAddr]) as H.
  destruct H as (_ & _ & _ & H & _).
  - vm_compute. reflexivity.
  - vm_compute. discriminate.
  - apply (H Demo.idle).
    repeat constructor; try (vm_compute; discriminate); intros t n; discriminate.
Defined.

(** After the handover a buy goes through. *)
Example buy_after_handover :
  snd (execute Demo.factoryAddr Demo.live (mkTx Demo.userAddr ether (Demo.t0 + 20) Curve_buy))
  = Success [Transfer 0 Demo.userAddr (9925 * ether);
             TokensMinted Demo.userAddr (9925 * ether);
             Bought Demo.userAddr ether (9925 * ether) (ether * 75 / 10000)].
Proof. vm_compute. reflexivity. Qed.

End Ownership.

(** * Failure leaves no trace *)

Module Atomicity.
Import Pricing Ledger.

Lemma transferFrom_Err spender from to amount k e :
  ERC20Token.transferFrom spender from to amount k = Err e ->
  TransferFailure e = true.
Proof.
  unfold ERC20Token.transferFrom, ERC20Token._spendAllowance, ERC20Token._transfer,
    ERC20Token._update, bind, require, gets, modify, ret, revert, emit.
  destruct (from =? 0), (to =? 0), (spender =? 0); cbn [negb]; cbv beta iota;
  repeat match goal with
         | |- context [if ?c then _ else _] => destruct c; cbv beta iota
         end;
    intros H; first [discriminate H | injection H as <-; reflexivity].
Qed.

Lemma transferFrom_short spender from to amount k r :
  amount <= MAX_UINT256 ->
  balance (ERC20Token.balances k) from < amount
  \/ allowed (ERC20Token.allowances k) from spender < amount ->
  ERC20Token.transferFrom spender from to amount k <> Ok r.
Proof.
  intros Hmax Hshort H. destruct r as [[b k'] ev].
  invC H; bool_to_Prop; lia.
Qed.

Lemma sell_transfer_fails w sender tokenAmount e :
  0 < tokenAmount -> hasGraduated (curve w) = false ->
  ERC20Token.transferFrom (this w) sender (this w) tokenAmount (erc20 w) = Err e ->
  sell sender tokenAmount w = Err e.
Proof.
  intros Hpos Hg Hfail. unfold sell.
  eapply bind_Err_second; [run ltac:(assumption)|].
  eapply bind_Err_second; [run ltac:(assumption)|].
  eapply bind_Err_second; [run ltac:(first [reflexivity | assumption])|].
  eapply bind_Err_second; [run ltac:(first [reflexivity | assumption])|].
  cbv beta. apply bind_Err. unfold call_token. now apply zoom_Err.
Qed.

(** C6: a sell whose token transfer from the caller fails reverts with a
    failure of the class [TransferFailure], and the world after it is the
    world before it; the transfer does fail when the amount exceeds what the
    caller holds or has approved to the curve. More generally a reverted
    transaction leaves the world, and so the collateral invested, the accrued
    fees and the supply, exactly as they were. *)
Theorem failed_sell_changes_nothing fa w sender timestamp tokenAmount :
  0 < tokenAmount ->
  hasGraduated (curve w) = false ->
  0 <= balance (eth w) sender ->
  let tx := mkTx sender 0 timestamp (Curve_sell tokenAmount) in
  (forall e,
     ERC20Token.transferFrom (this w) sender (this w) tokenAmount (erc20 w) = Err e ->
     TransferFailure e = true /\ execute fa w tx = (w, Reverted e)) /\
  (tokenAmount <= MAX_UINT256 ->
   balance (ERC20Token.balances (erc20 w)) sender < tokenAmount
   \/ allowed (ERC20Token.allowances (erc20 w)) sender (this w) < tokenAmount ->
   exists e,
     ERC20Token.transferFrom (this w) sender (this w) tokenAmount (erc20 w) = Err e) /\
  (forall tx' e,
     snd (execute fa w tx') = Reverted e ->
     fst (execute fa w tx') = w /\
     totalEthInvested (curve (fst (execute fa w tx'))) = totalEthInvested (curve w) /\
     platformFeesCollected (curve (fst (execute fa w tx')))
     = platformFeesCollected (curve w) /\
     ERC20Token.totalSupply (erc20 (fst (execute fa w tx')))
     = ERC20Token.totalSupply (erc20 w)).
Proof.
  intros Hpos Hg Hfunds tx. split; [|split].
  - intros e Hmove. split; [now apply transferFrom_Err in Hmove|].
    unfold execute.
    assert (Hrun : run fa tx w = Err e).
    { unfold run, tx. cbn [tx_sender tx_value tx_call].
      eapply bind_Err_second; [run ltac:(assumption)|].
      eapply bind_Err_second; [run ltac:(assumption)|].
      eapply bind_Err_second; [run ltac:(reflexivity)|].
      eapply bind_Err_second; [run ltac:(reflexivity)|].
      eapply bind_Err_second; [run ltac:(reflexivity)|].
      eapply bind_Err_second; [run ltac:(reflexivity)|].
      cbv beta. unfold dispatch. cbn [tx_sender tx_value tx_call].
      apply sell_transfer_fails; [assumption|exact Hg|exact Hmove]. }
    now rewrite Hrun.
  - intros Hmax Hshort.
    destruct (ERC20Token.transferFrom (this w) sender (this w) tokenAmount (erc20 w))
      as [r|e] eqn:Hmove; [|eauto].
    exfalso. revert Hmove. now apply transferFrom_short.
  - intros tx' e Hrev. apply execute_Reverted in Hrev. rewrite Hrev. auto.
Qed.

Lemma failed_sell_changes_nothing_witness :
  TransferFailure ERC20InsufficientAllowance = true /\
  execute Demo.factoryAddr Demo.approved
    (mkTx Demo.userAddr 0 (Demo.t0 + 40) (Curve_sell (10000 * ether)))
  = (Demo.approved, Reverted ERC20InsufficientAllowance).
Proof.
  pose proof (failed_sell_changes_nothing Demo.factoryAddr Demo.approved Demo.userAddr
                (Demo.t0 + 40) (10000 * ether)) as H.
  cbv zeta in H. destruct H as (H & _).
  - vm_compute. reflexivity.
  - vm_compute. reflexivity.
  - vm_compute. discriminate.
  - apply H. vm_compute. reflexivity.
Defined.

End Atomicity.

(** * The milestone flag *)

Module Milestones.
Import Ledger.

Lemma replay_milestones fa txs : forall w,
  ERC20Token.milestonesReached (erc20 w) = true ->
  ERC20Token.milestonesReached (erc20 (replay fa w txs)) = true.
Proof.
  induction txs as [|tx txs IH]; intros w Hm; [assumption|].
  cbn [replay]. apply IH.
  destruct (execute_token_admin fa tx w) as (_ & _ & [E|(_ & _ & E)]); congruence.
Qed.

(** C10: [setMilestonesReached] reverts with "Only owner" for any caller
    other than the owner; a transaction turns the flag on only if it is the
    owner's [setMilestonesReached]; once on, the flag stays on through every
    sequence of transactions; and the owner's call with the flag already on
    succeeds and leaves the token exactly as it was. *)
Theorem milestones_latch fa w :
  (forall sender, sender <> ERC20Token.owner (erc20 w) ->
     ERC20Token.setMilestonesReached sender (erc20 w) = Err OnlyOwner) /\
  (forall tx,
     ERC20Token.milestonesReached (erc20 w) = false ->
     ERC20Token.milestonesReached (erc20 (fst (execute fa w tx))) = true ->
     tx_call tx = Token_setMilestonesReached /\
     tx_sender tx = ERC20Token.owner (erc20 w)) /\
  (forall txs,
     ERC20Token.milestonesReached (erc20 w) = true ->
     ERC20Token.milestonesReached (erc20 (replay fa w txs)) = true) /\
  (ERC20Token.milestonesReached (erc20 w) = true ->
   ERC20Token.setMilestonesReached (ERC20Token.owner (erc20 w)) (erc20 w)
   = Ok (tt, erc20 w, [MilestonesReached])).
Proof.
  split; [|split; [|split]].
  - intros sender Hne. unfold ERC20Token.setMilestonesReached.
    eapply bind_Err_second; [reflexivity|]. cbv beta.
    apply bind_Err, require_false. now apply Z.eqb_neq.
  - intros tx Hf Ht.
    destruct (execute_token_admin fa tx w) as (_ & _ & [E|(? & ? & _)]); [congruence|auto].
  - intros txs Hm. now apply replay_milestones.
  - intros Hm. eapply Ok_result.
    + unfold ERC20Token.setMilestonesReached. run ltac:(reflexivity).
    + destruct (erc20 w); cbn in *; subst; reflexivity.
Qed.

Lemma milestones_latch_witness :
  ERC20Token.milestonesReached (erc20 (replay Demo.factoryAddr Demo.milestone_set Demo.three_buys))
  = true.
Proof.
  pose proof (milestones_latch Demo.factoryAddr Demo.milestone_set) as (_ & _ & H & _).
  apply H. reflexivity.
Defined.

End Milestones.

(** * Fees and reserves *)

Module Fees.
Import Pricing Ledger.

(** X1: the fee split of [_calculateFees] conserves the amount: the net
    amount, the platform fee and the deployer fee add up to the amount that
    was passed in, the deployer fee is always zero, and the call neither
    changes the state nor emits an event. While the curve has not graduated
    the platform fee is [amount * 75 / 10000]; once it has, the platform fee
    is zero and the net amount is the amount; for a non-negative amount the
    fee and the net amount both lie between zero and the amount. The call
    returns whenever the amount is non-negative and [amount * 75] fits a
    word. *)
Theorem calculateFees_conserves amount w :
  (forall net pf df w' ev,
     _calculateFees amount w = Ok ((net, pf, df), w', ev) ->
     net + pf + df = amount /\ df = 0 /\ w' = w /\ ev = [] /\
     (hasGraduated (curve w) = false -> pf = amount * 75 / 10000) /\
     (hasGraduated (curve w) = true -> pf = 0 /\ net = amount) /\
     (0 <= amount -> 0 <= pf <= amount /\ 0 <= net <= amount)) /\
  (0 <= amount -> amount * 75 <= MAX_UINT256 ->
   exists net pf, _calculateFees amount w = Ok ((net, pf, 0), w, [])).
Proof.
  split.
  - intros net pf df w' ev H. invC H.
    + match goal with H : (_, _, _) = (_, _, _) |- _ => injection H as -> -> -> end.
      repeat (split; [first [lia | reflexivity | discriminate]|]).
      lia.
    + match goal with H : (_, _, _) = (_, _, _) |- _ => injection H as -> -> -> end.
      assert (Hd : amount * DEPLOYER_FEE / FEE_DENOMINATOR = 0).
      { unfold DEPLOYER_FEE. now rewrite Z.mul_0_r, Zdiv_0_l. }
      rewrite Hd in *. unfold PLATFORM_FEE, FEE_DENOMINATOR in *.
      repeat (split; [first [lia | reflexivity | discriminate]|]).
      intros Hpos.
      assert (0 <= amount * 75 / 10000) by (apply Z.div_pos; lia).
      lia.
  - intros Hpos Hfit.
    assert (Hfee : 0 <= amount * 75 / 10000 <= amount).
    { split; [apply Z.div_pos; lia|apply Z.div_le_upper_bound; lia]. }
    destruct (hasGraduated (curve w)) eqn:Hg.
    + exists amount, 0. unfold _calculateFees.
      eapply Ok_result; [run ltac:(first [reflexivity | assumption])|reflexivity].
    + exists (amount - amount * 75 / 10000), (amount * 75 / 10000).
      unfold _calculateFees.
      eapply Ok_result.
      * run ltac:(first
          [ reflexivity | assumption
          | unfold PLATFORM_FEE, DEPLOYER_FEE, FEE_DENOMINATOR;
            rewrite ?Z.mul_0_r, ?Zdiv_0_l; unfold MAX_UINT256 in *; lia ]).
      * unfold PLATFORM_FEE, DEPLOYER_FEE, FEE_DENOMINATOR.
        rewrite Z.mul_0_r, Zdiv_0_l, Z.sub_0_r. reflexivity.
Qed.

Lemma calculateFees_conserves_witness :
  (exists net pf, _calculateFees ether Demo.live = Ok ((net, pf, 0), Demo.live, [])) /\
  _calculateFees ether Demo.graduated = Ok ((ether, 0, 0), Demo.graduated, []).
Proof.
  split.
  - pose proof (calculateFees_conserves ether Demo.live) as (_ & H).
    apply H; vm_compute; discriminate.
  - destruct (_calculateFees ether Demo.graduated) as [[[[[net pf] df] w'] ev]|e] eqn:E;
      [|vm_compute in E; discriminate E].
    pose proof (calculateFees_conserves ether Demo.graduated) as (H & _).
    destruct (H _ _ _ _ _ E) as (_ & -> & -> & -> & _ & Hg & _).
    destruct Hg as (-> & ->); [vm_compute; reflexivity|]. reflexivity.
Defined.

(** X2: a successful buy transaction accounts for every wei it
    receives: the ether of the curve grows by the value sent, the ether of
    the buyer shrinks by it, and the sum of the collateral invested and the
    platform fees accrued grows by exactly that value. *)
Theorem buy_accounts_for_value fa w buyer value timestamp w' ev :
  execute fa w (mkTx buyer value timestamp Curve_buy) = (w', Success ev) ->
  buyer <> this w ->
  balance (eth w') (this w) = balance (eth w) (this w) + value /\
  balance (eth w') buyer = balance (eth w) buyer - value /\
  totalEthInvested (curve w') + platformFeesCollected (curve w')
  = totalEthInvested (curve w) + platformFeesCollected (curve w) + value.
Proof.
  intros Hex Hne.
  assert (Hrun : run fa (mkTx buyer value timestamp Curve_buy) w = Ok (tt, w', ev)).
  { pose proof (execute_Success fa (mkTx buyer value timestamp Curve_buy) w ev) as H.
    rewrite Hex in H. cbn [fst snd] in H. now apply H. }
  apply run_Ok_inv in Hrun. destruct Hrun as (_ & _ & H).
  unfold dispatch in H. cbn [tx_call tx_sender tx_value] in H.
  apply buy_Ok_inv in H. cbv zeta in H.
  destruct H as (_ & _ & _ & _ & _ & _ & _ & Hcases).
  unfold credited in Hcases. cbn [tx_call tx_sender tx_value target] in Hcases.
  assert (Hval : net_of value + fee_of value = value) by (unfold net_of; lia).
  destruct Hcases as [(_ & -> & _)|(_ & _ & -> & _)]; fields;
    rewrite !move_lookup by congruence; rewrite !Z.eqb_refl;
    (destruct (Z.eqb_spec buyer (this w)) as [|_]; [congruence|]);
    repeat (split; [reflexivity|]); lia.
Qed.

Lemma buy_accounts_for_value_witness :
  let w := Demo.live in
  let r := execute Demo.factoryAddr w (mkTx Demo.userAddr ether (Demo.t0 + 20) Curve_buy) in
  balance (eth (fst r)) (this w) = balance (eth w) (this w) + ether /\
  balance (eth (fst r)) Demo.userAddr = balance (eth w) Demo.userAddr - ether /\
  totalEthInvested (curve (fst r)) + platformFeesCollected (curve (fst r))
  = totalEthInvested (curve w) + platformFeesCollected (curve w) + ether.
Proof.
  cbv zeta.
  apply (buy_accounts_for_value Demo.factoryAddr Demo.live Demo.userAddr ether (Demo.t0 + 20)
           (fst (execute Demo.factoryAddr Demo.live
                   (mkTx Demo.userAddr ether (Demo.t0 + 20) Curve_buy)))
           (events_of (snd (execute Demo.factoryAddr Demo.live
                              (mkTx Demo.userAddr ether (Demo.t0 + 20) Curve_buy))))).
  - vm_compute. reflexivity.
  - vm_compute. discriminate.
Defined.

(** What a successful withdrawal has checked and done. *)
Lemma withdraw_Ok_inv sender w w' ev :
  withdrawPlatformFees sender w = Ok (tt, w', ev) ->
  sender = platform (curve w) /\
  0 < platformFeesCollected (curve w) /\
  platformFeesCollected (curve w) <= balance (eth w) (this w) /\
  (platform (curve w) ∉ rejecting w) /\
  w' = set_eth (move (this w) (platform (curve w)) (platformFeesCollected (curve w)) (eth w))
         (set_curve (set_platformFeesCollected 0 (curve w)) w) /\
  ev = [].
Proof.
  intros H. invC H; [|discriminate].
  bool_to_Prop.
  match goal with
  | H : bool_decide _ = false |- _ => apply bool_decide_eq_false in H
  end.
  subst. repeat (split; [first [assumption | reflexivity]|]). reflexivity.
Qed.

Lemma call_value_refused to value w :
  balance (eth w) (this w) < value \/ to ∈ rejecting w ->
  call_value to value w = Ok (false, w, []).
Proof.
  intros Hfail. unfold call_value. eapply Ok_result.
  - run ltac:(first
      [ reflexivity
      | apply andb_false_iff; destruct Hfail;
        [left; apply Z.leb_gt; assumption
        |right; apply negb_false_iff, bool_decide_eq_true; assumption] ]).
  - reflexivity.
Qed.

(** X3: a successful [withdrawPlatformFees] was called by the
    platform, resets the accrued fees to zero, leaves the collateral
    invested, the graduation flag and the token untouched, moves exactly the
    accrued amount of ether from the curve to the platform, and a second
    withdrawal right after it fails with "No fees available". The withdrawal
    succeeds when the platform calls it, fees have accrued, the curve holds
    that much ether and the platform accepts ether. *)
Theorem withdraw_pays_the_accrual sender w :
  (forall w' ev,
     withdrawPlatformFees sender w = Ok (tt, w', ev) ->
     sender = platform (curve w) /\
     platformFeesCollected (curve w') = 0 /\
     totalEthInvested (curve w') = totalEthInvested (curve w) /\
     hasGraduated (curve w') = hasGraduated (curve w) /\
     erc20 w' = erc20 w /\
     (platform (curve w) <> this w ->
      balance (eth w') (platform (curve w))
      = balance (eth w) (platform (curve w)) + platformFeesCollected (curve w) /\
      balance (eth w') (this w)
      = balance (eth w) (this w) - platformFeesCollected (curve w)) /\
     withdrawPlatformFees sender w' = Err NoFeesAvailable) /\
  (sender = platform (curve w) -> 0 < platformFeesCollected (curve w) ->
   platformFeesCollected (curve w) <= balance (eth w) (this w) ->
   platform (curve w) ∉ rejecting w ->
   exists w', withdrawPlatformFees sender w = Ok (tt, w', [])).
Proof.
  split.
  - intros w' ev H. apply withdraw_Ok_inv in H.
    destruct H as (Hs & Hpos & Hbal & Hacc & -> & ->). fields.
    repeat (split; [first [assumption | reflexivity]|]). split.
    + intros Hne. rewrite !move_lookup by congruence. rewrite !Z.eqb_refl.
      destruct (Z.eqb_spec (this w) (platform (curve w))); [congruence|].
      split; reflexivity.
    + unfold withdrawPlatformFees.
      eapply bind_Err_second; [run ltac:(reflexivity)|]. cbv beta. fields.
      eapply bind_Err_second; [run ltac:(assumption)|].
      eapply bind_Err_second; [run ltac:(reflexivity)|]. cbv beta. fields.
      apply bind_Err, require_false. reflexivity.
  - intros Hs Hpos Hbal Hacc. eexists. unfold withdrawPlatformFees, call_value.
    eapply Ok_result.
    + run ltac:(first
        [ reflexivity | assumption | fields; lia
        | fields; apply andb_true_iff; split;
          [apply Z.leb_le; assumption
          |apply negb_true_iff, bool_decide_eq_false; assumption] ]).
    + reflexivity.
Qed.

Lemma withdraw_pays_the_accrual_witness :
  exists w', withdrawPlatformFees Demo.platformAddr Demo.approved = Ok (tt, w', []).
Proof.
  pose proof (withdraw_pays_the_accrual Demo.platformAddr Demo.approved) as (_ & H).
  apply H.
  - vm_compute. reflexivity.
  - vm_compute. reflexivity.
  - vm_compute. discriminate.
  - apply (proj1 (bool_decide_eq_false _)). vm_compute. reflexivity.
Defined.

(** X4: how [withdrawPlatformFees] fails: with "Unauthorized" for any
    caller but the platform, with "No fees available" when nothing has
    accrued, and with "Transfer failed" when the curve holds less ether than
    the accrued fees or the platform refuses ether. *)
Theorem withdraw_failures sender w :
  (sender <> platform (curve w) -> withdrawPlatformFees sender w = Err Unauthorized) /\
  (sender = platform (curve w) -> platformFeesCollected (curve w) <= 0 ->
   withdrawPlatformFees sender w = Err NoFeesAvailable) /\
  (sender = platform (curve w) -> 0 < platformFeesCollected (curve w) ->
   balance (eth w) (this w) < platformFeesCollected (curve w)
   \/ platform (curve w) ∈ rejecting w ->
   withdrawPlatformFees sender w = Err TransferFailed).
Proof.
  split; [|split].
  - intros Hne. unfold withdrawPlatformFees.
    eapply bind_Err_second; [run ltac:(reflexivity)|]. cbv beta.
    apply bind_Err, require_false. now apply Z.eqb_neq.
  - intros Hs Hz. unfold withdrawPlatformFees.
    eapply bind_Err_second; [run ltac:(reflexivity)|]. cbv beta.
    eapply bind_Err_second; [run ltac:(assumption)|].
    eapply bind_Err_second; [run ltac:(reflexivity)|]. cbv beta.
    apply bind_Err, require_false. now apply Z.ltb_ge.
  - intros Hs Hpos Hfail. unfold withdrawPlatformFees.
    eapply bind_Err_second; [run ltac:(reflexivity)|]. cbv beta.
    eapply bind_Err_second; [run ltac:(assumption)|].
    eapply bind_Err_second; [run ltac:(reflexivity)|]. cbv beta.
    eapply bind_Err_second; [run ltac:(assumption)|].
    eapply bind_Err_second; [run ltac:(reflexivity)|].
    eapply bind_Err_second; [apply call_value_refused; fields; exact Hfail|].
    reflexivity.
Qed.

Lemma withdraw_failures_witness :
  withdrawPlatformFees Demo.userAddr Demo.approved = Err Unauthorized /\
  withdrawPlatformFees Demo.platformAddr Demo.live = Err NoFeesAvailable.
Proof.
  split.
  - pose proof (withdraw_failures Demo.userAddr Demo.approved) as (H & _).
    apply H. vm_compute. discriminate.
  - pose proof (withdraw_failures Demo.platformAddr Demo.live) as (_ & H & _).
    apply H; vm_compute; [reflexivity|discriminate].
Defined.

(** X5: [initialize] is a guard without effect: it fails with
    "Unauthorized" for a caller that is neither the deployer nor the factory
    of the curve, with "Already initialized" once the token has a supply,
    and otherwise returns without changing the state or emitting an event.
    As a transaction it is payable: the value sent stays in the curve, while
    the curve's variables and the token are as before. *)
Theorem initialize_changes_nothing fa w sender value timestamp :
  let tx := mkTx sender value timestamp Curve_initialize in
  (sender <> BondingCurve.deployer (curve w) -> sender <> factory (curve w) ->
   initialize sender w = Err Unauthorized) /\
  (sender = BondingCurve.deployer (curve w) \/ sender = factory (curve w) ->
   ERC20Token.totalSupply (erc20 w) <> 0 ->
   initialize sender w = Err AlreadyInitialized) /\
  (sender = BondingCurve.deployer (curve w) \/ sender = factory (curve w) ->
   ERC20Token.totalSupply (erc20 w) = 0 ->
   initialize sender w = Ok (tt, w, [])) /\
  (forall w' ev,
     execute fa w tx = (w', Success ev) -> sender <> this w ->
     curve w' = curve w /\ erc20 w' = erc20 w /\ ev = [] /\
     balance (eth w') (this w) = balance (eth w) (this w) + value).
Proof.
  cbv zeta. split; [|split; [|split]].
  - intros Hd Hf. unfold initialize.
    eapply bind_Err_second; [run ltac:(reflexivity)|]. cbv beta.
    eapply bind_Err_second; [run ltac:(reflexivity)|]. cbv beta.
    apply bind_Err, require_false, orb_false_iff. split; now apply Z.eqb_neq.
  - intros Hauth Hs. unfold initialize.
    eapply bind_Err_second; [run ltac:(reflexivity)|]. cbv beta.
    eapply bind_Err_second; [run ltac:(reflexivity)|]. cbv beta.
    eapply bind_Err_second.
    { apply require_true, orb_true_iff. destruct Hauth; [left|right]; now apply Z.eqb_eq. }
    eapply bind_Err_second; [run ltac:(reflexivity)|]. cbv beta.
    apply require_false. now apply Z.eqb_neq.
  - intros Hauth Hs. unfold initialize. eapply Ok_result.
    + run ltac:(first
        [ reflexivity | assumption
        | apply orb_true_iff; destruct Hauth; [left|right]; now apply Z.eqb_eq ]).
    + reflexivity.
  - intros w' ev Hex Hne.
    assert (Hrun : run fa (mkTx sender value timestamp Curve_initialize) w = Ok (tt, w', ev)).
    { pose proof (execute_Success fa (mkTx sender value timestamp Curve_initialize) w ev) as H.
      rewrite Hex in H. cbn [fst snd] in H. now apply H. }
    apply run_Ok_inv in Hrun. destruct Hrun as (_ & _ & H).
    unfold dispatch in H. cbn [tx_call tx_sender tx_value] in H.
    invC H. unfold credited. cbn [tx_call tx_sender tx_value target]. fields.
    repeat (split; [reflexivity|]).
    rewrite move_lookup by congruence. now rewrite Z.eqb_refl.
Qed.

Lemma initialize_changes_nothing_witness :
  initialize Demo.deployerAddr Demo.live = Ok (tt, Demo.live, []) /\
  initialize Demo.deployerAddr Demo.approved = Err AlreadyInitialized.
Proof.
  pose proof (initialize_changes_nothing Demo.factoryAddr Demo.live Demo.deployerAddr 0 0)
    as (_ & _ & H1 & _).
  pose proof (initialize_changes_nothing Demo.factoryAddr Demo.approved Demo.deployerAddr 0 0)
    as (_ & H2 & _).
  split.
  - apply H1; [left|]; vm_compute; reflexivity.
  - apply H2; [left; vm_compute; reflexivity|vm_compute; discriminate].
Defined.

End Fees.

(** * Trading: guards and conversions *)

Module Trading.
Import Pricing Ledger.

(** X6: the guards of trading: [buy] fails with "Buy amount too small"
    below [MIN_BUY] (0.05 ether) and with "Curve has graduated" on a
    graduated curve; [sell] fails with "Amount must be > 0" for a zero
    amount and with "Curve has graduated" on a graduated curve. *)
Theorem trade_guards sender amount w :
  (amount < MIN_BUY -> buy sender amount w = Err BuyAmountTooSmall) /\
  (MIN_BUY <= amount -> hasGraduated (curve w) = true ->
   buy sender amount w = Err CurveHasGraduated) /\
  (amount <= 0 -> sell sender amount w = Err AmountMustBePositive) /\
  (0 < amount -> hasGraduated (curve w) = true ->
   sell sender amount w = Err CurveHasGraduated) /\
  MIN_BUY = 50000000000000000.
Proof.
  split; [|split; [|split; [|split]]].
  - intros Hlt. unfold buy. apply bind_Err, require_false. now apply Z.leb_gt.
  - intros Hmin Hg. unfold buy.
    eapply bind_Err_second; [run ltac:(assumption)|].
    eapply bind_Err_second; [run ltac:(assumption)|].
    cbv beta. apply bind_Err, require_false. now rewrite Hg.
  - intros Hle. unfold sell. apply bind_Err, require_false. now apply Z.ltb_ge.
  - intros Hpos Hg. unfold sell.
    eapply bind_Err_second; [run ltac:(assumption)|].
    eapply bind_Err_second; [run ltac:(assumption)|].
    cbv beta. apply bind_Err, require_false. now rewrite Hg.
  - reflexivity.
Qed.

Lemma trade_guards_witness :
  buy Demo.userAddr (MIN_BUY - 1) Demo.live = Err BuyAmountTooSmall /\
  sell Demo.userAddr 0 Demo.live = Err AmountMustBePositive /\
  buy Demo.userAddr ether Demo.graduated = Err CurveHasGraduated.
Proof.
  split; [|split].
  - pose proof (trade_guards Demo.userAddr (MIN_BUY - 1) Demo.live) as (H & _).
    apply H. lia.
  - pose proof (trade_guards Demo.userAddr 0 Demo.live) as (_ & _ & H & _).
    apply H. lia.
  - pose proof (trade_guards Demo.userAddr ether Demo.graduated) as (_ & H & _).
    apply H; vm_compute; [discriminate|reflexivity].
Defined.

(** X7: converting ether to tokens with [calculateBuyReturn] and the
    tokens back with [calculateSellReturn] in the same state never yields
    more ether than was put in (and never a negative amount): both
    conversions round down at the same price. Neither call changes the
    state. *)
Theorem buy_return_sells_for_no_more ethIn w tokens ethOut w1 ev1 w2 ev2 :
  0 <= ethIn ->
  0 <= totalEthInvested (curve w) -> 0 <= ERC20Token.totalSupply (erc20 w) ->
  calculateBuyReturn ethIn w = Ok (tokens, w1, ev1) ->
  calculateSellReturn tokens w = Ok (ethOut, w2, ev2) ->
  w1 = w /\ w2 = w /\ ev1 = [] /\ ev2 = [] /\
  tokens = ethIn * SCALE / price_of w /\
  ethOut = tokens * price_of w / SCALE /\
  0 <= ethOut <= ethIn.
Proof.
  intros Hin Hinv Hsup Hbuy Hsell.
  unfold calculateBuyReturn in Hbuy. unfold calculateSellReturn in Hsell.
  apply bind_Ok in Hbuy. destruct Hbuy as (p & s & e1 & e2 & Hp & Hbuy & ->).
  apply getCurrentPrice_Ok in Hp. destruct Hp as (-> & -> & ->).
  apply bind_Ok in Hsell. destruct Hsell as (p & s & e1 & e3 & Hp & Hsell & ->).
  apply getCurrentPrice_Ok in Hp. destruct Hp as (-> & -> & ->).
  invM Hbuy. invM Hsell.
  repeat (split; [reflexivity|]).
  assert (Hprice : 0 < price_of w).
  { assert (0 <= price_of w); [|lia].
    unfold price_of.
    destruct (Z.eqb_spec (ERC20Token.totalSupply (erc20 w)) 0); [vm_compute; discriminate|].
    apply Z.div_pos; [|lia]. apply Z.mul_nonneg_nonneg; [lia|vm_compute; discriminate]. }
  assert (HS : 0 < SCALE) by reflexivity.
  set (t := ethIn * SCALE / price_of w).
  assert (Ht : 0 <= t) by (apply Z.div_pos; nia).
  assert (Hle : t * price_of w <= ethIn * SCALE).
  { rewrite Z.mul_comm. apply Z.mul_div_le. assumption. }
  split.
  - apply Z.div_pos; nia.
  - apply Z.div_le_upper_bound; nia.
Qed.

Lemma buy_return_sells_for_no_more_witness :
  exists tokens ethOut,
    calculateBuyReturn ether Demo.approved = Ok (tokens, Demo.approved, []) /\
    calculateSellReturn tokens Demo.approved = Ok (ethOut, Demo.approved, []) /\
    0 <= ethOut <= ether.
Proof.
  exists (ether * SCALE / price_of Demo.approved).
  exists (ether * SCALE / price_of Demo.approved * price_of Demo.approved / SCALE).
  assert (H1 : calculateBuyReturn ether Demo.approved
               = Ok (ether * SCALE / price_of Demo.approved, Demo.approved, []))
    by (vm_compute; reflexivity).
  assert (H2 : calculateSellReturn (ether * SCALE / price_of Demo.approved) Demo.approved
               = Ok (ether * SCALE / price_of Demo.approved * price_of Demo.approved / SCALE,
                     Demo.approved, []))
    by (vm_compute; reflexivity).
  split; [exact H1|]. split; [exact H2|].
  eapply (buy_return_sells_for_no_more ether Demo.approved); [| | |exact H1|exact H2];
    vm_compute; discriminate.
Defined.

(** X8: a successful buy that leaves the collateral invested below
    the graduation threshold does not graduate the curve: the flags are as
    before, the supply and the buyer's balance grow by the tokens minted,
    [netValue * 1e18 / price], nobody else's balance changes, no ether is
    moved by the call, and the events are exactly the mint's [Transfer] and
    [TokensMinted] followed by [Bought]. *)
Theorem buy_below_threshold_stays_active sender value w w' ev :
  buy sender value w = Ok (tt, w', ev) ->
  totalEthInvested (curve w') < GRADUATION_THRESHOLD ->
  let tokensOut := net_of value * SCALE / price_of w in
  hasGraduated (curve w') = false /\
  liquidityAdded (curve w') = liquidityAdded (curve w) /\
  ERC20Token.totalSupply (erc20 w') = ERC20Token.totalSupply (erc20 w) + tokensOut /\
  (forall a,
     balance (ERC20Token.balances (erc20 w')) a
     = balance (ERC20Token.balances (erc20 w)) a + if a =? sender then tokensOut else 0) /\
  eth w' = eth w /\
  ev = [Transfer 0 sender tokensOut; TokensMinted sender tokensOut;
        Bought sender value tokensOut (fee_of value)].
Proof.
  intros H Hlt. apply buy_Ok_inv in H. cbv zeta in *.
  destruct H as (_ & Hg & _ & _ & _ & _ & _ & Hcases).
  destruct Hcases as [(_ & -> & ->)|(Hge & _ & -> & _)].
  - unfold minted. fields. repeat (split; [first [assumption | reflexivity]|]).
    split; [|split; reflexivity].
    intros a. rewrite balance_insert. destruct (Z.eqb_spec a sender); subst; lia.
  - fields_in Hlt. lia.
Qed.

Lemma buy_below_threshold_stays_active_witness :
  hasGraduated
    (curve (fst (execute Demo.factoryAddr Demo.live
                   (mkTx Demo.userAddr ether (Demo.t0 + 20) Curve_buy)))) = false.
Proof.
  assert (H : buy Demo.userAddr ether
                (credited Demo.factoryAddr (mkTx Demo.userAddr ether (Demo.t0 + 20) Curve_buy)
                   Demo.live)
              = Ok (tt, fst (execute Demo.factoryAddr Demo.live
                               (mkTx Demo.userAddr ether (Demo.t0 + 20) Curve_buy)),
                    events_of (snd (execute Demo.factoryAddr Demo.live
                               (mkTx Demo.userAddr ether (Demo.t0 + 20) Curve_buy)))))
    by (vm_compute; reflexivity).
  apply buy_below_threshold_stays_active in H; [|vm_compute; reflexivity].
  apply H.
Defined.

End Trading.

(** * The vesting schedule in use *)

Module Schedule.
Import Pricing Ledger.
Import ERC20Token Vesting.

Lemma vestingFormula_le_allocation k now :
  (now < vestingStartTime k + VESTING_DURATION -> vestingStartTime k <= now) ->
  0 <= vestingFormula k now <= DEPLOYER_ALLOCATION.
Proof.
  intros Hnow. unfold vestingFormula.
  destruct (Z.ltb_spec now (vestingStartTime k + VESTING_DURATION)) as [Hlt|Hge].
  - specialize (Hnow Hlt). rewrite allocation_value, duration_value in *. split.
    + apply Z.div_pos; lia.
    + apply Z.div_le_upper_bound; lia.
  - destruct (milestonesReached k); rewrite allocation_value; lia.
Qed.

(** What a successful claim has checked and done. *)
Lemma claim_Ok_inv sender now k k' ev :
  claimVestedTokens sender now k = Ok (tt, k', ev) ->
  let v := vestingFormula k now in
  sender = deployer k /\
  (now < vestingStartTime k + VESTING_DURATION -> vestingStartTime k <= now) /\
  ((v <= vestedAmount k /\ k' = k /\ ev = [])
   \/ (vestedAmount k < v /\
       k' = minted (deployer k) (v - vestedAmount k) (set_vestedAmount v k) /\
       ev = [Transfer 0 (deployer k) (v - vestedAmount k);
             DeployerTokensVested (v - vestedAmount k)])).
Proof.
  intros H. cbv zeta. unfold vestingFormula, minted.
  invC H; bool_to_Prop; subst.
  all: destruct (Z.ltb_spec now (vestingStartTime k + VESTING_DURATION)); try lia.
  all: split; [reflexivity|]. all: split; [intros; lia|].
  all: first [ left; split; [assumption|split; reflexivity]
             | right; split; [assumption|split; reflexivity] ].
Qed.

(** X9: a successful [claimVestedTokens] was called by the deployer
    and releases exactly what has newly vested: the vested amount never
    decreases and stays within the deployer allocation, the supply and the
    deployer's balance grow by the increase of the vested amount, and
    nobody else's balance, the owner or the milestone flag changes. When the
    schedule gives no more than what is already vested the call changes
    nothing and emits nothing; otherwise the vested amount becomes the value
    of the schedule and [Transfer] and [DeployerTokensVested] report the
    difference. *)
Theorem claim_releases_the_difference sender now k k' ev :
  claimVestedTokens sender now k = Ok (tt, k', ev) ->
  let v := vestingFormula k now in
  sender = deployer k /\
  vestedAmount k <= vestedAmount k' /\
  (vestedAmount k <= DEPLOYER_ALLOCATION -> vestedAmount k' <= DEPLOYER_ALLOCATION) /\
  totalSupply k' - totalSupply k = vestedAmount k' - vestedAmount k /\
  (forall a,
     balance (balances k') a
     = balance (balances k) a
       + if a =? deployer k then vestedAmount k' - vestedAmount k else 0) /\
  owner k' = owner k /\ milestonesReached k' = milestonesReached k /\
  (v <= vestedAmount k -> k' = k /\ ev = []) /\
  (vestedAmount k < v ->
   vestedAmount k' = v /\
   ev = [Transfer 0 (deployer k) (v - vestedAmount k);
         DeployerTokensVested (v - vestedAmount k)]).
Proof.
  intros H. apply claim_Ok_inv in H. cbv zeta in *.
  destruct H as (Hs & Hclock & Hcases).
  pose proof (vestingFormula_le_allocation k now Hclock) as Hb.
  split; [assumption|].
  destruct Hcases as [(Hle & -> & ->)|(Hlt & -> & ->)].
  - split; [lia|]. split; [auto|]. split; [lia|]. split.
    { intros a. destruct (a =? deployer k); lia. }
    split; [reflexivity|]. split; [reflexivity|]. split; [auto|]. lia.
  - unfold minted. cbn [vestedAmount totalSupply balances owner milestonesReached
      set_balances set_totalSupply set_vestedAmount].
    split; [lia|]. split; [lia|]. split; [lia|]. split.
    { intros a. rewrite balance_insert. destruct (Z.eqb_spec a (deployer k)); subst; lia. }
    split; [reflexivity|]. split; [reflexivity|]. split; [lia|auto].
Qed.

Lemma claim_releases_the_difference_witness :
  let k := Demo.demo_token in
  let r := claimVestedTokens Demo.deployerAddr (Demo.t0 + 100) k in
  exists k' ev,
    r = Ok (tt, k', ev) /\
    totalSupply k' - totalSupply k = vestedAmount k' - vestedAmount k /\
    vestedAmount k' = vestingFormula k (Demo.t0 + 100).
Proof.
  cbv zeta.
  destruct (claimVestedTokens Demo.deployerAddr (Demo.t0 + 100) Demo.demo_token)
    as [[[[] k'] ev]|e] eqn:H; [|vm_compute in H; discriminate H].
  exists k', ev. split; [reflexivity|].
  pose proof (claim_releases_the_difference _ _ _ _ _ H) as Hc. cbv zeta in Hc.
  destruct Hc as (_ & _ & _ & Hsup & _ & _ & _ & _ & Hnew).
  split; [exact Hsup|]. apply Hnew. vm_compute. reflexivity.
Defined.

(** X10: claims once the vesting period is over. Anybody but the
    deployer is refused with "Only deployer". The deployer's claim is a
    successful no-op when the milestones are not reached, or when the whole
    allocation is already vested; with the milestones reached it mints the
    rest of the allocation, after which the vested amount is the allocation
    and a further claim is a no-op. *)
Theorem claim_after_the_end now k :
  vestingStartTime k + VESTING_DURATION <= MAX_UINT256 ->
  vestingStartTime k + VESTING_DURATION <= now ->
  (forall sender, sender <> deployer k ->
     claimVestedTokens sender now k = Err OnlyDeployer) /\
  (milestonesReached k = false -> 0 <= vestedAmount k ->
   claimVestedTokens (deployer k) now k = Ok (tt, k, [])) /\
  (milestonesReached k = true -> DEPLOYER_ALLOCATION <= vestedAmount k ->
   claimVestedTokens (deployer k) now k = Ok (tt, k, [])) /\
  (milestonesReached k = true -> vestedAmount k < DEPLOYER_ALLOCATION ->
   deployer k <> 0 ->
   totalSupply k + (DEPLOYER_ALLOCATION - vestedAmount k) <= MAX_UINT256 ->
   let rest := DEPLOYER_ALLOCATION - vestedAmount k in
   let k' := minted (deployer k) rest (set_vestedAmount DEPLOYER_ALLOCATION k) in
   claimVestedTokens (deployer k) now k
   = Ok (tt, k', [Transfer 0 (deployer k) rest; DeployerTokensVested rest]) /\
   vestedAmount k' = DEPLOYER_ALLOCATION /\
   claimVestedTokens (deployer k) now k' = Ok (tt, k', [])).
Proof.
  intros Hfit Hend.
  assert (Hnow : vestingStartTime k <= now) by (rewrite duration_value in Hend; lia).
  assert (Hform : forall k0,
            vestingStartTime k0 = vestingStartTime k ->
            calculateVestedAmount now k0
            = Ok (if milestonesReached k0 then DEPLOYER_ALLOCATION else 0, k0, [])).
  { intros k0 E. rewrite calculateVestedAmount_formula by (rewrite E; assumption).
    unfold vestingFormula. rewrite E.
    destruct (Z.ltb_spec now (vestingStartTime k + VESTING_DURATION)); [lia|reflexivity]. }
  split; [|split; [|split]].
  - intros sender Hne. unfold claimVestedTokens.
    eapply bind_Err_second; [reflexivity|]. cbv beta.
    apply bind_Err, require_false. now apply Z.eqb_neq.
  - intros Hm Hv. unfold claimVestedTokens. eapply Ok_result.
    + run ltac:(first [reflexivity | apply Hform; reflexivity | rewrite Hm; lia]).
    + reflexivity.
  - intros Hm Hv. unfold claimVestedTokens. eapply Ok_result.
    + run ltac:(first [reflexivity | apply Hform; reflexivity | rewrite Hm; lia]).
    + reflexivity.
  - intros Hm Hv Hd Hsup. cbv zeta. split; [|split].
    + unfold claimVestedTokens, _mint, _update, minted. cbn [Z.eqb]. eapply Ok_result.
      * run ltac:(first
          [ reflexivity | assumption | apply Hform; reflexivity
          | rewrite ?Hm; cbn [totalSupply set_vestedAmount]; lia ]).
      * rewrite Hm. reflexivity.
    + reflexivity.
    + unfold claimVestedTokens, minted. eapply Ok_result.
      * run ltac:(first
          [ reflexivity | apply Hform; reflexivity
          | cbn [milestonesReached vestedAmount set_balances set_totalSupply
                 set_vestedAmount]; rewrite ?Hm; lia ]).
      * reflexivity.
Qed.

Lemma claim_after_the_end_witness :
  claimVestedTokens Demo.deployerAddr (Demo.t0 + VESTING_DURATION) Demo.demo_token
  = Ok (tt, Demo.demo_token, []).
Proof.
  pose proof (claim_after_the_end (Demo.t0 + VESTING_DURATION) Demo.demo_token) as H.
  destruct H as (_ & H & _); [vm_compute; discriminate|vm_compute; discriminate|].
  apply H; vm_compute; [reflexivity|discriminate].
Defined.

(** X11: [burnUnvestedTokens] burns nothing: when it succeeds the
    token's state is exactly as before and the one event reports
    [DEPLOYER_ALLOCATION - vestedAmount]. It succeeds only for the owner or
    the deployer, strictly after the end of the vesting period, with the
    milestones unreached; it fails with "Unauthorized" for other callers,
    with "Vesting ongoing" up to and including the end of the period, and
    with "Milestones reached" once the flag is set. *)
Theorem burnUnvested_only_reports sender now k :
  vestingStartTime k + VESTING_DURATION <= MAX_UINT256 ->
  (forall k' ev,
     burnUnvestedTokens sender now k = Ok (tt, k', ev) ->
     k' = k /\
     ev = [UnvestedTokensBurned (DEPLOYER_ALLOCATION - vestedAmount k)] /\
     (sender = owner k \/ sender = deployer k) /\
     vestingStartTime k + VESTING_DURATION < now /\
     milestonesReached k = false /\
     vestedAmount k <= DEPLOYER_ALLOCATION) /\
  (sender <> owner k -> sender <> deployer k ->
   burnUnvestedTokens sender now k = Err Unauthorized) /\
  (sender = owner k \/ sender = deployer k ->
   now <= vestingStartTime k + VESTING_DURATION ->
   burnUnvestedTokens sender now k = Err VestingOngoing) /\
  (sender = owner k \/ sender = deployer k ->
   vestingStartTime k + VESTING_DURATION < now -> milestonesReached k = true ->
   burnUnvestedTokens sender now k = Err MilestonesAlreadyReached) /\
  (sender = owner k \/ sender = deployer k ->
   vestingStartTime k + VESTING_DURATION < now -> milestonesReached k = false ->
   vestedAmount k <= DEPLOYER_ALLOCATION ->
   burnUnvestedTokens sender now k
   = Ok (tt, k, [UnvestedTokensBurned (DEPLOYER_ALLOCATION - vestedAmount k)])).
Proof.
  intros Hfit.
  assert (Hauth : sender = owner k \/ sender = deployer k ->
                  (sender =? owner k) || (sender =? deployer k) = true).
  { intros [->| ->]; rewrite Z.eqb_refl; [reflexivity|apply orb_true_r]. }
  split; [|split; [|split; [|split]]].
  - intros k' ev H. invC H. bool_to_Prop.
    split; [reflexivity|]. split; [reflexivity|].
    split; [|split; [assumption|split; assumption]].
    match goal with
    | H : _ || _ = true |- _ =>
        apply orb_true_iff in H; destruct H as [H|H]; apply Z.eqb_eq in H; auto
    end.
  - intros Ho Hd. unfold burnUnvestedTokens.
    eapply bind_Err_second; [reflexivity|]. cbv beta.
    eapply bind_Err_second; [reflexivity|]. cbv beta.
    apply bind_Err, require_false, orb_false_iff. split; now apply Z.eqb_neq.
  - intros Ha Hnow. unfold burnUnvestedTokens.
    eapply bind_Err_second; [reflexivity|]. cbv beta.
    eapply bind_Err_second; [reflexivity|]. cbv beta.
    eapply bind_Err_second; [apply require_true; auto|].
    eapply bind_Err_second; [reflexivity|]. cbv beta.
    eapply bind_Err_second; [apply add_fits; assumption|]. cbv beta.
    apply bind_Err, require_false. now apply Z.ltb_ge.
  - intros Ha Hnow Hm. unfold burnUnvestedTokens.
    eapply bind_Err_second; [reflexivity|]. cbv beta.
    eapply bind_Err_second; [reflexivity|]. cbv beta.
    eapply bind_Err_second; [apply require_true; auto|].
    eapply bind_Err_second; [reflexivity|]. cbv beta.
    eapply bind_Err_second; [apply add_fits; assumption|]. cbv beta.
    eapply bind_Err_second; [apply require_true; now apply Z.ltb_lt|].
    eapply bind_Err_second; [reflexivity|]. cbv beta.
    apply bind_Err, require_false. now rewrite Hm.
  - intros Ha Hnow Hm Hv. unfold burnUnvestedTokens. eapply Ok_result.
    + run ltac:(first [reflexivity | assumption | auto | rewrite Hm; reflexivity]).
    + reflexivity.
Qed.

Lemma burnUnvested_only_reports_witness :
  burnUnvestedTokens Demo.deployerAddr (Demo.t0 + VESTING_DURATION) Demo.demo_token
  = Err VestingOngoing /\
  burnUnvestedTokens Demo.deployerAddr (Demo.t0 + VESTING_DURATION + 1) Demo.demo_token
  = Ok (tt, Demo.demo_token, [UnvestedTokensBurned DEPLOYER_ALLOCATION]).
Proof.
  split.
  - pose proof (burnUnvested_only_reports Demo.deployerAddr (Demo.t0 + VESTING_DURATION)
                  Demo.demo_token) as H.
    destruct H as (_ & _ & H & _); [vm_compute; discriminate|].
    apply H; [right; reflexivity|vm_compute; discriminate].
  - pose proof (burnUnvested_only_reports Demo.deployerAddr
                  (Demo.t0 + VESTING_DURATION + 1) Demo.demo_token) as H.
    destruct H as (_ & _ & _ & _ & H); [vm_compute; discriminate|].
    apply H; [right; reflexivity|vm_compute; reflexivity|reflexivity
             |vm_compute; discriminate].
Defined.

End Schedule.

(** * Invariants of the pair *)

Module Invariants.
Import Pricing Ledger.

Lemma sum_insert (m : gmap address uint256) k v :
  sum_balances (<[k := v]> m) = sum_balances m - balance m k + v.
Proof.
  unfold sum_balances, balance.
  destruct (m !! k) as [x|] eqn:E; cbn [default]; unfold id.
  - rewrite (map_fold_delete_L _ 0 k x m) by first [exact E | intros; lia].
    rewrite <- insert_delete_eq.
    rewrite map_fold_insert_L by first [apply lookup_delete_eq | intros; lia].
    lia.
  - rewrite map_fold_insert_L by first [exact E | intros; lia]. lia.
Qed.

Ltac balances :=
  rewrite ?sum_insert, ?balance_insert;
  repeat match goal with
         | |- context [?a =? ?b] => destruct (Z.eqb_spec a b)
         end;
  subst; try lia.

(** What a call does to the token's books and administration. *)
Lemma dispatch_token_books fa tx w w' ev :
  dispatch fa tx w = Ok (tt, w', ev) ->
  sum_balances (ERC20Token.balances (erc20 w')) - ERC20Token.totalSupply (erc20 w')
  = sum_balances (ERC20Token.balances (erc20 w)) - ERC20Token.totalSupply (erc20 w).
Proof.
  destruct tx as [sender value timestamp call].
  unfold dispatch. cbn [tx_sender tx_value tx_timestamp tx_call].
  intros H.
  destruct call; invC H; fields; try reflexivity; balances.
Qed.

Lemma execute_keeps P fa tx w :
  (forall w' ev, dispatch fa tx (credited fa tx w) = Ok (tt, w', ev) -> P w') ->
  P w -> P (fst (execute fa w tx)).
Proof.
  intros Hok Hw. unfold execute.
  destruct (run fa tx w) as [[[[] w'] ev]|e] eqn:Hrun; cbn [fst]; [|assumption].
  apply run_Ok_inv in Hrun. destruct Hrun as (_ & _ & H). eauto.
Qed.

(** X12: the total supply of the token is the sum of all balances:
    if this holds of a world, it holds after any sequence of transactions
    (mints by buys and claims, burns by sells and by holders, transfers,
    reverted transactions). *)
Theorem supply_is_sum_of_balances fa w txs :
  sum_balances (ERC20Token.balances (erc20 w)) = ERC20Token.totalSupply (erc20 w) ->
  sum_balances (ERC20Token.balances (erc20 (replay fa w txs)))
  = ERC20Token.totalSupply (erc20 (replay fa w txs)).
Proof.
  revert w. induction txs as [|tx txs IH]; intros w Hw; [assumption|].
  cbn [replay]. apply IH.
  apply (execute_keeps
           (fun w => sum_balances (ERC20Token.balances (erc20 w))
                     = ERC20Token.totalSupply (erc20 w))); [|assumption].
  intros w' ev H. apply dispatch_token_books in H.
  unfold credited in H. fields_in H. lia.
Qed.

Lemma supply_is_sum_of_balances_witness :
  sum_balances (ERC20Token.balances (erc20 (replay Demo.factoryAddr Demo.live Demo.three_buys)))
  = ERC20Token.totalSupply (erc20 (replay Demo.factoryAddr Demo.live Demo.three_buys)).
Proof.
  apply (supply_is_sum_of_balances Demo.factoryAddr Demo.live Demo.three_buys).
  vm_compute. reflexivity.
Defined.

(** What a call leaves of the constants of the pair, of the vested amount
    and of the owner. *)
Lemma dispatch_constants fa tx w w' ev :
  dispatch fa tx w = Ok (tt, w', ev) ->
  (this w' = this w /\ rejecting w' = rejecting w /\
   token (curve w') = token (curve w) /\
   MAX_SUPPLY (curve w') = MAX_SUPPLY (curve w) /\
   BondingCurve.deployer (curve w') = BondingCurve.deployer (curve w) /\
   platform (curve w') = platform (curve w) /\
   factory (curve w') = factory (curve w) /\
   ERC20Token.deployer (erc20 w') = ERC20Token.deployer (erc20 w) /\
   ERC20Token.vestingStartTime (erc20 w') = ERC20Token.vestingStartTime (erc20 w) /\
   ERC20Token.name (erc20 w') = ERC20Token.name (erc20 w) /\
   ERC20Token.symbol (erc20 w') = ERC20Token.symbol (erc20 w)) /\
  (ERC20Token.owner (erc20 w') = ERC20Token.owner (erc20 w)
   \/ ERC20Token.owner (erc20 w') <> 0) /\
  (ERC20Token.vestedAmount (erc20 w') = ERC20Token.vestedAmount (erc20 w)
   \/ (tx_call tx = Token_claimVestedTokens /\
       ERC20Token.vestedAmount (erc20 w) < ERC20Token.vestedAmount (erc20 w') /\
       ERC20Token.vestedAmount (erc20 w')
       = vestingFormula (erc20 w) (tx_timestamp tx) /\
       (tx_timestamp tx
        < ERC20Token.vestingStartTime (erc20 w) + ERC20Token.VESTING_DURATION ->
        ERC20Token.vestingStartTime (erc20 w) <= tx_timestamp tx))).
Proof.
  destruct tx as [sender value timestamp call].
  unfold dispatch. cbn [tx_sender tx_value tx_timestamp tx_call].
  intros H.
  destruct call.
  7: { unfold call_token in H. apply zoom_Ok in H. destruct H as (k' & H & ->).
       apply Schedule.claim_Ok_inv in H. cbv zeta in H.
       destruct H as (_ & Hclock & [(_ & -> & _)|(Hlt & -> & _)]); unfold minted; fields.
       - split; [repeat split|]. split; [left; reflexivity|left; reflexivity].
       - split; [repeat split|]. split; [left; reflexivity|].
         right. repeat (split; [first [reflexivity | assumption]|]). assumption. }
  all: invC H; fields; bool_to_Prop;
    (split; [repeat split|]); (split; [first [left; reflexivity | right; assumption]|]);
    left; reflexivity.
Qed.

(** X13: no sequence of transactions changes what the constructors
    set once: the curve's address, its token, [MAX_SUPPLY], deployer,
    platform and factory, and the token's deployer, vesting start, name and
    symbol. *)
Theorem constants_never_change fa w txs :
  let w' := replay fa w txs in
  this w' = this w /\
  token (curve w') = token (curve w) /\
  MAX_SUPPLY (curve w') = MAX_SUPPLY (curve w) /\
  BondingCurve.deployer (curve w') = BondingCurve.deployer (curve w) /\
  platform (curve w') = platform (curve w) /\
  factory (curve w') = factory (curve w) /\
  ERC20Token.deployer (erc20 w') = ERC20Token.deployer (erc20 w) /\
  ERC20Token.vestingStartTime (erc20 w') = ERC20Token.vestingStartTime (erc20 w) /\
  ERC20Token.name (erc20 w') = ERC20Token.name (erc20 w) /\
  ERC20Token.symbol (erc20 w') = ERC20Token.symbol (erc20 w).
Proof.
  cbv zeta. revert w. induction txs as [|tx txs IH]; intros w; [repeat split|].
  cbn [replay].
  destruct (IH (fst (execute fa w tx))) as (I1 & I2 & I3 & I4 & I5 & I6 & I7 & I8 & I9 & I10).
  rewrite I1, I2, I3, I4, I5, I6, I7, I8, I9, I10. clear.
  apply (execute_keeps
    (fun w' =>
       this w' = this w /\
       token (curve w') = token (curve w) /\
       MAX_SUPPLY (curve w') = MAX_SUPPLY (curve w) /\
       BondingCurve.deployer (curve w') = BondingCurve.deployer (curve w) /\
       platform (curve w') = platform (curve w) /\
       factory (curve w') = factory (curve w) /\
       ERC20Token.deployer (erc20 w') = ERC20Token.deployer (erc20 w) /\
       ERC20Token.vestingStartTime (erc20 w') = ERC20Token.vestingStartTime (erc20 w) /\
       ERC20Token.name (erc20 w') = ERC20Token.name (erc20 w) /\
       ERC20Token.symbol (erc20 w') = ERC20Token.symbol (erc20 w))); [|repeat split].
  intros w' ev H. apply dispatch_constants in H. unfold credited in H. fields_in H.
  destruct H as ((H1 & _ & H2 & H3 & H4 & H5 & H6 & H7 & H8 & H9 & H10) & _).
  repeat (split; [assumption|]). assumption.
Qed.

(** X14: over any sequence of transactions the vested amount of
    the token never decreases, and if it was within the deployer allocation
    it stays within it. *)
Theorem vested_amount_only_grows fa w txs :
  ERC20Token.vestedAmount (erc20 w) <= ERC20Token.vestedAmount (erc20 (replay fa w txs)) /\
  (ERC20Token.vestedAmount (erc20 w) <= ERC20Token.DEPLOYER_ALLOCATION ->
   ERC20Token.vestedAmount (erc20 (replay fa w txs)) <= ERC20Token.DEPLOYER_ALLOCATION).
Proof.
  revert w. induction txs as [|tx txs IH]; intros w; [cbn [replay]; split; [lia|auto]|].
  cbn [replay]. destruct (IH (fst (execute fa w tx))) as (IH1 & IH2).
  assert (Hstep :
    ERC20Token.vestedAmount (erc20 w)
    <= ERC20Token.vestedAmount (erc20 (fst (execute fa w tx))) /\
    (ERC20Token.vestedAmount (erc20 w) <= ERC20Token.DEPLOYER_ALLOCATION ->
     ERC20Token.vestedAmount (erc20 (fst (execute fa w tx)))
     <= ERC20Token.DEPLOYER_ALLOCATION)).
  { apply (execute_keeps
      (fun w' =>
         ERC20Token.vestedAmount (erc20 w) <= ERC20Token.vestedAmount (erc20 w') /\
         (ERC20Token.vestedAmount (erc20 w) <= ERC20Token.DEPLOYER_ALLOCATION ->
          ERC20Token.vestedAmount (erc20 w') <= ERC20Token.DEPLOYER_ALLOCATION)));
      [|split; [lia|auto]].
    intros w' ev H. apply dispatch_constants in H. unfold credited in H. fields_in H.
    destruct H as (_ & _ & [->|(_ & Hlt & Hv & Hclock)]); [split; [lia|auto]|].
    split; [lia|]. intros _. rewrite Hv.
    now apply Schedule.vestingFormula_le_allocation. }
  destruct Hstep as (S1 & S2). split; [lia|auto].
Qed.

Lemma vested_amount_only_grows_witness :
  ERC20Token.vestedAmount (erc20 (replay Demo.factoryAddr Demo.live Demo.idle))
  <= ERC20Token.DEPLOYER_ALLOCATION.
Proof.
  apply (proj2 (vested_amount_only_grows Demo.factoryAddr Demo.live Demo.idle)).
  vm_compute. discriminate.
Defined.

(** X15: the owner of the token is never the zero address: if it is
    not in a world, it is not after any sequence of transactions, so
    ownership cannot be renounced. *)
Theorem owner_is_never_zero fa w txs :
  ERC20Token.owner (erc20 w) <> 0 ->
  ERC20Token.owner (erc20 (replay fa w txs)) <> 0.
Proof.
  revert w. induction txs as [|tx txs IH]; intros w Hw; [assumption|].
  cbn [replay]. apply IH.
  apply (execute_keeps (fun w => ERC20Token.owner (erc20 w) <> 0)); [|assumption].
  intros w' ev H. apply dispatch_constants in H. unfold credited in H. fields_in H.
  destruct H as (_ & [->|Hnz] & _); assumption.
Qed.

Lemma owner_is_never_zero_witness :
  ERC20Token.owner (erc20 (replay Demo.factoryAddr Demo.fresh (Demo.handover :: Demo.idle)))
  <> 0.
Proof.
  apply (owner_is_never_zero Demo.factoryAddr Demo.fresh (Demo.handover :: Demo.idle)).
  vm_compute. discriminate.
Defined.

End Invariants.

(** * Administration of the token *)

Module Administration.
Import Pricing Ledger.

(** X16: [ERC20Token.transferOwnership] fails with "Only owner" for
    any caller but the owner and with "Zero address" for the zero address;
    otherwise it sets the owner and nothing else, and from then on the
    previous owner (if different from the new one) can no longer mint, set
    the milestones or transfer the ownership back. *)
Theorem transferOwnership_hands_over sender newOwner k :
  (sender <> ERC20Token.owner k ->
   ERC20Token.transferOwnership sender newOwner k = Err OnlyOwner) /\
  (sender = ERC20Token.owner k -> newOwner = 0 ->
   ERC20Token.transferOwnership sender newOwner k = Err ZeroAddress) /\
  (sender = ERC20Token.owner k -> newOwner <> 0 ->
   let k' := ERC20Token.set_owner newOwner k in
   ERC20Token.transferOwnership sender newOwner k = Ok (tt, k', []) /\
   (newOwner <> sender ->
    (forall to amount, ERC20Token.mint sender to amount k' = Err OnlyOwner) /\
    ERC20Token.setMilestonesReached sender k' = Err OnlyOwner /\
    (forall back, ERC20Token.transferOwnership sender back k' = Err OnlyOwner))).
Proof.
  assert (Hdeny : forall s k0, s <> ERC20Token.owner k0 ->
            (forall to amount, ERC20Token.mint s to amount k0 = Err OnlyOwner) /\
            ERC20Token.setMilestonesReached s k0 = Err OnlyOwner /\
            (forall back, ERC20Token.transferOwnership s back k0 = Err OnlyOwner)).
  { intros s k0 Hne. repeat split; intros;
      unfold ERC20Token.mint, ERC20Token.setMilestonesReached, ERC20Token.transferOwnership;
      (eapply bind_Err_second; [reflexivity|]); cbv beta;
      apply bind_Err, require_false; now apply Z.eqb_neq. }
  split; [|split].
  - intros Hne. now apply Hdeny.
  - intros -> ->. unfold ERC20Token.transferOwnership.
    eapply bind_Err_second; [reflexivity|]. cbv beta.
    eapply bind_Err_second; [apply require_true, Z.eqb_refl|].
    apply bind_Err, require_false. reflexivity.
  - intros -> Hnz. cbv zeta. split.
    + unfold ERC20Token.transferOwnership. eapply Ok_result.
      * run ltac:(first [reflexivity | assumption]).
      * reflexivity.
    + intros Hne. apply Hdeny. cbn. congruence.
Qed.

Lemma transferOwnership_hands_over_witness :
  ERC20Token.transferOwnership Demo.factoryAddr Demo.curveAddr Demo.demo_token
  = Ok (tt, ERC20Token.set_owner Demo.curveAddr Demo.demo_token, []) /\
  ERC20Token.setMilestonesReached Demo.factoryAddr
    (ERC20Token.set_owner Demo.curveAddr Demo.demo_token) = Err OnlyOwner.
Proof.
  pose proof (transferOwnership_hands_over Demo.factoryAddr Demo.curveAddr Demo.demo_token)
    as (_ & _ & H).
  cbv zeta in H. destruct H as (H1 & H2); [reflexivity|vm_compute; discriminate|].
  split; [exact H1|]. apply H2. vm_compute. discriminate.
Defined.

(** X17: [TokenFactory.transferTokenOwnership] fails with "Only
    deployer" unless the caller is the deployer recorded in the token, with
    the token's "Only owner" when the factory is not (or no longer) the
    owner of the token, and with "Zero address" for the zero address;
    otherwise it makes [newOwner] the owner of the token and changes nothing
    else, and emits no event. *)
Theorem factory_transfer_needs_deployer_and_ownership fa sender tokenArg newOwner w :
  (tokenArg <> token (curve w) ->
   TokenFactory.transferTokenOwnership fa sender tokenArg newOwner w = Err UnknownContract) /\
  (tokenArg = token (curve w) -> sender <> ERC20Token.deployer (erc20 w) ->
   TokenFactory.transferTokenOwnership fa sender tokenArg newOwner w = Err OnlyDeployer) /\
  (tokenArg = token (curve w) -> sender = ERC20Token.deployer (erc20 w) ->
   ERC20Token.owner (erc20 w) <> fa ->
   TokenFactory.transferTokenOwnership fa sender tokenArg newOwner w = Err OnlyOwner) /\
  (tokenArg = token (curve w) -> sender = ERC20Token.deployer (erc20 w) ->
   ERC20Token.owner (erc20 w) = fa -> newOwner = 0 ->
   TokenFactory.transferTokenOwnership fa sender tokenArg newOwner w = Err ZeroAddress) /\
  (tokenArg = token (curve w) -> sender = ERC20Token.deployer (erc20 w) ->
   ERC20Token.owner (erc20 w) = fa -> newOwner <> 0 ->
   TokenFactory.transferTokenOwnership fa sender tokenArg newOwner w
   = Ok (tt, set_erc20 (ERC20Token.set_owner newOwner (erc20 w)) w, [])).
Proof.
  unfold TokenFactory.transferTokenOwnership.
  split; [|split; [|split; [|split]]].
  - intros Hne. eapply bind_Err_second; [reflexivity|]. cbv beta.
    apply bind_Err, require_false. now apply Z.eqb_neq.
  - intros -> Hne. eapply bind_Err_second; [reflexivity|]. cbv beta.
    eapply bind_Err_second; [apply require_true, Z.eqb_refl|].
    eapply bind_Err_second; [reflexivity|]. cbv beta.
    apply bind_Err, require_false. now apply Z.eqb_neq.
  - intros -> -> Hne. eapply bind_Err_second; [reflexivity|]. cbv beta.
    eapply bind_Err_second; [apply require_true, Z.eqb_refl|].
    eapply bind_Err_second; [reflexivity|]. cbv beta.
    eapply bind_Err_second; [apply require_true, Z.eqb_refl|].
    unfold call_token. apply zoom_Err. unfold ERC20Token.transferOwnership.
    eapply bind_Err_second; [reflexivity|]. cbv beta.
    apply bind_Err, require_false. apply Z.eqb_neq. congruence.
  - intros -> -> Ho ->. eapply bind_Err_second; [reflexivity|]. cbv beta.
    eapply bind_Err_second; [apply require_true, Z.eqb_refl|].
    eapply bind_Err_second; [reflexivity|]. cbv beta.
    eapply bind_Err_second; [apply require_true, Z.eqb_refl|].
    unfold call_token. apply zoom_Err. unfold ERC20Token.transferOwnership.
    eapply bind_Err_second; [reflexivity|]. cbv beta.
    eapply bind_Err_second; [apply require_true; apply Z.eqb_eq; congruence|].
    apply bind_Err, require_false. reflexivity.
  - intros -> -> Ho Hnz. eapply Ok_result.
    + unfold ERC20Token.transferOwnership.
      run ltac:(first [reflexivity | assumption | congruence]).
    + reflexivity.
Qed.

Lemma factory_transfer_needs_deployer_and_ownership_witness :
  TokenFactory.transferTokenOwnership Demo.factoryAddr Demo.deployerAddr Demo.tokenAddr
    Demo.deployerAddr Demo.live = Err OnlyOwner.
Proof.
  pose proof (factory_transfer_needs_deployer_and_ownership Demo.factoryAddr
                Demo.deployerAddr Demo.tokenAddr Demo.deployerAddr Demo.live)
    as (_ & _ & H & _).
  apply H; vm_compute; first [reflexivity | discriminate].
Defined.

End Administration.

(** * Burning, selling and creating *)

Module Lifecycle.
Import Pricing Ledger.

(** X18: [ERC20Token.burn] destroys tokens of the caller only: when
    it succeeds the caller held at least the amount, the caller's balance and
    the supply are reduced by the amount, every other balance is as before,
    and [Transfer] to the zero address and [TokensBurned] are emitted. It
    fails with [ERC20InvalidSender] for the zero address and with
    [ERC20InsufficientBalance] when the caller holds less than the amount,
    and succeeds otherwise. *)
Theorem burn_destroys_own_tokens sender amount k :
  (forall k' ev,
     ERC20Token.burn sender amount k = Ok (tt, k', ev) ->
     sender <> 0 /\
     amount <= balance (ERC20Token.balances k) sender /\
     k' = burnt sender amount k /\
     ERC20Token.totalSupply k' = ERC20Token.totalSupply k - amount /\
     (forall a,
        balance (ERC20Token.balances k') a
        = balance (ERC20Token.balances k) a - if a =? sender then amount else 0) /\
     ev = [Transfer sender 0 amount; TokensBurned sender amount]) /\
  (sender = 0 -> ERC20Token.burn sender amount k = Err ERC20InvalidSender) /\
  (sender <> 0 -> balance (ERC20Token.balances k) sender < amount ->
   ERC20Token.burn sender amount k = Err ERC20InsufficientBalance) /\
  (sender <> 0 -> amount <= balance (ERC20Token.balances k) sender ->
   ERC20Token.burn sender amount k
   = Ok (tt, burnt sender amount k, [Transfer sender 0 amount; TokensBurned sender amount])).
Proof.
  split; [|split; [|split]].
  - intros k' ev H. unfold burnt. invC H. bool_to_Prop.
    cbn [ERC20Token.totalSupply ERC20Token.balances ERC20Token.set_balances
         ERC20Token.set_totalSupply].
    repeat (split; [first [assumption | reflexivity]|]).
    split; [|reflexivity].
    intros a. rewrite balance_insert. destruct (Z.eqb_spec a sender); subst; lia.
  - intros ->. unfold ERC20Token.burn, ERC20Token._burn.
    apply bind_Err, bind_Err, require_false. reflexivity.
  - intros Hnz Hlt. unfold ERC20Token.burn, ERC20Token._burn, ERC20Token._update.
    destruct (Z.eqb_spec sender 0); [contradiction|].
    assert ((amount <=? balance (ERC20Token.balances k) sender) = false) as E
      by (now apply Z.leb_gt).
    unfold bind, require, gets, revert, ret. cbn [negb]. rewrite E. reflexivity.
  - intros Hnz Hle. unfold ERC20Token.burn, ERC20Token._burn, ERC20Token._update, burnt.
    cbn [Z.eqb]. eapply Ok_result.
    + run ltac:(first [reflexivity | assumption]).
    + reflexivity.
Qed.

Lemma burn_destroys_own_tokens_witness :
  ERC20Token.burn Demo.userAddr (10000 * ether) (erc20 Demo.approved)
  = Err ERC20InsufficientBalance.
Proof.
  pose proof (burn_destroys_own_tokens Demo.userAddr (10000 * ether) (erc20 Demo.approved))
    as (_ & _ & H & _).
  apply H; vm_compute; first [reflexivity | discriminate].
Defined.

(** X19: a holder's burn never lowers the price the curve quotes: if
    a burn of a non-negative amount succeeds and leaves a positive supply,
    the price after it is at least the price before it, and
    [getCurrentPrice] returns these two prices when the scaled collateral
    fits a word. *)
Theorem burn_never_lowers_price sender amount w k' ev :
  ERC20Token.burn sender amount (erc20 w) = Ok (tt, k', ev) ->
  0 <= amount -> 0 <= totalEthInvested (curve w) ->
  0 < ERC20Token.totalSupply k' ->
  price_of w <= price_of (set_erc20 k' w) /\
  (totalEthInvested (curve w) * SCALE <= MAX_UINT256 ->
   exists p p',
     getCurrentPrice w = Ok (p, w, []) /\
     getCurrentPrice (set_erc20 k' w) = Ok (p', set_erc20 k' w, []) /\
     p <= p').
Proof.
  intros H Hamt Hinv Hleft.
  assert (ERC20Token.totalSupply k' = ERC20Token.totalSupply (erc20 w) - amount) as Hsup.
  { invC H. reflexivity. }
  assert (price_of w <= price_of (set_erc20 k' w)) as Hle.
  { unfold price_of. fields. rewrite Hsup in *.
    destruct (Z.eqb_spec (ERC20Token.totalSupply (erc20 w)) 0); [lia|].
    destruct (Z.eqb_spec (ERC20Token.totalSupply (erc20 w) - amount) 0); [lia|].
    assert (0 <= totalEthInvested (curve w) * SCALE)
      by (apply Z.mul_nonneg_nonneg; [lia|vm_compute; discriminate]).
    apply Z.div_le_compat_l; lia. }
  split; [exact Hle|].
  intros Hfit. exists (price_of w), (price_of (set_erc20 k' w)).
  split; [|split; [|exact Hle]].
  - apply getCurrentPrice_run. intros _. exact Hfit.
  - apply getCurrentPrice_run. intros _. fields. exact Hfit.
Qed.

Lemma burn_never_lowers_price_witness :
  price_of Demo.approved
  <= price_of (set_erc20 (burnt Demo.userAddr (100 * ether) (erc20 Demo.approved))
                         Demo.approved).
Proof.
  refine (proj1 (burn_never_lowers_price Demo.userAddr (100 * ether) Demo.approved
                   (burnt Demo.userAddr (100 * ether) (erc20 Demo.approved))
                   [Transfer Demo.userAddr 0 (100 * ether);
                    TokensBurned Demo.userAddr (100 * ether)] _ _ _ _)).
  - vm_compute. reflexivity.
  - vm_compute. discriminate.
  - vm_compute. discriminate.
  - vm_compute. reflexivity.
Defined.

(** X20: a successful sell was made by a seller that accepts ether
    and had approved the curve: unless the allowance is the maximal word,
    it was at least the amount sold and is reduced by it; a maximal
    allowance is left as it is. No other allowance changes. *)
Theorem sell_needs_allowance_and_payee sender tokenAmount w w' ev :
  sell sender tokenAmount w = Ok (tt, w', ev) ->
  let a := allowed (ERC20Token.allowances (erc20 w)) sender (this w) in
  (sender ∉ rejecting w) /\
  rejecting w' = rejecting w /\
  (a <> MAX_UINT256 -> tokenAmount <= a) /\
  allowed (ERC20Token.allowances (erc20 w')) sender (this w)
  = (if a =? MAX_UINT256 then a else a - tokenAmount) /\
  (forall h s, (h, s) <> (sender, this w) ->
     allowed (ERC20Token.allowances (erc20 w')) h s
     = allowed (ERC20Token.allowances (erc20 w)) h s).
Proof.
  intros H. cbv zeta. invC H.
  all: fields.
  all: bool_to_Prop.
  all: repeat match goal with
       | E : bool_decide _ = false |- _ => apply bool_decide_eq_false in E
       | E : (_ =? _) = false |- _ => apply Z.eqb_neq in E
       | E : (_ =? _) = true |- _ => apply Z.eqb_eq in E
       end.
  all: try discriminate.
  all: split; [assumption|].
  all: split; [reflexivity|].
  all: split; [intros; first [lia | congruence]|].
  all: split; [|intros h s Hhs].
  all: unfold allowed.
  all: rewrite ?lookup_insert_eq, ?lookup_insert_ne by congruence.
  all: reflexivity.
Qed.

Lemma sell_needs_allowance_and_payee_witness :
  allowed (ERC20Token.allowances (erc20 (fst Demo.sold))) Demo.userAddr Demo.curveAddr = 0.
Proof.
  pose proof (sell_needs_allowance_and_payee Demo.userAddr (1000 * ether) Demo.approved
                (fst Demo.sold) (snd Demo.sold)) as H.
  cbv zeta in H.
  destruct H as (_ & _ & _ & H & _).
  - vm_compute. reflexivity.
  - change (this Demo.approved) with Demo.curveAddr in H. rewrite H.
    vm_compute. reflexivity.
Defined.

(** X21: [createToken] fails with "Insufficient fee" below 0.003
    ether and with "Fee transfer failed" when the platform refuses ether.
    When it succeeds the whole value sent, not only the fee, has moved from
    the factory to the platform and no other ether balance changed; the new
    token has no holders, its vesting starts at the block's timestamp with
    nothing vested; the new curve has [MAX_SUPPLY] zero, no fees accrued and
    the platform of the factory, quotes the base price, and the events are
    [TokenCreated] and [BondingCurveCreated]. *)
Theorem createToken_forwards_whole_payment fa f creator value timestamp name symbol
    tokenAddress curveAddress eth0 rej0 :
  (value < TokenFactory.TOKEN_CREATION_FEE ->
   TokenFactory.createToken fa f creator value timestamp name symbol
     tokenAddress curveAddress eth0 rej0 = Err InsufficientFee) /\
  (TokenFactory.TOKEN_CREATION_FEE <= value ->
   fa <> 0 -> creator <> 0 -> tokenAddress <> 0 -> TokenFactory.platform f <> 0 ->
   TokenFactory.platform f ∈ rej0 ->
   TokenFactory.createToken fa f creator value timestamp name symbol
     tokenAddress curveAddress eth0 rej0 = Err FeeTransferFailed) /\
  (forall ta ca w0 ev,
     TokenFactory.createToken fa f creator value timestamp name symbol
       tokenAddress curveAddress eth0 rej0 = Ok (ta, ca, w0, ev) ->
     TokenFactory.TOKEN_CREATION_FEE <= value /\
     (TokenFactory.platform f ∉ rej0) /\
     (fa <> TokenFactory.platform f ->
      balance (eth w0) (TokenFactory.platform f)
      = balance eth0 (TokenFactory.platform f) + value /\
      balance (eth w0) fa = balance eth0 fa - value) /\
     (forall a, a <> fa -> a <> TokenFactory.platform f ->
        balance (eth w0) a = balance eth0 a) /\
     ERC20Token.balances (erc20 w0) = ∅ /\
     ERC20Token.vestingStartTime (erc20 w0) = timestamp /\
     ERC20Token.vestedAmount (erc20 w0) = 0 /\
     MAX_SUPPLY (curve w0) = 0 /\
     platformFeesCollected (curve w0) = 0 /\
     liquidityAdded (curve w0) = false /\
     BondingCurve.platform (curve w0) = TokenFactory.platform f /\
     getCurrentPrice w0 = Ok (BASE_PRICE, w0, []) /\
     ev = [TokenCreated tokenAddress name symbol creator;
           BondingCurveCreated curveAddress tokenAddress]).
Proof.
  unfold TokenFactory.createToken, ERC20Token.constructor, BondingCurve.constructor.
  split; [|split].
  - intros Hlt. apply Z.leb_gt in Hlt. rewrite Hlt. reflexivity.
  - intros Hfee Hfa Hc Ht Hp Hrej.
    apply Z.leb_le in Hfee. rewrite Hfee. cbn [negb].
    apply Z.eqb_neq in Hfa, Hc, Ht, Hp. rewrite Hfa, Hc, Ht, Hp.
    rewrite (bool_decide_eq_true_2 _ Hrej). cbn [negb]. rewrite andb_false_r.
    reflexivity.
  - intros ta ca w0 ev.
    destruct (Z.leb_spec TokenFactory.TOKEN_CREATION_FEE value) as [Hfee|];
      [cbn [negb]|discriminate].
    destruct (Z.eqb_spec fa 0); [discriminate|].
    destruct (Z.eqb_spec creator 0); [discriminate|].
    destruct (Z.eqb_spec tokenAddress 0); [discriminate|].
    destruct (Z.eqb_spec (TokenFactory.platform f) 0); [discriminate|].
    destruct (Z.leb_spec value (balance eth0 fa)); [|discriminate].
    destruct (bool_decide (TokenFactory.platform f ∈ rej0)) eqn:Hrej; [discriminate|].
    apply bool_decide_eq_false in Hrej.
    cbn [andb negb]. intros [= <- <- <- <-]. fields.
    cbn [ERC20Token.balances ERC20Token.vestingStartTime ERC20Token.vestedAmount
         ERC20Token.totalSupply MAX_SUPPLY platformFeesCollected liquidityAdded
         BondingCurve.platform].
    split; [exact Hfee|]. split; [exact Hrej|].
    split; [intros Hne; rewrite !move_lookup by exact Hne;
            rewrite Z.eqb_refl; destruct (Z.eqb_spec fa (TokenFactory.platform f));
            [contradiction|]; rewrite Z.eqb_refl; split; reflexivity|].
    split.
    { intros a Hfa Hp. unfold move. cbv zeta. rewrite !balance_insert.
      destruct (Z.eqb_spec a (TokenFactory.platform f)); [contradiction|].
      destruct (Z.eqb_spec a fa); [contradiction|]. reflexivity. }
    repeat (split; [reflexivity|]).
    reflexivity.
Qed.

Lemma createToken_forwards_whole_payment_witness :
  TokenFactory.createToken Demo.factoryAddr (TokenFactory.mk Demo.platformAddr)
    Demo.deployerAddr (ether / 1000) Demo.t0 "Test" "TST" Demo.tokenAddr Demo.curveAddr
    Demo.eth0 ∅ = Err InsufficientFee.
Proof.
  apply (proj1 (createToken_forwards_whole_payment Demo.factoryAddr
                  (TokenFactory.mk Demo.platformAddr) Demo.deployerAddr (ether / 1000)
                  Demo.t0 "Test" "TST" Demo.tokenAddr Demo.curveAddr Demo.eth0 ∅)).
  vm_compute. reflexivity.
Defined.

(** X22: the gross ether [calculateSellReturn] quotes for an amount
    of tokens up to the total supply is never negative and never more than
    the market cap, which [getMarketCap] reports as the collateral invested;
    the quote is [tokensIn * price / 1e18] and the call changes nothing. *)
Theorem sell_return_within_market_cap tokensIn w r w' ev :
  calculateSellReturn tokensIn w = Ok (r, w', ev) ->
  0 <= tokensIn <= ERC20Token.totalSupply (erc20 w) ->
  0 <= totalEthInvested (curve w) ->
  getMarketCap w = Ok (totalEthInvested (curve w), w, []) /\
  0 <= r <= totalEthInvested (curve w) /\
  r = tokensIn * price_of w / SCALE /\
  w' = w /\ ev = [].
Proof.
  intros H Hin Hinv.
  split; [reflexivity|].
  assert (0 < SCALE) as HS by (vm_compute; reflexivity).
  assert (r = tokensIn * price_of w / SCALE /\ w' = w /\ ev = []) as (Hr & -> & ->).
  { unfold price_of. invC H; auto. }
  split; [|auto].
  subst r. unfold price_of.
  destruct (Z.eqb_spec (ERC20Token.totalSupply (erc20 w)) 0) as [E|E].
  - assert (tokensIn = 0) as -> by lia. rewrite Z.mul_0_l, Z.div_0_l by lia. lia.
  - set (sup := ERC20Token.totalSupply (erc20 w)) in *.
    set (I := totalEthInvested (curve w)) in *.
    assert (0 <= I * SCALE) by nia.
    assert (0 <= I * SCALE / sup) by (apply Z.div_pos; lia).
    split; [apply Z.div_pos; nia|].
    apply Z.div_le_upper_bound; [lia|].
    assert (sup * (I * SCALE / sup) <= I * SCALE) by (apply Z.mul_div_le; lia).
    nia.
Qed.

Lemma sell_return_within_market_cap_witness :
  exists r, calculateSellReturn (1000 * ether) Demo.approved = Ok (r, Demo.approved, [])
            /\ 0 <= r <= totalEthInvested (curve Demo.approved).
Proof.
  destruct (calculateSellReturn (1000 * ether) Demo.approved) as [[[r w'] ev]|e] eqn:E;
    [|vm_compute in E; discriminate E].
  destruct (sell_return_within_market_cap (1000 * ether) Demo.approved r w' ev E)
    as (_ & Hr & _ & -> & ->).
  - vm_compute. split; discriminate.
  - vm_compute. discriminate.
  - exists r. split; [reflexivity|exact Hr].
Defined.

End Lifecycle.
